(** * A shallow embedding of the finance agent's plan-execute loop

    The development follows the Python sources:
    - [action.py]   : the data table, the calculator tools and [execute_action];
    - [decision.py] : the Planner, [decide_next_step];
    - [main.py]     : the Parameter Resolver, [resolve_params_with_llm], and the
                      loop driver of [main];
    - [memory.py]   : the persisted context.

    Python values are modelled by the type [value]; a Python call that may
    raise returns a [res], its value or the exception.  Floats are IEEE
    binary64 numbers (Rocq's primitive floats), integers are unbounded ([Z]).
    A Python [str] is a Rocq [string] holding the UTF-8 encoding of its
    characters.  Building the client and the prompts, the calls of the user
    interface and the writes of the memory file are taken not to raise. *)

From Stdlib Require Import ZArith List String Ascii Bool Lia.
From Stdlib Require Import PrimFloat SpecFloat FloatOps.
From Stdlib Require DecimalString.
Import ListNotations.

Local Open Scope string_scope.
Set Warnings "-register-all,-inexact-float".

(* ================================================================== *)
(** * The Python runtime: exceptions, values, operators                 *)
(* ================================================================== *)

Module Py.

(** The exception classes the modelled code can meet.  [JSONDecodeError] is
    [json.loads]'s, [ValidationError] is pydantic's, [CollaboratorError] stands
    for whatever the language-model client raises. *)
Inductive exn_class :=
| TypeError | KeyError | ZeroDivisionError | OverflowError | NameError
| AttributeError | IndexError | ValueError | JSONDecodeError
| ValidationError | CollaboratorError.

(** An exception: its class and [str(e)]. *)
Record exn := Exn { exn_cls : exn_class; exn_str : string }.

Inductive res (A : Type) :=
| Ok (a : A)
| Raise (e : exn).
Arguments Ok {A} a.
Arguments Raise {A} e.

Definition bind {A B} (r : res A) (k : A -> res B) : res B :=
  match r with
  | Ok a => k a
  | Raise e => Raise e
  end.

(** [mapM f l]: a list comprehension [[f x for x in l]] whose body may raise;
    the first raising element ends it. *)
Fixpoint mapM {A B} (f : A -> res B) (l : list A) : res (list B) :=
  match l with
  | [] => Ok []
  | x :: xs =>
      bind (f x) (fun y => bind (mapM f xs) (fun ys => Ok (y :: ys)))
  end.

(** JSON-shaped Python values.  A [dict] keeps insertion order and has [str]
    keys (every dict of the program is decoded from JSON or built with string
    keys). *)
Inductive value :=
| VNone
| VBool (b : bool)
| VInt (z : Z)
| VFloat (f : float)
| VStr (s : string)
| VList (l : list value)
| VDict (d : list (string * value)).

Definition dict := list (string * value).

Definition type_name (v : value) : string :=
  match v with
  | VNone => "NoneType"
  | VBool _ => "bool"
  | VInt _ => "int"
  | VFloat _ => "float"
  | VStr _ => "str"
  | VList _ => "list"
  | VDict _ => "dict"
  end.

(** ** Numbers *)

Definition float_is_zero (f : float) : bool :=
  SFeqb (Prim2SF f) (S754_zero false).

(** [f > 0] on a float; false on NaN. *)
Definition float_gt0 (f : float) : bool :=
  SFltb (S754_zero false) (Prim2SF f).

(** [f <= 0] on a float; false on NaN. *)
Definition float_le0 (f : float) : bool :=
  SFleb (Prim2SF f) (S754_zero false).

(** [bool(v)]. *)
Definition truthy (v : value) : bool :=
  match v with
  | VNone => false
  | VBool b => b
  | VInt z => negb (Z.eqb z 0)
  | VFloat f => negb (float_is_zero f)
  | VStr s => negb (String.eqb s "")
  | VList l => match l with [] => false | _ => true end
  | VDict d => match d with [] => false | _ => true end
  end.

(** [isinstance(v, (int, float))]: [bool] is a subclass of [int]. *)
Inductive num := NInt (z : Z) | NFloat (f : float).

Definition as_num (v : value) : option num :=
  match v with
  | VBool b => Some (NInt (if b then 1 else 0)%Z)
  | VInt z => Some (NInt z)
  | VFloat f => Some (NFloat f)
  | _ => None
  end.

Definition is_number (v : value) : bool :=
  match as_num v with Some _ => true | None => false end.

(** [float(z)]: rounded to nearest even, [OverflowError] beyond the range. *)
Definition float_of_Z (z : Z) : res float :=
  match binary_normalize prec emax z 0 false with
  | S754_infinity _ => Raise (Exn OverflowError "int too large to convert to float")
  | sf => Ok (SF2Prim sf)
  end.

Definition to_float (n : num) : res float :=
  match n with
  | NInt z => float_of_Z z
  | NFloat f => Ok f
  end.

(** [a / b] on two integers, [b <> 0]: the correctly rounded quotient. *)
Definition Z_truediv (a b : Z) : res float :=
  let s := xorb (Z.ltb a 0) (Z.ltb b 0) in
  match a with
  | Z0 => Ok (SF2Prim (S754_zero s))
  | _ =>
      let '(m, e, l) := SFdiv_core_binary prec emax (Z.abs a) 0 (Z.abs b) 0 in
      match binary_round_aux prec emax s m e l with
      | S754_infinity _ =>
          Raise (Exn OverflowError "integer division result too large for a float")
      | sf => Ok (SF2Prim sf)
      end
  end.

(** [s] between single quotes, as error messages show names. *)
Definition quoted (s : string) : string := "'" ++ s ++ "'".

Definition unsupported (op : string) (a b : value) : exn :=
  Exn TypeError ("unsupported operand type(s) for " ++ op ++ ": "
                 ++ quoted (type_name a) ++ " and " ++ quoted (type_name b)).

Fixpoint repeat_list {A} (n : nat) (l : list A) : list A :=
  match n with O => [] | S n' => l ++ repeat_list n' l end.

Fixpoint repeat_string (n : nat) (s : string) : string :=
  match n with O => "" | S n' => s ++ repeat_string n' s end.

(** [a + b] *)
Definition py_add (a b : value) : res value :=
  match as_num a, as_num b with
  | Some (NInt x), Some (NInt y) => Ok (VInt (x + y))
  | Some x, Some y =>
      bind (to_float x) (fun fx => bind (to_float y) (fun fy =>
      Ok (VFloat (fx + fy)%float)))
  | _, _ =>
      match a, b with
      | VStr s, VStr t => Ok (VStr (s ++ t))
      | VList l, VList m => Ok (VList (l ++ m))
      | _, _ => Raise (unsupported "+" a b)
      end
  end.

(** [a - b] *)
Definition py_sub (a b : value) : res value :=
  match as_num a, as_num b with
  | Some (NInt x), Some (NInt y) => Ok (VInt (x - y))
  | Some x, Some y =>
      bind (to_float x) (fun fx => bind (to_float y) (fun fy =>
      Ok (VFloat (fx - fy)%float)))
  | _, _ => Raise (unsupported "-" a b)
  end.

(** [a * b]: numbers multiply, a sequence is repeated by an integer. *)
Definition is_sequence (v : value) : bool :=
  match v with VStr _ | VList _ => true | _ => false end.

Definition py_repeat (n : Z) (v : value) : value :=
  match v with
  | VStr s => VStr (repeat_string (Z.to_nat n) s)
  | VList l => VList (repeat_list (Z.to_nat n) l)
  | _ => v
  end.

Definition non_int_repeat (v : value) : exn :=
  Exn TypeError ("can't multiply sequence by non-int of type "
                 ++ quoted (type_name v)).

Definition py_mul (a b : value) : res value :=
  match as_num a, as_num b with
  | Some (NInt x), Some (NInt y) => Ok (VInt (x * y))
  | Some x, Some y =>
      bind (to_float x) (fun fx => bind (to_float y) (fun fy =>
      Ok (VFloat (fx * fy)%float)))
  | _, _ =>
      if is_sequence a then
        match as_num b with
        | Some (NInt n) => Ok (py_repeat n a)
        | _ => Raise (non_int_repeat b)
        end
      else if is_sequence b then
        match as_num a with
        | Some (NInt n) => Ok (py_repeat n b)
        | _ => Raise (non_int_repeat a)
        end
      else Raise (unsupported "*" a b)
  end.

(** [a / b] *)
Definition py_truediv (a b : value) : res value :=
  match as_num a, as_num b with
  | Some (NInt x), Some (NInt y) =>
      if Z.eqb y 0 then Raise (Exn ZeroDivisionError "division by zero")
      else bind (Z_truediv x y) (fun q => Ok (VFloat q))
  | Some x, Some y =>
      bind (to_float x) (fun fx => bind (to_float y) (fun fy =>
      if float_is_zero fy
      then Raise (Exn ZeroDivisionError "float division by zero")
      else Ok (VFloat (fx / fy)%float)))
  | _, _ => Raise (unsupported "/" a b)
  end.

(** [v > 0] *)
Definition py_gt0 (v : value) : res bool :=
  match as_num v with
  | Some (NInt z) => Ok (Z.ltb 0 z)
  | Some (NFloat f) => Ok (float_gt0 f)
  | None =>
      Raise (Exn TypeError ("'>' not supported between instances of "
                            ++ quoted (type_name v) ++ " and 'int'"))
  end.

(** ** Strings *)

(** [s.startswith(p)] *)
Fixpoint starts_with (p s : string) : bool :=
  match p, s with
  | EmptyString, _ => true
  | String a p', String b s' => Ascii.eqb a b && starts_with p' s'
  | String _ _, EmptyString => false
  end.

Fixpoint str_drop (n : nat) (s : string) : string :=
  match n, s with
  | O, _ => s
  | S n', String _ s' => str_drop n' s'
  | S _, EmptyString => EmptyString
  end.

(** [s.find(sub)]: the index of the first occurrence. *)
Fixpoint str_find (sub s : string) : option nat :=
  if starts_with sub s then Some O
  else match s with
       | EmptyString => None
       | String _ s' => option_map S (str_find sub s')
       end.

(** [sub in s] *)
Definition str_contains (sub s : string) : bool :=
  match str_find sub s with Some _ => true | None => false end.

(** [s.split(sep, 1)], [sep] not empty. *)
Definition split1 (sep s : string) : list string :=
  match str_find sep s with
  | None => [s]
  | Some i => [substring 0 i s; str_drop (i + String.length sep) s]
  end.

(** [l[i]] on a list of strings. *)
Definition list_item (l : list string) (i : nat) : res string :=
  match nth_error l i with
  | Some s => Ok s
  | None => Raise (Exn IndexError "list index out of range")
  end.

(** The characters [str.strip()] removes, as UTF-8 byte sequences: U+0009 to
    U+000D, U+001C to U+0020, U+0085, U+00A0, U+1680, U+2000 to U+200A,
    U+2028, U+2029, U+202F, U+205F, U+3000. *)
Definition whitespace : list (list nat) :=
  [[9]; [10]; [11]; [12]; [13]; [28]; [29]; [30]; [31]; [32];
   [194; 133]; [194; 160]; [225; 154; 128];
   [226; 128; 128]; [226; 128; 129]; [226; 128; 130]; [226; 128; 131];
   [226; 128; 132]; [226; 128; 133]; [226; 128; 134]; [226; 128; 135];
   [226; 128; 136]; [226; 128; 137]; [226; 128; 138];
   [226; 128; 168]; [226; 128; 169]; [226; 128; 175]; [226; 129; 159];
   [227; 128; 128]]%nat.

Fixpoint bytes_prefix (p : list nat) (l : list ascii) : bool :=
  match p, l with
  | [], _ => true
  | n :: p', c :: l' => Nat.eqb n (nat_of_ascii c) && bytes_prefix p' l'
  | _ :: _, [] => false
  end.

(** Length of the character of [table] that [l] starts with, [0] if none. *)
Definition lead_len (table : list (list nat)) (l : list ascii) : nat :=
  match find (fun w => bytes_prefix w l) table with
  | Some w => List.length w
  | None => O
  end.

Fixpoint lstrip_table (table : list (list nat)) (fuel : nat) (l : list ascii)
  : list ascii :=
  match fuel with
  | O => l
  | S fuel' =>
      match lead_len table l with
      | O => l
      | n => lstrip_table table fuel' (skipn n l)
      end
  end.

Definition strip_table (table : list (list nat)) (s : string) : string :=
  let l := list_ascii_of_string s in
  let l1 := lstrip_table table (List.length l) l in
  let r := rev l1 in
  string_of_list_ascii
    (rev (lstrip_table (map (@rev nat) table) (List.length r) r)).

(** [s.strip()] *)
Definition strip (s : string) : string := strip_table whitespace s.

(** [s.strip(chars)], [chars] a string of ASCII characters. *)
Definition strip_chars (chars s : string) : string :=
  strip_table (map (fun c => [nat_of_ascii c]) (list_ascii_of_string chars)) s.

(** ** Dictionaries *)

Fixpoint dict_get (k : string) (d : dict) : option value :=
  match d with
  | [] => None
  | (k', v) :: r => if String.eqb k' k then Some v else dict_get k r
  end.

(** [k in d] *)
Definition dict_mem (k : string) (d : dict) : bool :=
  match dict_get k d with Some _ => true | None => false end.

(** [d[k] = v]: an existing key keeps its place, a new one goes last. *)
Fixpoint dict_set (k : string) (v : value) (d : dict) : dict :=
  match d with
  | [] => [(k, v)]
  | (k', v') :: r =>
      if String.eqb k' k then (k', v) :: r else (k', v') :: dict_set k v r
  end.

(** [d.update(d2)] *)
Definition dict_update (d d2 : dict) : dict :=
  fold_left (fun acc kv => dict_set (fst kv) (snd kv) acc) d2 d.

Definition dict_keys (d : dict) : list string := map fst d.

(** No key is repeated: what every Python dict satisfies. *)
Fixpoint unique_keys (d : dict) : bool :=
  match d with
  | [] => true
  | (k, _) :: r => negb (dict_mem k r) && unique_keys r
  end.

(** ** Hashable values *)

Inductive key :=
| KNone | KBool (b : bool) | KInt (z : Z) | KFloat (f : float) | KStr (s : string).

(** [hash(v)]: lists and dicts are unhashable. *)
Definition py_hash (v : value) : res key :=
  match v with
  | VNone => Ok KNone
  | VBool b => Ok (KBool b)
  | VInt z => Ok (KInt z)
  | VFloat f => Ok (KFloat f)
  | VStr s => Ok (KStr s)
  | VList _ | VDict _ =>
      Raise (Exn TypeError ("unhashable type: " ++ quoted (type_name v)))
  end.


(** [d.get(x, dflt)] *)
Definition dict_get_default (x : value) (d : dict) (dflt : value) : res value :=
  bind (py_hash x) (fun k =>
  match k with
  | KStr s => match dict_get s d with Some v => Ok v | None => Ok dflt end
  | _ => Ok dflt
  end).

(** [s in c] for a string [s]: a key of a dict, an element of a list, a
    substring of a string. *)
Definition str_in (s : string) (c : value) : res bool :=
  match c with
  | VDict d => Ok (dict_mem s d)
  | VList l =>
      Ok (existsb (fun x => match x with VStr t => String.eqb t s | _ => false end) l)
  | VStr t => Ok (str_contains s t)
  | _ => Raise (Exn TypeError ("argument of type " ++ quoted (type_name c)
                               ++ " is not iterable"))
  end.

(** [c[s]] for a string [s]. *)
Definition getitem_str (c : value) (s : string) : res value :=
  match c with
  | VDict d =>
      match dict_get s d with
      | Some v => Ok v
      | None => Raise (Exn KeyError (quoted s))
      end
  | VList _ => Raise (Exn TypeError "list indices must be integers or slices, not str")
  | VStr _ => Raise (Exn TypeError "string indices must be integers, not 'str'")
  | _ => Raise (Exn TypeError (quoted (type_name c) ++ " object is not subscriptable"))
  end.

(** ** Printing numbers *)

(** [str(z)] *)
Definition Z_str (z : Z) : string :=
  DecimalString.NilZero.string_of_int (Z.to_int z).

Fixpoint digits10_aux (fuel : nat) (n : Z) : Z :=
  match fuel with
  | O => 1
  | S fuel' => if (n <? 10)%Z then 1%Z else (1 + digits10_aux fuel' (n / 10))%Z
  end.

(** Number of decimal digits of [n > 0]. *)
Definition digits10 (n : Z) : Z := digits10_aux (S (Z.to_nat (Z.log2 n))) n.

(** The float nearest to [d * 10^k] ([d >= 0]), ties to even, with the sign
    [neg]: what [float(text)] and the JSON decoder compute.  A decimal with
    more than 310 digits before the point is beyond the largest float, one
    below [10^-330] is nearer to zero than to any other float. *)
Definition float_of_decimal (neg : bool) (d k : Z) : float :=
  match d with
  | Z0 => SF2Prim (S754_zero neg)
  | _ =>
      let size := (k + digits10 d)%Z in
      if (310 <? size)%Z then SF2Prim (S754_infinity neg)
      else if (size <? -330)%Z then SF2Prim (S754_zero neg)
      else if (0 <=? k)%Z then
        SF2Prim (binary_normalize prec emax
                   ((if neg then - d else d) * 10 ^ k)%Z 0 false)
      else
        let '(m, e, l) := SFdiv_core_binary prec emax d 0 (10 ^ (- k))%Z 0 in
        SF2Prim (binary_round_aux prec emax neg m e l)
  end.

(** [t] with [10^(t-1) <= n/d < 10^t], for [n, d > 0]. *)
Definition decimal_point (n d : Z) : Z :=
  let t := (digits10 n - digits10 d)%Z in
  let above :=
    if (0 <=? t)%Z then (d * 10 ^ t <=? n)%Z else (d <=? n * 10 ^ (- t))%Z in
  if above then (t + 1)%Z else t.

(** The [p]-digit decimal [c * 10^k] that reads back as [x = n/d], if there is
    one: the nearer of the two that enclose [x]. *)
Definition digits_try (x : float) (n d t p : Z) : option (Z * Z) :=
  let k := (t - p)%Z in
  let '(qn, qd) :=
    if (0 <=? k)%Z then (n, d * 10 ^ k)%Z else (n * 10 ^ (- k), d)%Z in
  let lo := (qn / qd)%Z in
  let r := (qn mod qd)%Z in
  if (r =? 0)%Z then Some (lo, k)
  else
    let hi := (lo + 1)%Z in
    let back c := SFeqb (Prim2SF (float_of_decimal false c k)) (Prim2SF x) in
    match back lo, back hi with
    | true, true =>
        match (2 * r ?= qd)%Z with
        | Lt => Some (lo, k)
        | Gt => Some (hi, k)
        | Eq => Some (if Z.even lo then lo else hi, k)
        end
    | true, false => Some (lo, k)
    | false, true => Some (hi, k)
    | false, false => None
    end.

Fixpoint shortest_digits (fuel : nat) (x : float) (n d t p : Z) : Z * Z :=
  match fuel with
  | O => (0, 0)%Z
  | S fuel' =>
      match digits_try x n d t p with
      | Some ck => ck
      | None => shortest_digits fuel' x n d t (p + 1)%Z
      end
  end.

Fixpoint strip_zeros (fuel : nat) (c k : Z) : Z * Z :=
  match fuel with
  | O => (c, k)
  | S fuel' =>
      if ((c mod 10 =? 0) && negb (c =? 0))%Z
      then strip_zeros fuel' (c / 10)%Z (k + 1)%Z
      else (c, k)
  end.

(** The digits [ds] with the decimal point after [decpt] of them, as
    [repr] lays them out. *)
Definition layout (ds : string) (decpt : Z) : string :=
  let n := Z.of_nat (String.length ds) in
  if ((decpt <=? -4) || (16 <? decpt))%Z then
    let e := (decpt - 1)%Z in
    let es := Z_str (Z.abs e) in
    let es := if (Z.abs e <? 10)%Z then "0" ++ es else es in
    substring 0 1 ds
      ++ (if (1 <? n)%Z then "." ++ str_drop 1 ds else "")
      ++ "e" ++ (if (e <? 0)%Z then "-" else "+") ++ es
  else if (decpt <=? 0)%Z then
    "0." ++ repeat_string (Z.to_nat (- decpt)) "0" ++ ds
  else if (n <=? decpt)%Z then
    ds ++ repeat_string (Z.to_nat (decpt - n)) "0" ++ ".0"
  else
    substring 0 (Z.to_nat decpt) ds ++ "." ++ str_drop (Z.to_nat decpt) ds.

(** [repr(f)] ([str(f)] is the same): the shortest decimal that reads back as
    [f]. *)
Definition float_repr (f : float) : string :=
  match Prim2SF f with
  | S754_nan => "nan"
  | S754_infinity s => if s then "-inf" else "inf"
  | S754_zero s => if s then "-0.0" else "0.0"
  | S754_finite s m e =>
      let '(n, d) :=
        if (0 <=? e)%Z then (Zpos m * 2 ^ e, 1)%Z else (Zpos m, 2 ^ (- e))%Z in
      let t := decimal_point n d in
      let '(c0, k0) := shortest_digits 17 (abs f) n d t 1 in
      let '(c, k) := strip_zeros 20 c0 k0 in
      let ds := Z_str c in
      (if s then "-" else "")
        ++ layout ds (Z.of_nat (String.length ds) + k)
  end.

(** [str(z)] as Python allows it: an integer of more than 4300 digits is not
    converted to text. *)
Definition int_str (z : Z) : res string :=
  if (Z.abs z <? 10 ^ 4300)%Z then Ok (Z_str z)
  else Raise (Exn ValueError
                ("Exceeds the limit (4300 digits) for integer string conversion; "
                 ++ "use sys.set_int_max_str_digits() to increase the limit")).

(** A hashed value as an f-string prints it. *)
Definition key_str (k : key) : res string :=
  match k with
  | KNone => Ok "None"
  | KBool b => Ok (if b then "True" else "False")
  | KInt z => int_str z
  | KFloat f => Ok (float_repr f)
  | KStr s => Ok s
  end.

End Py.

(* ================================================================== *)
(** * [json.loads] of the Python standard library                       *)
(* ================================================================== *)

(** The decoder follows CPython 3.11's [json] package (its scanner, string
    and number readers and their error messages).  The interpreter's recursion
    limit is not modelled: a text nested deeper than that limit is outside the
    model. *)
Module Json.
Import Py.

Definition dquote : ascii := "034"%char.
Definition backslash : ascii := "\"%char.
Definition newline : ascii := "010"%char.

Definition is_digit (c : ascii) : bool :=
  let n := nat_of_ascii c in (48 <=? n)%nat && (n <=? 57)%nat.

(** JSON's own whitespace: space, tab, line feed, carriage return. *)
Definition is_ws (c : ascii) : bool :=
  let n := nat_of_ascii c in
  Nat.eqb n 32 || Nat.eqb n 9 || Nat.eqb n 10 || Nat.eqb n 13.

Fixpoint skip_ws (s : string) : string :=
  match s with
  | String c r => if is_ws c then skip_ws r else s
  | EmptyString => s
  end.

(** A byte that continues a UTF-8 character. *)
Definition is_cont (c : ascii) : bool :=
  let n := nat_of_ascii c in (128 <=? n)%nat && (n <? 192)%nat.

(** Number of characters of a UTF-8 text. *)
Fixpoint char_count (s : string) : nat :=
  match s with
  | EmptyString => O
  | String c r => if is_cont c then char_count r else S (char_count r)
  end.

Fixpoint count_newlines (s : string) : nat :=
  match s with
  | EmptyString => O
  | String c r =>
      if Ascii.eqb c newline then S (count_newlines r) else count_newlines r
  end.

(** The part of [s] after its last line feed. *)
Fixpoint last_line (s : string) : string :=
  match s with
  | EmptyString => EmptyString
  | String c r =>
      if Ascii.eqb c newline
      then (if Nat.eqb (count_newlines r) 0 then r else last_line r)
      else (if Nat.eqb (count_newlines r) 0 then s else last_line r)
  end.

Definition nat_str (n : nat) : string := Z_str (Z.of_nat n).

(** UTF-8 (for a lone surrogate, its three-byte form) of a code point. *)
Definition utf8 (c : N) : string :=
  let b (n : N) := String (ascii_of_N n) EmptyString in
  if (c <? 128)%N then b c
  else if (c <? 2048)%N then b (192 + c / 64)%N ++ b (128 + c mod 64)%N
  else if (c <? 65536)%N then
    b (224 + c / 4096)%N ++ b (128 + (c / 64) mod 64)%N ++ b (128 + c mod 64)%N
  else
    b (240 + c / 262144)%N ++ b (128 + (c / 4096) mod 64)%N
      ++ b (128 + (c / 64) mod 64)%N ++ b (128 + c mod 64)%N.

Definition hex_val (c : ascii) : option N :=
  let n := N_of_ascii c in
  if ((48 <=? n) && (n <=? 57))%N then Some (n - 48)%N
  else if ((97 <=? n) && (n <=? 102))%N then Some (n - 87)%N
  else if ((65 <=? n) && (n <=? 70))%N then Some (n - 55)%N
  else None.

(** Four hexadecimal digits at the head of [s], with text left after them
    (the reader refuses an escape that ends the text). *)
Definition hex4 (s : string) : option (N * string) :=
  match s with
  | String a (String b (String c (String d (String x r)))) =>
      match hex_val a, hex_val b, hex_val c, hex_val d with
      | Some h3, Some h2, Some h1, Some h0 =>
          Some (((h3 * 16 + h2) * 16 + h1) * 16 + h0, String x r)%N
      | _, _, _, _ => None
      end
  | _ => None
  end.

Definition simple_escape (c : ascii) : option ascii :=
  if Ascii.eqb c dquote then Some dquote
  else if Ascii.eqb c backslash then Some backslash
  else if Ascii.eqb c "/" then Some "/"%char
  else if Ascii.eqb c "b" then Some "008"%char
  else if Ascii.eqb c "f" then Some "012"%char
  else if Ascii.eqb c "n" then Some "010"%char
  else if Ascii.eqb c "r" then Some "013"%char
  else if Ascii.eqb c "t" then Some "009"%char
  else None.

Fixpoint take_digits (s : string) : string * string :=
  match s with
  | String c r =>
      if is_digit c then let '(d, rest) := take_digits r in (String c d, rest)
      else (EmptyString, s)
  | EmptyString => (EmptyString, EmptyString)
  end.

Fixpoint digits_value (acc : Z) (s : string) : Z :=
  match s with
  | EmptyString => acc
  | String c r => digits_value (acc * 10 + Z.of_nat (nat_of_ascii c) - 48)%Z r
  end.

Section Decoder.

(** The whole text being decoded: error messages give positions in it. *)
Variable doc : string.

(** [JSONDecodeError(msg, doc, pos)], [pos] where the rest [rest] starts. *)
Definition decode_error (msg : string) (rest : string) : exn :=
  let before := substring 0 (String.length doc - String.length rest) doc in
  Exn JSONDecodeError
      (msg ++ ": line " ++ nat_str (S (count_newlines before))
           ++ " column " ++ nat_str (S (char_count (last_line before)))
           ++ " (char " ++ nat_str (char_count before) ++ ")").

(** The string whose opening quote starts [opening]; [s] is what is left to
    read, [acc] what was read.  Gives the string and the text after it. *)
Fixpoint scan_string (fuel : nat) (opening : string) (acc : string) (s : string)
  : res (string * string) :=
  match fuel with
  | O => Raise (decode_error "Unterminated string starting at" opening)
  | S fuel' =>
      match s with
      | EmptyString => Raise (decode_error "Unterminated string starting at" opening)
      | String c r =>
          if Ascii.eqb c dquote then Ok (acc, r)
          else if Ascii.eqb c backslash then
            match r with
            | EmptyString =>
                Raise (decode_error "Unterminated string starting at" opening)
            | String e r' =>
                if Ascii.eqb e "u" then
                  match hex4 r' with
                  | None => Raise (decode_error "Invalid \uXXXX escape" r)
                  | Some (hi, r'') =>
                      if ((55296 <=? hi) && (hi <=? 56319))%N
                         && starts_with "\u" r''
                      then
                        match hex4 (str_drop 2 r'') with
                        | None =>
                            Raise (decode_error "Invalid \uXXXX escape" (str_drop 1 r''))
                        | Some (lo, r3) =>
                            if ((56320 <=? lo) && (lo <=? 57343))%N then
                              scan_string fuel' opening
                                (acc ++ utf8 (65536 + (hi - 55296) * 1024 + (lo - 56320))%N)
                                r3
                            else scan_string fuel' opening (acc ++ utf8 hi) r''
                        end
                      else scan_string fuel' opening (acc ++ utf8 hi) r''
                  end
                else
                  match simple_escape e with
                  | Some x =>
                      scan_string fuel' opening (acc ++ String x EmptyString) r'
                  | None => Raise (decode_error "Invalid \escape" s)
                  end
            end
          else if (nat_of_ascii c <=? 31)%nat then
            Raise (decode_error "Invalid control character at" s)
          else scan_string fuel' opening (acc ++ String c EmptyString) r
      end
  end.

(** [int(digits)], refused beyond 4300 digits (the interpreter's default
    limit on integer strings). *)
Definition int_of_digits (neg : bool) (digits : string) : res value :=
  let n := String.length digits in
  if (4300 <? n)%nat then
    Raise (Exn ValueError
             ("Exceeds the limit (4300 digits) for integer string conversion: value has "
                ++ nat_str n
                ++ " digits; use sys.set_int_max_str_digits() to increase the limit"))
  else
    let z := digits_value 0 digits in
    Ok (VInt (if neg then - z else z)%Z).

(** A number at the head of [s]. *)
Definition match_number (s : string) : res (value * string) :=
  let '(neg, s1) :=
    match s with
    | String c r => if Ascii.eqb c "-" then (true, r) else (false, s)
    | EmptyString => (false, s)
    end in
  match s1 with
  | EmptyString => Raise (decode_error "Expecting value" s)
  | String c r1 =>
      if negb (is_digit c) then Raise (decode_error "Expecting value" s)
      else
        let '(int_digits, s2) :=
          if Ascii.eqb c "0" then ("0", r1) else take_digits s1 in
        let '(frac_digits, s3) :=
          match s2 with
          | String p (String d r) =>
              if Ascii.eqb p "." && is_digit d
              then take_digits (String d r)
              else (EmptyString, s2)
          | _ => (EmptyString, s2)
          end in
        let '(exponent, s4) :=
          match s3 with
          | String e r =>
              if Ascii.eqb e "e" || Ascii.eqb e "E" then
                let '(eneg, r') :=
                  match r with
                  | String g r'' =>
                      if Ascii.eqb g "-" then (true, r'')
                      else if Ascii.eqb g "+" then (false, r'')
                      else (false, r)
                  | EmptyString => (false, r)
                  end in
                match take_digits r' with
                | (EmptyString, _) => (None, s3)
                | (ds, rest) =>
                    let v := digits_value 0 ds in
                    (Some (if eneg then - v else v)%Z, rest)
                end
              else (None, s3)
          | EmptyString => (None, s3)
          end in
        match frac_digits, exponent with
        | EmptyString, None =>
            bind (int_of_digits neg int_digits) (fun v => Ok (v, s4))
        | _, _ =>
            let e := match exponent with Some e => e | None => 0%Z end in
            Ok (VFloat (float_of_decimal neg
                          (digits_value 0 (int_digits ++ frac_digits))
                          (e - Z.of_nat (String.length frac_digits))%Z),
                s4)
        end
  end.

(** One JSON term at the head of [s]; gives the term and the text after it. *)
Fixpoint scan_once (fuel : nat) (s : string) : res (value * string) :=
  match fuel with
  | O => Raise (decode_error "Expecting value" s)
  | S fuel' =>
      match s with
      | EmptyString => Raise (decode_error "Expecting value" s)
      | String c r =>
          if Ascii.eqb c dquote then
            bind (scan_string (String.length r) s EmptyString r)
                 (fun sr => Ok (VStr (fst sr), snd sr))
          else if Ascii.eqb c "{" then
            let r := skip_ws r in
            if starts_with "}" r then Ok (VDict [], str_drop 1 r)
            else parse_object fuel' [] r
          else if Ascii.eqb c "[" then
            let r := skip_ws r in
            if starts_with "]" r then Ok (VList [], str_drop 1 r)
            else parse_array fuel' [] r
          else if starts_with "null" s then Ok (VNone, str_drop 4 s)
          else if starts_with "true" s then Ok (VBool true, str_drop 4 s)
          else if starts_with "false" s then Ok (VBool false, str_drop 5 s)
          else if starts_with "NaN" s then Ok (VFloat nan, str_drop 3 s)
          else if starts_with "Infinity" s then Ok (VFloat infinity, str_drop 8 s)
          else if starts_with "-Infinity" s then
            Ok (VFloat neg_infinity, str_drop 9 s)
          else match_number s
      end
  end

(** The pairs of an object, from a key on; [acc] holds the pairs read. *)
with parse_object (fuel : nat) (acc : dict) (s : string)
  : res (value * string) :=
  match fuel with
  | O => Raise (decode_error "Expecting value" s)
  | S fuel' =>
      match s with
      | String q r =>
          if negb (Ascii.eqb q dquote) then
            Raise (decode_error "Expecting property name enclosed in double quotes" s)
          else
            bind (scan_string (String.length r) s EmptyString r) (fun kr =>
            let s1 := skip_ws (snd kr) in
            if negb (starts_with ":" s1) then
              Raise (decode_error "Expecting ':' delimiter" s1)
            else
              bind (scan_once fuel' (skip_ws (str_drop 1 s1))) (fun vr =>
              let acc' := dict_set (fst kr) (fst vr) acc in
              let s2 := skip_ws (snd vr) in
              if starts_with "}" s2 then Ok (VDict acc', str_drop 1 s2)
              else if negb (starts_with "," s2) then
                Raise (decode_error "Expecting ',' delimiter" s2)
              else parse_object fuel' acc' (skip_ws (str_drop 1 s2))))
      | EmptyString =>
          Raise (decode_error "Expecting property name enclosed in double quotes" s)
      end
  end

(** The items of an array, from an item on; [acc] holds the items read, last
    first. *)
with parse_array (fuel : nat) (acc : list value) (s : string)
  : res (value * string) :=
  match fuel with
  | O => Raise (decode_error "Expecting value" s)
  | S fuel' =>
      bind (scan_once fuel' s) (fun vr =>
      let acc' := fst vr :: acc in
      let s1 := skip_ws (snd vr) in
      if starts_with "]" s1 then Ok (VList (rev acc'), str_drop 1 s1)
      else if negb (starts_with "," s1) then
        Raise (decode_error "Expecting ',' delimiter" s1)
      else parse_array fuel' acc' (skip_ws (str_drop 1 s1)))
  end.

End Decoder.

(** U+FEFF in UTF-8. *)
Definition bom : string :=
  String (ascii_of_nat 239) (String (ascii_of_nat 187) (String (ascii_of_nat 191) "")).

(** [json.loads(s)] *)
Definition json_loads (s : string) : res value :=
  if starts_with bom s then
    Raise (decode_error s "Unexpected UTF-8 BOM (decode using utf-8-sig)" s)
  else
    bind (scan_once s (2 * String.length s + 2) (skip_ws s)) (fun vr =>
    let rest := skip_ws (snd vr) in
    match rest with
    | EmptyString => Ok (fst vr)
    | _ => Raise (decode_error s "Extra data" rest)
    end).

End Json.

(* ================================================================== *)
(** * action.py: the data table, the tools, the dispatcher              *)
(* ================================================================== *)

Module Action.
Import Py.

Definition quarter (revenue investment profit expenses : float) : value :=
  VDict [("revenue", VFloat revenue); ("investment", VFloat investment);
         ("profit", VFloat profit); ("expenses", VFloat expenses)].

(** Dummy financial data (billions). *)
Definition DUMMY_DATA : dict :=
  [("AAPL", VDict
      [("Q1_2023", quarter 94.8 25.1 24.2 70.6);
       ("Q2_2023", quarter 81.8 23.8 19.9 61.9);
       ("Q3_2023", quarter 89.5 24.3 22.6 66.9);
       ("Q4_2023", quarter 119.6 27.5 33.9 85.7);
       ("Q1_2024", quarter 90.8 24.6 23.1 67.7);
       ("Q2_2024", quarter 85.3 24.1 21.5 63.8)]);
   ("MSFT", VDict
      [("Q1_2023", quarter 52.7 15.3 18.3 34.4);
       ("Q2_2023", quarter 56.2 16.1 20.1 36.1);
       ("Q3_2023", quarter 56.5 16.3 20.5 36.0);
       ("Q4_2023", quarter 62.0 17.5 21.9 40.1);
       ("Q1_2024", quarter 61.9 17.2 21.8 40.1);
       ("Q2_2024", quarter 64.7 18.1 22.5 42.2)]);
   ("AMZN", VDict
      [("Q1_2023", quarter 127.4 42.5 3.2 124.2);
       ("Q2_2023", quarter 134.4 44.8 6.7 127.7);
       ("Q3_2023", quarter 143.1 47.2 9.9 133.2);
       ("Q4_2023", quarter 169.9 52.3 10.6 159.3);
       ("Q1_2024", quarter 143.3 46.8 10.4 132.9);
       ("Q2_2024", quarter 148.2 48.1 13.7 134.5)])].

(** Inflation rates (annual). *)
Definition INFLATION_RATES : dict :=
  [("2023", VFloat 0.041); ("2024", VFloat 0.031)].

(** The error value, a dict with the one key [error]. *)
Definition error_value (reason : string) : value := VDict [("error", VStr reason)].

(** [v == s] for a string [s]. *)
Definition eq_str (v : value) (s : string) : bool :=
  match v with VStr t => String.eqb t s | _ => false end.

(** The periods of a symbol's table, a dict in every entry of [DUMMY_DATA]. *)
Definition periods_of (symbol : string) : dict :=
  match dict_get symbol DUMMY_DATA with
  | Some (VDict d) => d
  | _ => []
  end.

(** [period in ["2023", "2024"]]: the year when it holds. *)
Definition year_of (period : value) : option string :=
  match period with
  | VStr p => if existsb (String.eqb p) ["2023"; "2024"] then Some p else None
  | _ => None
  end.

(** [get_financial_data(symbol, period)].  The keys of [DUMMY_DATA] and of
    its tables are strings: a symbol or a period that is no string is not
    among them. *)
Definition get_financial_data (symbol period : value) : res value :=
  bind (py_hash symbol) (fun ks =>
  match ks with
  | KStr s =>
      if negb (dict_mem s DUMMY_DATA) then
        Ok (error_value ("No data available for symbol " ++ s))
      else
        let table := periods_of s in
        if negb (truthy period) then Ok (VDict table)
        else
          match year_of period with
          | Some year =>
              Ok (VDict (fold_left
                           (fun year_data qd =>
                              if str_contains year (fst qd)
                              then dict_set (fst qd) (snd qd) year_data
                              else year_data)
                           table []))
          | None =>
              bind (py_hash period) (fun kp =>
              match kp with
              | KStr q =>
                  match dict_get q table with
                  | Some data => Ok (VDict [(q, data)])
                  | None =>
                      Ok (error_value ("No data available for period " ++ q))
                  end
              | _ =>
                  bind (key_str kp) (fun text =>
                  Ok (error_value ("No data available for period " ++ text)))
              end)
          end
  | _ =>
      bind (key_str ks) (fun text =>
      Ok (error_value ("No data available for symbol " ++ text)))
  end).

(** [((r - i) / i) * 100 if i > 0 else 0] *)
Definition roi_pair (r i : value) : res value :=
  bind (py_gt0 i) (fun positive =>
  if positive then
    bind (py_sub r i) (fun d =>
    bind (py_truediv d i) (fun q =>
    py_mul q (VInt 100)))
  else Ok (VInt 0)).

(** [calculate_roi(revenue, investment)] *)
Definition calculate_roi (revenue investment : value) : res value :=
  match revenue, investment with
  | VList rs, VList invs =>
      if negb (Nat.eqb (List.length rs) (List.length invs)) then
        Ok (error_value "Revenue and investment lists must be the same length")
      else
        bind (mapM (fun ri => roi_pair (fst ri) (snd ri)) (combine rs invs))
             (fun rois => Ok (VList rois))
  | _, _ =>
      if is_number revenue && is_number investment then
        roi_pair revenue investment
      else Ok (error_value "Invalid input types for revenue and investment")
  end.

(** [value / (1 + rate)] *)
Definition adjust (rate v : value) : res value :=
  bind (py_add (VInt 1) rate) (fun denominator => py_truediv v denominator).

(** [apply_inflation_adjustment(values, rate)] *)
Definition apply_inflation_adjustment (values rate : value) : res value :=
  match values with
  | VList vs => bind (mapM (adjust rate) vs) (fun l => Ok (VList l))
  | _ =>
      if is_number values then adjust rate values
      else Ok (error_value "Invalid input type for values")
  end.

Record ActionInput := {
  function_name : string;
  parameters : dict
}.

Record ActionOutput := {
  success : bool;
  result : dict;
  message : string
}.

(** Binding a call with unpacked keyword arguments to a signature: an unexpected keyword is refused
    first, then a missing required argument. *)
Definition bind_kwargs (f : string) (required optional : list string)
           (kwargs : dict) : res unit :=
  match find (fun k => negb (existsb (String.eqb k) (required ++ optional)))
             (dict_keys kwargs) with
  | Some k =>
      Raise (Exn TypeError
               (f ++ "() got an unexpected keyword argument " ++ quoted k))
  | None =>
      match filter (fun r => negb (dict_mem r kwargs)) required with
      | [] => Ok tt
      | [a] =>
          Raise (Exn TypeError
                   (f ++ "() missing 1 required positional argument: "
                      ++ quoted a))
      | a :: b :: _ =>
          Raise (Exn TypeError
                   (f ++ "() missing 2 required positional arguments: "
                      ++ quoted a ++ " and " ++ quoted b))
      end
  end.

Definition arg (name : string) (kwargs : dict) (default : value) : value :=
  match dict_get name kwargs with Some v => v | None => default end.

(** The tools called with the parameters as keyword arguments. *)
Definition call_get_financial_data (kwargs : dict) : res value :=
  bind (bind_kwargs "get_financial_data" ["symbol"] ["period"] kwargs) (fun _ =>
  get_financial_data (arg "symbol" kwargs VNone) (arg "period" kwargs VNone)).

Definition call_calculate_roi (kwargs : dict) : res value :=
  bind (bind_kwargs "calculate_roi" ["revenue"; "investment"] [] kwargs) (fun _ =>
  calculate_roi (arg "revenue" kwargs VNone) (arg "investment" kwargs VNone)).

Definition call_apply_inflation_adjustment (kwargs : dict) : res value :=
  bind (bind_kwargs "apply_inflation_adjustment" ["values"; "rate"] [] kwargs)
       (fun _ =>
  apply_inflation_adjustment (arg "values" kwargs VNone) (arg "rate" kwargs VNone)).

(** The call of [generate_chart]: the module defines and imports no such
    name, so evaluating it raises. *)
Definition call_generate_chart (kwargs : dict) : res value :=
  Raise (Exn NameError "name 'generate_chart' is not defined").

(** The [if]/[elif] chain of [execute_action]: the tool call selected by the
    function name, [None] for the final [else]. *)
Definition dispatch (ai : ActionInput) : option (res value) :=
  if String.eqb (function_name ai) "get_financial_data" then
    Some (call_get_financial_data (parameters ai))
  else if String.eqb (function_name ai) "calculate_roi" then
    Some (call_calculate_roi (parameters ai))
  else if String.eqb (function_name ai) "apply_inflation_adjustment" then
    Some (call_apply_inflation_adjustment (parameters ai))
  else if String.eqb (function_name ai) "generate_chart" then
    Some (call_generate_chart (parameters ai))
  else None.

(** [execute_action(ai)] *)
Definition execute_action (ai : ActionInput) : ActionOutput :=
  match dispatch ai with
  | None =>
      {| success := false; result := [];
         message := "Unknown tool " ++ function_name ai |}
  | Some (Ok res) =>
      {| success := true; result := [(function_name ai, res)];
         message := function_name ai ++ " executed." |}
  | Some (Raise e) =>
      {| success := false; result := []; message := exn_str e |}
  end.

End Action.

(* ================================================================== *)
(** * The language-model collaborator                                   *)
(* ================================================================== *)

(** The external service behind [client.models.generate_content].  What it
    answers is not the program's to decide: a collaborator is any function
    from the number of requests served before and the request to an outcome.
    A request is described by the data the prompt is built from. *)
Module Llm.
Import Py.

Inductive request :=
| PlanRequest (context : dict) (executed_fn_names : list string)
              (perception preferences : dict)
| ResolveRequest (context unresolved : dict).

(** The call raises, or returns a response whose [text] may be [None]. *)
Inductive reply :=
| Fault (e : exn)
| Response (text : option string).

Definition collaborator := nat -> request -> reply.

(** One call: the reply, and the count of requests sent so far. *)
Definition generate_content (llm : collaborator) (req : request) (calls : nat)
  : reply * nat :=
  (llm calls req, S calls).

(** [resp.text.strip()] *)
Definition stripped_text (r : reply) : res string :=
  match r with
  | Fault e => Raise e
  | Response None =>
      Raise (Exn AttributeError "'NoneType' object has no attribute 'strip'")
  | Response (Some t) => Ok (strip t)
  end.

(** The part between the first [```json] and the next [```]. *)
Definition fenced_json (text : string) : res string :=
  bind (list_item (split1 "```json" text) 1) (fun after =>
  bind (list_item (split1 "```" after) 0) (fun inner =>
  Ok (strip inner))).

End Llm.

(* ================================================================== *)
(** * decision.py: the Planner                                          *)
(* ================================================================== *)

Module Decision.
Import Py Json Llm.

Definition AllowedFn : list string :=
  ["get_financial_data"; "calculate_roi"; "apply_inflation_adjustment";
   "generate_chart"].

Record Step := {
  function_name : string;
  parameters : dict
}.

Record DecisionInput := {
  perception : dict;
  preferences : dict
}.

Record DecisionOutput := {
  next_step : option Step;
  done : bool;
  rationale : option string
}.

(** The function name when it is one of the literals of [AllowedFn]. *)
Definition allowed_name (fn : value) : option string :=
  match fn with
  | VStr s => if existsb (String.eqb s) AllowedFn then Some s else None
  | _ => None
  end.

(** Pydantic's validation of [Step(function_name=fn, parameters=ps)]: the name
    is one of [AllowedFn], the parameters are a dict.  The exception's text
    is longer than what is kept here: after this first line it names each
    refused field, with a message and a link that depend on pydantic's
    version.  Nothing below is stated about a rationale that carries it. *)
Definition make_Step (fn ps : value) : res Step :=
  match allowed_name fn, ps with
  | Some s, VDict d => Ok {| function_name := s; parameters := d |}
  | None, VDict _ | Some _, _ =>
      Raise (Exn ValidationError "1 validation error for Step")
  | None, _ => Raise (Exn ValidationError "2 validation errors for Step")
  end.

(** [data.get(k, default)] *)
Definition py_get (data : value) (k : string) (default : value) : res value :=
  match data with
  | VDict d => Ok (match dict_get k d with Some v => v | None => default end)
  | _ => Raise (Exn AttributeError
                  (quoted (type_name data) ++ " object has no attribute 'get'"))
  end.

(** The reply text without its code fence. *)
Definition unfence (text : string) : res string :=
  if str_contains "```json" text then fenced_json text
  else if starts_with "```" text then Ok (strip_chars "`" text)
  else Ok text.

(** The first lines of the [try] block: the reply's text, stripped, without
    its fence, decoded. *)
Definition decode_reply (r : reply) : res value :=
  bind (stripped_text r) (fun text =>
  bind (unfence text) (fun text =>
  json_loads text)).

(** [not data or "function_name" not in data] *)
Definition no_step_in (data : value) : res bool :=
  if negb (truthy data) then Ok true
  else bind (str_in "function_name" data) (fun b => Ok (negb b)).

(** The body of the [try] block, on the collaborator's reply. *)
Definition plan_from (r : reply) : res DecisionOutput :=
  bind (decode_reply r) (fun data =>
  bind (no_step_in data) (fun finished =>
  if finished then
    Ok {| next_step := None; done := true;
          rationale := Some "All steps completed" |}
  else
    bind (getitem_str data "function_name") (fun fn =>
    bind (py_get data "parameters" (VDict [])) (fun ps =>
    bind (make_Step fn ps) (fun step =>
    Ok {| next_step := Some step; done := false;
          rationale := Some "Next actionable step" |}))))).

(** [decide_next_step(di, context, executed_steps)], with the count of
    requests sent to the collaborator threaded through. *)
Definition decide_next_step (llm : collaborator) (di : DecisionInput)
           (context : dict) (executed_steps : list Step) (calls : nat)
  : DecisionOutput * nat :=
  let executed_fn_names := map function_name executed_steps in
  let '(r, calls') :=
    generate_content llm
      (PlanRequest context executed_fn_names (perception di) (preferences di))
      calls in
  match plan_from r with
  | Ok d => (d, calls')
  | Raise e =>
      ({| next_step := None; done := true;
          rationale := Some ("LLM decision failed: " ++ exn_str e) |}, calls')
  end.

End Decision.

(* ================================================================== *)
(** * memory.py: the persisted state                                    *)
(* ================================================================== *)

Module Memory.
Import Py.

Record MemoryRecord := {
  timestamp : string;
  user_goal : string;
  rec_preferences : dict;
  rec_perception : dict;
  decision : dict
}.

Record MemoryState := {
  preferences : dict;
  last_record : option MemoryRecord;
  history : list MemoryRecord;
  context : dict
}.

Definition empty_state : MemoryState :=
  {| preferences := []; last_record := None; history := []; context := [] |}.

(** The memory file: [None] when it does not exist or does not decode to a
    [MemoryState]. *)
Definition mem_file := option MemoryState.

Definition _load_state (f : mem_file) : MemoryState :=
  match f with
  | Some st => st
  | None => empty_state
  end.

(** [save_context(context)].  The write is taken to succeed.  The real one
    can fail after a step was executed (the disk, or a context that pydantic
    does not serialise, such as a text with a lone surrogate): such a failure
    is outside this model, and what is proved of a pass that ends a run is
    proved of the passes that end otherwise. *)
Definition save_context (f : mem_file) (ctx : dict) : mem_file :=
  let st := _load_state f in
  Some {| preferences := preferences st; last_record := last_record st;
          history := history st; context := ctx |}.

Definition load_context (f : mem_file) : dict := context (_load_state f).

End Memory.

(* ================================================================== *)
(** * main.py: the Parameter Resolver and the loop driver               *)
(* ================================================================== *)

Module Main.
Import Py Json Llm.

(** [[context.get(x, x) for x in v]] *)
Definition resolve_list (context : dict) (v : list value) : res (list value) :=
  mapM (fun x => dict_get_default x context x) v.

(** The loop of [resolve_params] over [params.items()], [resolved] being the
    dict built so far. *)
Fixpoint resolve_loop (context : dict) (items resolved : dict) : res dict :=
  match items with
  | [] => Ok resolved
  | (k, v) :: rest =>
      match v with
      | VList l =>
          bind (resolve_list context l) (fun l' =>
          resolve_loop context rest (dict_set k (VList l') resolved))
      | VStr s =>
          match dict_get s context with
          | Some x => resolve_loop context rest (dict_set k x resolved)
          | None => resolve_loop context rest (dict_set k v resolved)
          end
      | _ => resolve_loop context rest (dict_set k v resolved)
      end
  end.

(** [resolve_params(params, context)], the same function in [action.py] and
    in [main.py]. *)
Definition resolve_params (params context : dict) : res dict :=
  resolve_loop context params [].

(** Step 1 of [resolve_params_with_llm]: what the context resolves, and what
    it leaves. *)
Fixpoint first_pass (context : dict) (items resolved unresolved : dict)
  : res (dict * dict) :=
  match items with
  | [] => Ok (resolved, unresolved)
  | (k, v) :: rest =>
      match v with
      | VList l =>
          bind (resolve_list context l) (fun l' =>
          first_pass context rest (dict_set k (VList l') resolved) unresolved)
      | VStr s =>
          match dict_get s context with
          | Some x => first_pass context rest (dict_set k x resolved) unresolved
          | None => first_pass context rest resolved (dict_set k v unresolved)
          end
      | _ => first_pass context rest resolved (dict_set k v unresolved)
      end
  end.

(** Step 2, the body of the [try] block: the collaborator's answer decoded. *)
Definition llm_answer (r : reply) : res value :=
  bind (stripped_text r) (fun text =>
  bind (if str_contains "```json" text then fenced_json text else Ok text)
       (fun text =>
  json_loads text)).

Definition is_none (v : value) : bool :=
  match v with VNone => true | _ => false end.

(** Step 3: the merge loop over [params.items()]. *)
Fixpoint merge (items resolved : dict) (llm_result : value) (final : dict)
  : res dict :=
  match items with
  | [] => Ok final
  | (k, v) :: rest =>
      match dict_get k resolved with
      | Some x => merge rest resolved llm_result (dict_set k x final)
      | None =>
          bind (str_in k llm_result) (fun present =>
          bind (if present
                then bind (getitem_str llm_result k) (fun x => Ok (negb (is_none x)))
                else Ok false) (fun answered =>
          if answered then
            bind (getitem_str llm_result k) (fun x =>
            merge rest resolved llm_result (dict_set k x final))
          else merge rest resolved llm_result (dict_set k v final)))
      end
  end.

(** The [try]/[except] of step 2: the decoded answer, or the empty dict when
    anything in the block raised. *)
Definition llm_result_of (r : reply) : value :=
  match llm_answer r with
  | Ok v => v
  | Raise _ => VDict []
  end.

(** [resolve_params_with_llm(params, context)], with the count of requests
    sent to the collaborator threaded through. *)
Definition resolve_params_with_llm (llm : collaborator) (params context : dict)
           (calls : nat) : res dict * nat :=
  match first_pass context params [] [] with
  | Raise e => (Raise e, calls)
  | Ok (resolved, unresolved) =>
      if negb (truthy (VDict unresolved)) || negb (truthy (VDict context)) then
        (Ok (dict_update params resolved), calls)
      else
        let '(r, calls') :=
          generate_content llm (ResolveRequest context unresolved) calls in
        (merge params resolved (llm_result_of r) [], calls')
  end.

(** [flatten_dict(prefix, d)], on the dict [v]. *)
Fixpoint flatten_value (prefix : string) (v : value) {struct v} : dict :=
  match v with
  | VDict d =>
      (fix items (l : dict) (out : dict) {struct l} : dict :=
         match l with
         | [] => out
         | (k, x) :: rest =>
             let name := prefix ++ "_" ++ k in
             items rest
                   match x with
                   | VDict _ => dict_update out (flatten_value name x)
                   | _ => dict_set name x out
                   end
         end) d []
  | _ => []
  end.

Definition flatten_dict (prefix : string) (d : dict) : dict :=
  flatten_value prefix (VDict d).

(** The loop over [ao.result.items()] that updates the runtime context. *)
Definition update_context (result : dict) (context : dict) : dict :=
  fold_left
    (fun ctx kv =>
       match snd kv with
       | VDict d => dict_update ctx (flatten_dict (fst kv) d)
       | val => dict_set (fst kv) val ctx
       end)
    result context.

(** The context after an action: updated when [ao.success and ao.result]. *)
Definition context_after (ao : Action.ActionOutput) (context : dict) : dict :=
  if Action.success ao && truthy (VDict (Action.result ao))
  then update_context (Action.result ao) context
  else context.

(** The variables of [main] that the [while] loop reads and writes, the
    count of requests sent to the collaborator, and the memory file. *)
Record run_state := {
  results : list Action.ActionOutput;
  executed_steps : list Decision.Step;
  context : dict;
  step_count : nat;
  calls : nat;
  file : Memory.mem_file
}.

(** How one pass through the loop body ends: at its end ([Continue]), at the
    [break] ([Finished], with the last plan), or by an exception that nothing
    catches ([Crashed]). *)
Inductive outcome :=
| Continue (s : run_state)
| Finished (s : run_state) (d_plan : Decision.DecisionOutput)
| Crashed (e : exn) (s : run_state).

Definition with_calls (s : run_state) (n : nat) : run_state :=
  {| results := results s; executed_steps := executed_steps s;
     context := context s; step_count := step_count s; calls := n;
     file := file s |}.

Definition with_step_count (s : run_state) (n : nat) : run_state :=
  {| results := results s; executed_steps := executed_steps s;
     context := context s; step_count := n; calls := calls s;
     file := file s |}.

(** The state at the start of the loop. *)
Definition initial_state (f : Memory.mem_file) : run_state :=
  let ctx := Memory.load_context f in
  let ctx :=
    if dict_mem "inflation_rates" ctx then ctx
    else dict_set "inflation_rates"
           (VDict [("2023", VFloat 0.045); ("2024", VFloat 0.031);
                   ("2025", VFloat 0.028)]) ctx in
  {| results := []; executed_steps := []; context := ctx; step_count := 0;
     calls := 0; file := f |}.

(** The body of [while True]. *)
Definition loop_body (llm : collaborator) (di : Decision.DecisionInput)
           (s : run_state) : outcome :=
  let '(d_plan, calls1) :=
    Decision.decide_next_step llm di (context s) (executed_steps s) (calls s) in
  let s := with_calls s calls1 in
  if Decision.done d_plan then Finished s d_plan
  else
    let s := with_step_count s (S (step_count s)) in
    match Decision.next_step d_plan with
    | None =>
        Crashed (Exn AttributeError
                   "'NoneType' object has no attribute 'function_name'") s
    | Some step =>
        match resolve_params_with_llm llm (Decision.parameters step)
                                      (context s) (calls s) with
        | (Raise e, calls2) => Crashed e (with_calls s calls2)
        | (Ok resolved_params, calls2) =>
            let ao :=
              Action.execute_action
                {| Action.function_name := Decision.function_name step;
                   Action.parameters := resolved_params |} in
            let context' := context_after ao (context s) in
            Continue
              {| results := results s ++ [ao];
                 executed_steps := executed_steps s ++ [step];
                 context := context';
                 step_count := step_count s;
                 calls := calls2;
                 file := Memory.save_context (file s) context' |}
        end
    end.

(** The loop, run for at most [fuel] passes: [None] when it is still running
    after them. *)
Fixpoint run (llm : collaborator) (di : Decision.DecisionInput) (fuel : nat)
         (s : run_state) : option outcome :=
  match fuel with
  | O => None
  | S fuel' =>
      match loop_body llm di s with
      | Continue s' => run llm di fuel' s'
      | o => Some o
      end
  end.

(** [passes llm di n s s']: [n] complete passes through the loop body lead
    from the state [s] to the state [s']. *)
Inductive passes (llm : collaborator) (di : Decision.DecisionInput)
  : nat -> run_state -> run_state -> Prop :=
| passes_O s : passes llm di O s s
| passes_S n s s' s'' :
    loop_body llm di s = Continue s' ->
    passes llm di n s' s'' ->
    passes llm di (S n) s s''.

(** The state an outcome leaves. *)
Definition state_of (o : outcome) : run_state :=
  match o with
  | Continue s => s
  | Finished s _ => s
  | Crashed _ s => s
  end.

End Main.

(* ================================================================== *)
(** * The specification's own words, as definitions                     *)
(* ================================================================== *)

Module Spec.
Import Py.

(** [v > 0] and [v <= 0] on a number; both are false on anything else and on
    NaN. *)
Definition positive (v : value) : bool :=
  match as_num v with
  | Some (NInt z) => (0 <? z)%Z
  | Some (NFloat f) => float_gt0 f
  | None => false
  end.

Definition nonpositive (v : value) : bool :=
  match as_num v with
  | Some (NInt z) => (z <=? 0)%Z
  | Some (NFloat f) => float_le0 f
  | None => false
  end.

(** (revenue - investment) / investment * 100, in Python's arithmetic: the
    value, or the exception that the arithmetic raises (integers beyond the
    range of floats overflow). *)
Definition roi_formula (revenue investment : value) : res value :=
  bind (py_sub revenue investment) (fun difference =>
  bind (py_truediv difference investment) (fun ratio =>
  py_mul ratio (VInt 100))).

(** ROI of a scalar pair of numbers (amended: what the formula gives, its
    exception included). *)
Inductive roi_scalar : value -> value -> res value -> Prop :=
| roi_positive revenue investment :
    is_number revenue = true -> is_number investment = true ->
    positive investment = true ->
    roi_scalar revenue investment (roi_formula revenue investment)
| roi_nonpositive revenue investment :
    is_number revenue = true -> is_number investment = true ->
    nonpositive investment = true ->
    roi_scalar revenue investment (Ok (VInt 0)).

(** ROI of the pairs of two sequences, in order: the values of all pairs, or
    the exception of the first pair that raises. *)
Inductive roi_pairs : list (value * value) -> res (list value) -> Prop :=
| roi_pairs_nil : roi_pairs [] (Ok [])
| roi_pairs_value revenue investment o pairs rois :
    roi_scalar revenue investment (Ok o) ->
    roi_pairs pairs (Ok rois) ->
    roi_pairs ((revenue, investment) :: pairs) (Ok (o :: rois))
| roi_pairs_raise revenue investment e pairs :
    roi_scalar revenue investment (Raise e) ->
    roi_pairs ((revenue, investment) :: pairs) (Raise e)
| roi_pairs_raise_later revenue investment o pairs e :
    roi_scalar revenue investment (Ok o) ->
    roi_pairs pairs (Raise e) ->
    roi_pairs ((revenue, investment) :: pairs) (Raise e).

(** ROI of a scalar pair, and of two sequences of the same length, pair by
    pair. *)
Inductive roi : value -> value -> res value -> Prop :=
| roi_of_scalars revenue investment out :
    roi_scalar revenue investment out ->
    roi revenue investment out
| roi_of_sequences revenues investments rois :
    List.length revenues = List.length investments ->
    roi_pairs (combine revenues investments) (Ok rois) ->
    roi (VList revenues) (VList investments) (Ok (VList rois))
| roi_of_sequences_raise revenues investments e :
    List.length revenues = List.length investments ->
    roi_pairs (combine revenues investments) (Raise e) ->
    roi (VList revenues) (VList investments) (Raise e).



(** The replies the Planner cannot plan from, with the rationale each one
    leads to: a call that raised, a response that does not decode, a decoded
    object without a function name (the empty object among them). *)
Inductive planning_error : Llm.reply -> string -> Prop :=
| collaborator_fault e :
    planning_error (Llm.Fault e) ("LLM decision failed: " ++ exn_str e)
| undecodable_response text e :
    Decision.decode_reply (Llm.Response text) = Raise e ->
    planning_error (Llm.Response text) ("LLM decision failed: " ++ exn_str e)
| no_function_name text d :
    Decision.decode_reply (Llm.Response text) = Ok (VDict d) ->
    dict_mem "function_name" d = false ->
    planning_error (Llm.Response text) "All steps completed".

(** [grown n s s']: from [s] to [s'] exactly [n] steps were appended to the
    executed steps and [n] results to the results, nothing before them was
    changed, and every key of the context is still a key. *)
Definition grown (n : nat) (s s' : Main.run_state) : Prop :=
  (exists steps, List.length steps = n
                 /\ Main.executed_steps s' = (Main.executed_steps s ++ steps)%list)
  /\ (exists outs, List.length outs = n
                   /\ Main.results s' = (Main.results s ++ outs)%list)
  /\ Main.step_count s' = (Main.step_count s + n)%nat
  /\ (forall k, dict_mem k (Main.context s) = true ->
                dict_mem k (Main.context s') = true).

(** ** The Parameter Resolver *)

Definition hashable (v : value) : bool :=
  match v with VList _ | VDict _ => false | _ => true end.

(** Every sequence among the parameter values holds scalars only. *)
Definition flat (params : dict) : bool :=
  forallb (fun kv => match snd kv with
                     | VList l => forallb hashable l
                     | _ => true
                     end) params.

(** An element of a sequence: the stored value when it names a context key,
    else itself. *)
Definition lookup_or_keep (context : dict) (x : value) : value :=
  match x with
  | VStr s => match dict_get s context with Some v => v | None => x end
  | _ => x
  end.

(** What the context resolves a parameter value to, if it does. *)
Definition from_context (context : dict) (v : value) : option value :=
  match v with
  | VStr s => dict_get s context
  | VList l => Some (VList (map (lookup_or_keep context) l))
  | _ => None
  end.

Definition unresolved_by (context : dict) (kv : string * value) : bool :=
  match from_context context (snd kv) with Some _ => false | None => true end.

(** The parameters escalated to the collaborator. *)
Definition escalated (context params : dict) : dict :=
  filter (unresolved_by context) params.

(** The entries the context resolves, in the order of the parameters. *)
Definition context_entries (context params : dict) : dict :=
  flat_map (fun kv => match from_context context (snd kv) with
                      | Some x => [(fst kv, x)]
                      | None => []
                      end) params.

(** The collaborator is consulted when something is left unresolved and the
    context is not empty. *)
Definition consulted (context params : dict) : bool :=
  truthy (VDict (escalated context params)) && truthy (VDict context).

(** The collaborator's answer as a mapping: empty when it is not consulted or
    the call or the decoding failed, none when the decoded answer is not an
    object. *)
Definition collaborator_answer (llm : Llm.collaborator) (context params : dict)
           (calls : nat) : option dict :=
  if consulted context params then
    match Main.llm_result_of
            (llm calls (Llm.ResolveRequest context (escalated context params)))
    with
    | VDict d => Some d
    | _ => None
    end
  else Some [].

(** The non-null answer for a parameter, if there is one. *)
Definition answer_for (answer : dict) (k : string) : option value :=
  match dict_get k answer with
  | Some VNone | None => None
  | Some y => Some y
  end.

(** The value a parameter gets: from the context when it resolves there,
    else the collaborator's non-null answer, else the original literal. *)
Definition resolved_value (context answer : dict) (kv : string * value) : value :=
  match from_context context (snd kv) with
  | Some x => x
  | None =>
      match answer_for answer (fst kv) with
      | Some y => y
      | None => snd kv
      end
  end.

(** The collaborator's decoded answer, as the merge sees it: the empty object
    when the collaborator is not consulted (and, by [Main.llm_result_of], when
    the call or the decoding failed). *)
Definition decoded_answer (llm : Llm.collaborator) (context params : dict)
           (calls : nat) : value :=
  if consulted context params then
    Main.llm_result_of
      (llm calls (Llm.ResolveRequest context (escalated context params)))
  else VDict [].

(** The parameter [k] can be looked up in a decoded answer: the answer is an
    object, or it is a list or a text that does not hold [k].  What the code
    does on any other answer is the matter of C3. *)
Definition usable (answer : value) (k : string) : bool :=
  match answer with
  | VDict _ => true
  | VList l => negb (existsb (fun x => Action.eq_str x k) l)
  | VStr s => negb (str_contains k s)
  | _ => false
  end.

(** The entries of a decoded answer: only an object has some. *)
Definition entries (answer : value) : dict :=
  match answer with VDict d => d | _ => [] end.

(** The value a decoded answer gives the parameter [k]: its non-null entry,
    if there is one. *)
Definition proposal (answer : value) (k : string) : option value :=
  answer_for (entries answer) k.

(** A placeholder names a key of the context. *)
Definition placeholder (context : dict) (x : value) : bool :=
  match x with VStr s => dict_mem s context | _ => false end.

(** A parameter mapping is fully resolved when no value, and no element of a
    sequence value, is a placeholder. *)
Definition concrete (context : dict) (v : value) : bool :=
  match v with
  | VList l => forallb (fun x => negb (placeholder context x)) l
  | _ => negb (placeholder context v)
  end.

Definition fully_resolved (context params : dict) : bool :=
  forallb (fun kv => concrete context (snd kv)) params.

End Spec.

(* ================================================================== *)
(** * Scenarios: scripted collaborators                                 *)
(* ================================================================== *)

Module Scenario.
Import Py Llm.

(** [s] between double quotes. *)
Definition q (s : string) : string :=
  String Json.dquote (s ++ String Json.dquote EmptyString).

(** A collaborator that always answers with the same text. *)
Definition always (text : string) : collaborator :=
  fun _ _ => Response (Some text).

(** A collaborator that answers from a script, one text per request, and
    raises when the script is over. *)
Definition scripted (script : list string) : collaborator :=
  fun n _ =>
    match nth_error script n with
    | Some text => Response (Some text)
    | None => Fault (Exn CollaboratorError "503 UNAVAILABLE")
    end.

(** The plan of one fetch, as the Planner's prompt asks for it. *)
Definition fetch_plan : string :=
  "```json" ++ String Json.newline
    ("{" ++ q "function_name" ++ ": " ++ q "get_financial_data" ++ ", "
         ++ q "parameters" ++ ": {" ++ q "symbol" ++ ": " ++ q "AAPL" ++ ", "
         ++ q "period" ++ ": " ++ q "Q1_2024" ++ "}}")
    ++ String Json.newline "```".

Definition no_preferences : Decision.DecisionInput :=
  {| Decision.perception := []; Decision.preferences := [] |}.

(** A run that plans the fetch, leaves its parameters as they are, and then
    finds nothing more to plan. *)
Definition fetch_then_stop : collaborator :=
  scripted [fetch_plan; "{}"; "{}"].

Definition after_fetch : Main.run_state :=
  Eval vm_compute in
    Main.state_of (Main.loop_body fetch_then_stop no_preferences
                                  (Main.initial_state None)).

(** A context as the loop driver seeds it. *)
Definition seeded_context : dict := Main.context (Main.initial_state None).

(** The answer that maps the parameter [rate] to 0.05, and the one that
    maps it to null. *)
Definition rate_answer : string := "{" ++ q "rate" ++ ": 0.05}".
Definition null_rate_answer : string := "{" ++ q "rate" ++ ": null}".

(** The answer that gives the parameter [rate] the value it already has. *)
Definition echo_rate_answer : string := "{" ++ q "rate" ++ ": 0.031}".

(** Parameters that name no context key. *)
Definition resolved_params : dict :=
  [("values", VList [VFloat 94.8; VFloat 81.8]); ("rate", VFloat 0.031)].

End Scenario.


(* ================================================================== *)
(** * Further notions used to describe the code                         *)
(* ================================================================== *)

Module Cover.
Import Py.

Definition is_dict (v : value) : bool :=
  match v with VDict _ => true | _ => false end.

(** A value that is no list and no dict, and that an f-string can print:
    Python refuses to convert an integer of more than 4300 digits to text. *)
Definition printable_scalar (v : value) : bool :=
  match v with
  | VList _ | VDict _ => false
  | VInt z => (Z.abs z <? 10 ^ 4300)%Z
  | _ => true
  end.

(** The parameter names of the three tools that [action.py] defines: the
    required ones and the optional ones. *)
Definition signature (function_name : string) : list string * list string :=
  if String.eqb function_name "get_financial_data" then (["symbol"], ["period"])
  else if String.eqb function_name "calculate_roi" then
    (["revenue"; "investment"], [])
  else if String.eqb function_name "apply_inflation_adjustment" then
    (["values"; "rate"], [])
  else ([], []).

(** The tools that are defined: [generate_chart] is not. *)
Definition defined_tools : list string :=
  ["get_financial_data"; "calculate_roi"; "apply_inflation_adjustment"].

(** Induction on values that reaches the elements of lists and the values
    of dicts. *)
Section ValueInduction.

Variable P : value -> Prop.
Hypothesis HNone : P VNone.
Hypothesis HBool : forall b, P (VBool b).
Hypothesis HInt : forall z, P (VInt z).
Hypothesis HFloat : forall f, P (VFloat f).
Hypothesis HStr : forall s, P (VStr s).
Hypothesis HList : forall l, Forall P l -> P (VList l).
Hypothesis HDict : forall d, Forall (fun kv => P (snd kv)) d -> P (VDict d).

Fixpoint value_nested_ind (v : value) : P v :=
  match v with
  | VNone => HNone
  | VBool b => HBool b
  | VInt z => HInt z
  | VFloat f => HFloat f
  | VStr s => HStr s
  | VList l =>
      HList l
        ((fix all (l : list value) : Forall P l :=
            match l with
            | [] => Forall_nil P
            | x :: r => Forall_cons x (value_nested_ind x) (all r)
            end) l)
  | VDict d =>
      HDict d
        ((fix all (d : dict) : Forall (fun kv => P (snd kv)) d :=
            match d with
            | [] => Forall_nil _
            | kv :: r =>
                Forall_cons kv (value_nested_ind (snd kv)) (all r)
            end) d)
  end.

End ValueInduction.

(** One turn of the loop of [flatten_dict]: the entry [kv] written into
    [out]. *)
Definition flatten_step (prefix : string) (out : dict) (kv : string * value)
  : dict :=
  match snd kv with
  | VDict _ =>
      dict_update out (Main.flatten_value (prefix ++ "_" ++ fst kv) (snd kv))
  | x => dict_set (prefix ++ "_" ++ fst kv) x out
  end.

(** A key that starts with the name of a tool. *)
Definition tool_key (k : string) : bool :=
  existsb (fun name => starts_with name k) defined_tools.

(** The parameters of a planned step: the empty dict when the decoded
    object has none, none when they are no object. *)
Definition planned_parameters (d : dict) : option dict :=
  match dict_get "parameters" d with
  | None => Some []
  | Some (VDict p) => Some p
  | Some _ => None
  end.

(** No character of [s] is [c]. *)
Fixpoint without_char (c : ascii) (s : string) : bool :=
  match s with
  | EmptyString => true
  | String a r => negb (Ascii.eqb a c) && without_char c r
  end.

Definition backtick : ascii := "`"%char.

(** The context after the fetch of [Scenario.fetch_plan]. *)
Definition fetched_context : dict := Main.context Scenario.after_fetch.

(** A plan whose parameters hold a sequence in a sequence. *)
Definition nested_plan : string :=
  "{" ++ Scenario.q "function_name" ++ ": " ++ Scenario.q "calculate_roi" ++ ", "
      ++ Scenario.q "parameters" ++ ": {" ++ Scenario.q "revenue"
      ++ ": [[90.8, 85.3]]}}".

End Cover.
(* ================================================================== *)
(** * Dictionaries: lookup, assignment, update                          *)
(* ================================================================== *)

Import Py.

Lemma dict_get_in_keys (k : string) (d : dict) (v : value) :
  dict_get k d = Some v -> In k (dict_keys d).
Proof.
  induction d as [ | [k' v'] d IH]; simpl; [discriminate | ].
  destruct (String.eqb_spec k' k); [auto | ]. intros H; right; auto.
Qed.

Lemma dict_mem_in_keys (k : string) (d : dict) :
  dict_mem k d = true <-> In k (dict_keys d).
Proof.
  unfold dict_mem. induction d as [ | [k' v'] d IH]; simpl.
  - split; [discriminate | tauto].
  - destruct (String.eqb_spec k' k); [tauto | ].
    rewrite IH. split; [auto | intros [H | H]; [contradiction | exact H]].
Qed.

Lemma dict_get_set_same (k : string) (v : value) (d : dict) :
  dict_get k (dict_set k v d) = Some v.
Proof.
  induction d as [ | [k' v'] d IH]; simpl.
  - rewrite String.eqb_refl. reflexivity.
  - destruct (String.eqb_spec k' k) as [-> | Hne]; simpl.
    + rewrite String.eqb_refl. reflexivity.
    + apply String.eqb_neq in Hne. rewrite Hne. exact IH.
Qed.

Lemma dict_get_set_other (k k' : string) (v : value) (d : dict) :
  k <> k' -> dict_get k (dict_set k' v d) = dict_get k d.
Proof.
  intros Hne. induction d as [ | [k0 v0] d IH]; simpl.
  - destruct (String.eqb_spec k' k); [congruence | reflexivity].
  - destruct (String.eqb_spec k0 k') as [-> | H0]; simpl.
    + destruct (String.eqb_spec k' k); [congruence | reflexivity].
    + destruct (String.eqb_spec k0 k); [reflexivity | exact IH].
Qed.

(** Assignment deletes no key. *)
Lemma dict_mem_set (k k' : string) (v : value) (d : dict) :
  dict_mem k d = true -> dict_mem k (dict_set k' v d) = true.
Proof.
  unfold dict_mem. destruct (String.eqb_spec k k') as [-> | Hne].
  - rewrite dict_get_set_same. reflexivity.
  - rewrite (dict_get_set_other _ _ _ _ Hne). tauto.
Qed.

(** [update] deletes no key. *)
Lemma dict_mem_update (k : string) (d d2 : dict) :
  dict_mem k d = true -> dict_mem k (dict_update d d2) = true.
Proof.
  unfold dict_update. revert d.
  induction d2 as [ | [k2 v2] d2 IH]; simpl; intros d H; [exact H | ].
  apply IH. apply dict_mem_set. exact H.
Qed.

Lemma dict_mem_head (k : string) (v : value) (d : dict) :
  dict_mem k ((k, v) :: d) = true.
Proof. unfold dict_mem. simpl. rewrite String.eqb_refl. reflexivity. Qed.

Lemma dict_mem_tail (k k0 : string) (v0 : value) (d : dict) :
  dict_mem k d = true -> dict_mem k ((k0, v0) :: d) = true.
Proof.
  unfold dict_mem. simpl. intros H.
  destruct (String.eqb k0 k); [reflexivity | exact H].
Qed.

Lemma dict_mem_app (k : string) (d d' : dict) :
  dict_mem k (d ++ d')%list = dict_mem k d || dict_mem k d'.
Proof.
  unfold dict_mem. induction d as [ | [k0 v0] d IH]; simpl.
  - reflexivity.
  - destruct (String.eqb k0 k); [reflexivity | exact IH].
Qed.

Lemma dict_mem_single (k k' : string) (v : value) :
  dict_mem k [(k', v)] = String.eqb k' k.
Proof. unfold dict_mem. simpl. destruct (String.eqb k' k); reflexivity. Qed.

Lemma dict_get_not_mem (k : string) (d : dict) :
  dict_mem k d = false -> dict_get k d = None.
Proof. unfold dict_mem. destruct (dict_get k d); [discriminate | reflexivity]. Qed.

(** Assigning a key the dict does not have appends it. *)
Lemma dict_set_fresh (k : string) (v : value) (d : dict) :
  dict_mem k d = false -> dict_set k v d = (d ++ [(k, v)])%list.
Proof.
  unfold dict_mem. induction d as [ | [k0 v0] d IH]; simpl.
  - reflexivity.
  - destruct (String.eqb k0 k); [discriminate | ].
    intros H. rewrite (IH H). reflexivity.
Qed.

(** A key of the items still to come is not the key just appended. *)
Lemma fresh_after_append (k k' : string) (x : value) (items acc : dict) :
  dict_mem k items = false ->
  dict_mem k' items = true ->
  dict_mem k' acc = false ->
  dict_mem k' (acc ++ [(k, x)])%list = false.
Proof.
  intros Hk Hin Hacc.
  rewrite dict_mem_app, dict_mem_single, Hacc. simpl.
  destruct (String.eqb_spec k k') as [-> | ]; [congruence | reflexivity].
Qed.

Lemma dict_get_unique (k : string) (v : value) (d : dict) :
  unique_keys d = true -> In (k, v) d -> dict_get k d = Some v.
Proof.
  induction d as [ | [k0 v0] d IH]; simpl; [tauto | ].
  intros Hu [Heq | Hin].
  - injection Heq as -> ->. rewrite String.eqb_refl. reflexivity.
  - apply andb_prop in Hu. destruct Hu as [Hk Hu]. apply negb_true_iff in Hk.
    destruct (String.eqb_spec k0 k) as [-> | ].
    + rewrite (dict_get_not_mem _ _ Hk) in IH. specialize (IH Hu Hin). discriminate.
    + apply IH; assumption.
Qed.

Create HintDb dict.
#[global] Hint Resolve dict_mem_head dict_mem_tail dict_mem_set dict_mem_update
  fresh_after_append : dict.

(** The head of a dict with unique keys: its key is not in the tail. *)
Ltac unique_head H :=
  let Hk := fresh "Hk" in
  simpl in H; apply andb_prop in H; destruct H as [Hk H];
  apply negb_true_iff in Hk.

(* ================================================================== *)
(** * Properties of the tools                                           *)
(* ================================================================== *)


Lemma float_le0_not_gt0 (f : float) :
  float_le0 f = true -> float_gt0 f = false.
Proof.
  unfold float_le0, float_gt0, SFleb, SFltb.
  destruct (Prim2SF f) as [s | s | | s m e]; simpl; try congruence;
    destruct s; simpl; congruence.
Qed.

Lemma py_gt0_number (v : value) :
  is_number v = true -> py_gt0 v = Ok (Spec.positive v).
Proof.
  unfold is_number, py_gt0, Spec.positive.
  destruct (as_num v) as [[z | f] | ]; intros H; try reflexivity; discriminate.
Qed.

Lemma nonpositive_not_positive (v : value) :
  Spec.nonpositive v = true -> Spec.positive v = false.
Proof.
  unfold Spec.nonpositive, Spec.positive.
  destruct (as_num v) as [[z | f] | ]; intros H.
  - apply Z.ltb_ge. apply Z.leb_le. exact H.
  - apply float_le0_not_gt0. exact H.
  - reflexivity.
Qed.

Lemma nonpositive_is_number (v : value) :
  Spec.nonpositive v = true -> is_number v = true.
Proof.
  unfold Spec.nonpositive, is_number.
  destruct (as_num v) as [[z | f] | ]; intros H; try reflexivity; discriminate.
Qed.

(** The conditional expression of [calculate_roi] computes the ROI of a
    scalar pair. *)
Lemma roi_pair_scalar (r i : value) (out : res value) :
  Spec.roi_scalar r i out -> Action.roi_pair r i = out.
Proof.
  intros H. destruct H as [r i Hr Hi Hpos | r i Hr Hi Hneg];
    unfold Action.roi_pair; rewrite (py_gt0_number _ Hi).
  - rewrite Hpos. reflexivity.
  - rewrite (nonpositive_not_positive _ Hneg). reflexivity.
Qed.

Lemma calculate_roi_numbers (r i : value) :
  is_number r = true -> is_number i = true ->
  Action.calculate_roi r i = Action.roi_pair r i.
Proof.
  intros Hr Hi. unfold Action.calculate_roi. rewrite Hr, Hi.
  destruct r; try discriminate; reflexivity.
Qed.

Lemma roi_scalar_numbers (r i : value) (out : res value) :
  Spec.roi_scalar r i out -> is_number r = true /\ is_number i = true.
Proof. intros H; destruct H; split; assumption. Qed.

Lemma mapM_roi_pairs (pairs : list (value * value)) (out : res (list value)) :
  Spec.roi_pairs pairs out ->
  mapM (fun ri => Action.roi_pair (fst ri) (snd ri)) pairs = out.
Proof.
  induction 1 as [ | r i o pairs rois Hhead _ IH | r i e pairs Hhead
                   | r i o pairs e Hhead _ IH];
    cbn [mapM fst snd].
  - reflexivity.
  - rewrite (roi_pair_scalar _ _ _ Hhead), IH. reflexivity.
  - rewrite (roi_pair_scalar _ _ _ Hhead). reflexivity.
  - rewrite (roi_pair_scalar _ _ _ Hhead), IH. reflexivity.
Qed.

(** C4, as amended. For a scalar pair of numbers, [calculate_roi] returns 0
    when the investment is zero or negative; when it is positive it evaluates
    (revenue - investment) / investment * 100 in Python's arithmetic and
    returns the value, or raises the exception that this arithmetic raises.
    For two sequences of numbers of the same length it returns the list of
    the per-pair ROIs under the same rule, or raises the exception of the
    first pair that raises. *)
Theorem calculate_roi_computes_roi (revenue investment : value)
        (out : res value) :
  Spec.roi revenue investment out ->
  Action.calculate_roi revenue investment = out.
Proof.
  intros H. destruct H as [r i out Hs | rs invs rois Hlen Hall
                           | rs invs e Hlen Hall].
  - destruct (roi_scalar_numbers _ _ _ Hs) as [Hr Hi].
    rewrite (calculate_roi_numbers _ _ Hr Hi). apply roi_pair_scalar, Hs.
  - unfold Action.calculate_roi. rewrite Hlen, Nat.eqb_refl. cbn [negb].
    rewrite (mapM_roi_pairs _ _ Hall). reflexivity.
  - unfold Action.calculate_roi. rewrite Hlen, Nat.eqb_refl. cbn [negb].
    rewrite (mapM_roi_pairs _ _ Hall). reflexivity.
Qed.

(** On two floats the formula always has a value: no step of it raises. *)
Lemma roi_formula_floats (r i : float) :
  float_is_zero i = false ->
  Spec.roi_formula (VFloat r) (VFloat i) = Ok (VFloat ((r - i) / i * 100)%float).
Proof.
  intros Hz. unfold Spec.roi_formula. simpl. unfold py_truediv. simpl.
  rewrite Hz. reflexivity.
Qed.

Lemma float_gt0_not_zero (f : float) :
  float_gt0 f = true -> float_is_zero f = false.
Proof.
  unfold float_gt0, float_is_zero, SFltb, SFeqb.
  destruct (Prim2SF f) as [s | s | | s m e]; simpl; try congruence;
    destruct s; simpl; congruence.
Qed.

(** On two floats with a positive investment [calculate_roi] always returns
    a float, the formula evaluated in binary64 arithmetic. *)
Lemma calculate_roi_floats (r i : float) :
  float_gt0 i = true ->
  Action.calculate_roi (VFloat r) (VFloat i)
  = Ok (VFloat ((r - i) / i * 100)%float).
Proof.
  intros Hpos. rewrite calculate_roi_numbers by reflexivity.
  unfold Action.roi_pair. simpl. rewrite Hpos.
  apply roi_formula_floats, float_gt0_not_zero. exact Hpos.
Qed.

(** C4 as stated fails on integers beyond the range of floats: 10^400 and 1
    are numbers, the investment 1 is positive, and [calculate_roi] returns no
    value: the division of the formula raises [OverflowError]. *)
Lemma calculate_roi_overflows :
  is_number (VInt (10 ^ 400)) = true
  /\ Spec.positive (VInt 1) = true
  /\ Action.calculate_roi (VInt (10 ^ 400)) (VInt 1)
     = Raise (Exn OverflowError "integer division result too large for a float").
Proof. repeat split; vm_compute; reflexivity. Qed.

Lemma calculate_roi_computes_roi_witness :
  Action.calculate_roi (VList [VFloat 94.8; VInt 3]) (VList [VFloat 25.1; VInt 0])
  = Ok (VList [VFloat ((94.8 - 25.1) / 25.1 * 100)%float; VInt 0]).
Proof.
  apply calculate_roi_computes_roi.
  apply Spec.roi_of_sequences; [reflexivity | ].
  apply Spec.roi_pairs_value.
  - exact (Spec.roi_positive (VFloat 94.8) (VFloat 25.1) eq_refl eq_refl eq_refl).
  - apply Spec.roi_pairs_value; [ | apply Spec.roi_pairs_nil].
    exact (Spec.roi_nonpositive (VInt 3) (VInt 0) eq_refl eq_refl eq_refl).
Defined.

(** C6, at the failing input: with the rate -1 the divisor [1 + rate] is
    zero and [apply_inflation_adjustment] raises [ZeroDivisionError]; it does
    not return an error value. *)
Theorem inflation_adjustment_raises_at_rate_minus_one :
  Action.apply_inflation_adjustment (VFloat 100) (VFloat (-1))
  = Raise (Exn ZeroDivisionError "float division by zero").
Proof. reflexivity. Qed.

(** The same with a sequence of values, and with a rate that is no number. *)
Lemma inflation_adjustment_raises_on_sequence :
  Action.apply_inflation_adjustment (VList [VFloat 94.8; VFloat 81.8]) (VInt (-1))
  = Raise (Exn ZeroDivisionError "float division by zero").
Proof. reflexivity. Qed.

Lemma inflation_adjustment_raises_on_text_rate :
  Action.apply_inflation_adjustment (VFloat 100) (VStr "3%")
  = Raise (Exn TypeError "unsupported operand type(s) for +: 'int' and 'str'").
Proof. reflexivity. Qed.

(** C7. On two sequences of different lengths [calculate_roi] returns the
    error value; it does not raise. *)
Theorem calculate_roi_mismatched_lengths (revenue investment : list value) :
  List.length revenue <> List.length investment ->
  Action.calculate_roi (VList revenue) (VList investment)
  = Ok (Action.error_value "Revenue and investment lists must be the same length").
Proof.
  intros Hlen. unfold Action.calculate_roi.
  apply Nat.eqb_neq in Hlen. rewrite Hlen. reflexivity.
Qed.

Lemma calculate_roi_mismatched_lengths_witness :
  Action.calculate_roi (VList [VFloat 94.8; VFloat 81.8]) (VList [VFloat 25.1])
  = Ok (Action.error_value "Revenue and investment lists must be the same length").
Proof.
  apply calculate_roi_mismatched_lengths. simpl. discriminate.
Defined.

(** C10. Whatever the parameters, [execute_action] on [generate_chart] gives
    a failure result: evaluating the undefined name raises [NameError], which
    the [except] clause turns into the message. *)
Theorem generate_chart_always_fails (params : dict) :
  Action.execute_action
    {| Action.function_name := "generate_chart"; Action.parameters := params |}
  = {| Action.success := false; Action.result := [];
       Action.message := "name 'generate_chart' is not defined" |}.
Proof. reflexivity. Qed.

(** ** [get_financial_data] *)

Lemma known_symbol_cases (symbol : string) :
  dict_mem symbol Action.DUMMY_DATA = true ->
  symbol = "AAPL" \/ symbol = "MSFT" \/ symbol = "AMZN".
Proof.
  unfold dict_mem, Action.DUMMY_DATA. cbn [dict_get].
  destruct (String.eqb_spec "AAPL" symbol); [auto | ].
  destruct (String.eqb_spec "MSFT" symbol); [auto | ].
  destruct (String.eqb_spec "AMZN" symbol); [auto | ].
  discriminate.
Qed.

Lemma known_quarter_cases (symbol quarter : string) (data : value) :
  dict_get quarter (Action.periods_of symbol) = Some data ->
  dict_mem symbol Action.DUMMY_DATA = true
  /\ In quarter ["Q1_2023"; "Q2_2023"; "Q3_2023"; "Q4_2023"; "Q1_2024"; "Q2_2024"].
Proof.
  intros H.
  assert (Hs : dict_mem symbol Action.DUMMY_DATA = true).
  { unfold dict_mem, Action.periods_of in *.
    destruct (dict_get symbol Action.DUMMY_DATA); [reflexivity | discriminate]. }
  split; [exact Hs | ].
  apply dict_get_in_keys in H.
  destruct (known_symbol_cases _ Hs) as [-> | [-> | ->]]; exact H.
Qed.






(** ** The dispatcher *)

Lemma dispatch_unknown (ai : Action.ActionInput) :
  Action.dispatch ai = None <-> ~ In (Action.function_name ai) Decision.AllowedFn.
Proof.
  unfold Action.dispatch, Decision.AllowedFn. simpl.
  repeat match goal with
         | |- context [String.eqb (Action.function_name ai) ?s] =>
             destruct (String.eqb_spec (Action.function_name ai) s) as [-> | ?]
         end;
    (split; [try discriminate; intros _; intuition congruence
            | intros H; try reflexivity; exfalso; apply H; tauto]).
Qed.

Lemma error_value_merged (name reason : string) (context : dict) :
  dict_get (name ++ "_error")
           (Main.update_context [(name, Action.error_value reason)] context)
  = Some (VStr reason).
Proof.
  unfold Main.update_context, Action.error_value. simpl.
  unfold dict_update. simpl. apply dict_get_set_same.
Qed.

(** C9. When the dispatched tool returns an error mapping without raising,
    [execute_action] reports success with that mapping in its result, and the
    loop driver's update stores the error text in the context under the
    function name followed by [_error]; a failure result is produced only for
    a function name outside the four, or when the call raised. *)
Theorem domain_error_reported_as_success (ai : Action.ActionInput) :
  (forall reason : string,
      Action.dispatch ai = Some (Ok (Action.error_value reason)) ->
      Action.success (Action.execute_action ai) = true
      /\ Action.result (Action.execute_action ai)
         = [(Action.function_name ai, Action.error_value reason)]
      /\ forall context : dict,
          dict_get (Action.function_name ai ++ "_error")
                   (Main.context_after (Action.execute_action ai) context)
          = Some (VStr reason))
  /\ (Action.success (Action.execute_action ai) = false <->
      ~ In (Action.function_name ai) Decision.AllowedFn
      \/ exists e, Action.dispatch ai = Some (Raise e)).
Proof.
  split.
  - intros reason H. unfold Main.context_after, Action.execute_action.
    rewrite H. simpl. repeat split. intros context. apply error_value_merged.
  - rewrite <- dispatch_unknown. unfold Action.execute_action.
    destruct (Action.dispatch ai) as [[res | e] | ]; simpl.
    + split; [discriminate | intros [H | [e H]]; discriminate].
    + split; [intros _; right; exists e; reflexivity | reflexivity].
    + split; [intros _; left; reflexivity | reflexivity].
Qed.

Lemma domain_error_reported_as_success_witness :
  Action.success
    (Action.execute_action
       {| Action.function_name := "get_financial_data";
          Action.parameters := [("symbol", VStr "TSLA")] |}) = true
  /\ Action.result
       (Action.execute_action
          {| Action.function_name := "get_financial_data";
             Action.parameters := [("symbol", VStr "TSLA")] |})
     = [("get_financial_data",
         Action.error_value "No data available for symbol TSLA")]
  /\ forall context : dict,
      dict_get "get_financial_data_error"
               (Main.context_after
                  (Action.execute_action
                     {| Action.function_name := "get_financial_data";
                        Action.parameters := [("symbol", VStr "TSLA")] |})
                  context)
      = Some (VStr "No data available for symbol TSLA").
Proof.
  apply (proj1 (domain_error_reported_as_success
                  {| Action.function_name := "get_financial_data";
                     Action.parameters := [("symbol", VStr "TSLA")] |})
               "No data available for symbol TSLA").
  reflexivity.
Defined.

(* ================================================================== *)
(** * Properties of the Planner                                         *)
(* ================================================================== *)

(** Every invocation sends exactly one request to the collaborator. *)
Lemma decide_next_step_one_request llm di context executed calls :
  snd (Decision.decide_next_step llm di context executed calls) = S calls.
Proof.
  unfold Decision.decide_next_step, Llm.generate_content.
  destruct (Decision.plan_from _); reflexivity.
Qed.

Lemma plan_from_planning_error (r : Llm.reply) (why : string) :
  Spec.planning_error r why ->
  (exists e, Decision.plan_from r = Raise e
             /\ why = "LLM decision failed: " ++ exn_str e)
  \/ (Decision.plan_from r
      = Ok {| Decision.next_step := None; Decision.done := true;
              Decision.rationale := Some "All steps completed" |}
      /\ why = "All steps completed").
Proof.
  intros H. destruct H as [e | text e Hd | text d Hd Hno].
  - left. exists e. split; reflexivity.
  - left. exists e. unfold Decision.plan_from. rewrite Hd. split; reflexivity.
  - right. unfold Decision.plan_from. rewrite Hd. simpl.
    unfold Decision.no_step_in.
    destruct (truthy (VDict d)); simpl; [rewrite Hno | ]; split; reflexivity.
Qed.

(** C1. When the collaborator call raises, when its response does not decode
    as JSON, or decodes to an empty object or to one without a function name,
    [decide_next_step] returns DONE ([done=True], no next step) with a
    rationale, which for a fault or an undecodable response carries the
    fault's description; the output has no other state than [done], so there
    is no FAILED; and one request only was sent: the call is not retried. *)
Theorem planner_done_on_planning_error llm di context executed calls why :
  Spec.planning_error
    (llm calls (Llm.PlanRequest context (map Decision.function_name executed)
                                (Decision.perception di)
                                (Decision.preferences di)))
    why ->
  Decision.decide_next_step llm di context executed calls
  = ({| Decision.next_step := None; Decision.done := true;
        Decision.rationale := Some why |}, S calls).
Proof.
  intros H. unfold Decision.decide_next_step, Llm.generate_content.
  destruct (plan_from_planning_error _ _ H) as [[e [-> ->]] | [-> ->]];
    reflexivity.
Qed.

Lemma planner_done_on_planning_error_witness :
  Decision.decide_next_step (Scenario.always "I need more data.")
                            Scenario.no_preferences [] [] 0
  = ({| Decision.next_step := None; Decision.done := true;
        Decision.rationale :=
          Some "LLM decision failed: Expecting value: line 1 column 1 (char 0)" |},
     1%nat).
Proof.
  apply (planner_done_on_planning_error
           (Scenario.always "I need more data.") Scenario.no_preferences [] [] 0).
  exact (Spec.undecodable_response
           (Some "I need more data.")
           (Exn JSONDecodeError "Expecting value: line 1 column 1 (char 0)")
           eq_refl).
Defined.

(** The three kinds of planning error, on scripted collaborators. *)
Example planner_done_on_fault :
  Decision.decide_next_step (Scenario.scripted []) Scenario.no_preferences [] [] 0
  = ({| Decision.next_step := None; Decision.done := true;
        Decision.rationale := Some "LLM decision failed: 503 UNAVAILABLE" |},
     1%nat).
Proof. reflexivity. Qed.

Example planner_done_on_empty_object :
  Decision.decide_next_step (Scenario.always "{}") Scenario.no_preferences [] [] 0
  = ({| Decision.next_step := None; Decision.done := true;
        Decision.rationale := Some "All steps completed" |}, 1%nat).
Proof. vm_compute. reflexivity. Qed.

(** A function name outside the four is refused by the validation of [Step],
    and that too ends the planning. *)
Example planner_done_on_unknown_function :
  let plan :=
    fst (Decision.decide_next_step
           (Scenario.always ("{" ++ Scenario.q "function_name" ++ ": "
                                 ++ Scenario.q "plot" ++ "}"))
           Scenario.no_preferences [] [] 0) in
  Decision.done plan = true /\ Decision.next_step plan = None.
Proof. split; vm_compute; reflexivity. Qed.

(** The Planner plans on only when the reply decodes to a step with one of
    the four function names. *)
Lemma planner_goes_on_with_a_step llm di context executed calls :
  Decision.done (fst (Decision.decide_next_step llm di context executed calls))
  = false ->
  exists step,
    Decision.next_step
      (fst (Decision.decide_next_step llm di context executed calls))
    = Some step
    /\ In (Decision.function_name step) Decision.AllowedFn.
Proof.
  unfold Decision.decide_next_step, Llm.generate_content, Decision.plan_from.
  destruct (Decision.decode_reply _) as [data | e]; simpl; [ | discriminate].
  destruct (Decision.no_step_in data) as [[ | ] | e]; simpl; try discriminate.
  destruct (getitem_str data "function_name") as [fn | e]; simpl;
    [ | discriminate].
  destruct (Decision.py_get data "parameters" (VDict [])) as [ps | e]; simpl;
    [ | discriminate].
  unfold Decision.make_Step.
  destruct (Decision.allowed_name fn) as [name | ] eqn:Hname;
    destruct ps; simpl; try discriminate.
  intros _. exists {| Decision.function_name := name; Decision.parameters := d |}.
  split; [reflexivity | ]. simpl.
  unfold Decision.allowed_name in Hname. destruct fn; try discriminate.
  destruct (existsb (String.eqb s) Decision.AllowedFn) eqn:Hallowed;
    [ | discriminate].
  injection Hname as <-.
  apply existsb_exists in Hallowed. destruct Hallowed as [x [Hin Heq]].
  apply String.eqb_eq in Heq. subst. exact Hin.
Qed.

(* ================================================================== *)
(** * Properties of the Parameter Resolver                              *)
(* ================================================================== *)

Lemma dict_set_same_value (k : string) (v : value) (d : dict) :
  dict_get k d = Some v -> dict_set k v d = d.
Proof.
  induction d as [ | [k0 v0] d IH]; simpl; [discriminate | ].
  destruct (String.eqb k0 k).
  - intros H. injection H as ->. reflexivity.
  - intros H. rewrite (IH H). reflexivity.
Qed.

Lemma resolve_list_flat (context : dict) (l : list value) :
  forallb Spec.hashable l = true ->
  Main.resolve_list context l = Ok (map (Spec.lookup_or_keep context) l).
Proof.
  unfold Main.resolve_list.
  induction l as [ | x l IH]; simpl; [reflexivity | ].
  intros H. apply andb_prop in H. destruct H as [Hx Hl].
  rewrite (IH Hl).
  destruct x; try discriminate; simpl; try reflexivity.
  unfold dict_get_default. simpl. destruct (dict_get s context); reflexivity.
Qed.

Lemma first_pass_spec (context : dict) :
  forall items resolved unresolved : dict,
    unique_keys items = true ->
    Spec.flat items = true ->
    (forall k, dict_mem k items = true ->
               dict_mem k resolved = false /\ dict_mem k unresolved = false) ->
    Main.first_pass context items resolved unresolved
    = Ok ((resolved ++ Spec.context_entries context items)%list,
          (unresolved ++ Spec.escalated context items)%list).
Proof.
  induction items as [ | [k v] items IH]; intros resolved unresolved Hu Hf Hfresh.
  - simpl. rewrite !app_nil_r. reflexivity.
  - unique_head Hu.
    simpl in Hf. apply andb_prop in Hf. destruct Hf as [Hv Hf].
    destruct (Hfresh k (dict_mem_head k v items)) as [Hr Hn].
    assert (Hleft : forall x k', dict_mem k' items = true ->
               dict_mem k' (resolved ++ [(k, x)])%list = false
               /\ dict_mem k' unresolved = false).
    { intros x k' Hin. destruct (Hfresh k') as [H1 H2]; eauto with dict. }
    assert (Hright : forall x k', dict_mem k' items = true ->
               dict_mem k' resolved = false
               /\ dict_mem k' (unresolved ++ [(k, x)])%list = false).
    { intros x k' Hin. destruct (Hfresh k') as [H1 H2]; eauto with dict. }
    unfold Spec.escalated, Spec.context_entries, Spec.unresolved_by.
    simpl. destruct v; simpl;
      try (rewrite (dict_set_fresh _ _ _ Hn), IH by auto;
           rewrite <- !app_assoc; reflexivity).
    + (* a string *)
      destruct (dict_get s context) as [x | ].
      * rewrite (dict_set_fresh _ _ _ Hr), IH by auto.
        rewrite <- !app_assoc. reflexivity.
      * rewrite (dict_set_fresh _ _ _ Hn), IH by auto.
        rewrite <- !app_assoc. reflexivity.
    + (* a sequence *)
      rewrite (resolve_list_flat _ _ Hv). simpl.
      rewrite (dict_set_fresh _ _ _ Hr), IH by auto.
      rewrite <- !app_assoc. reflexivity.
Qed.

Lemma context_entries_get (context : dict) (k : string) (items : dict) :
  unique_keys items = true ->
  dict_get k (Spec.context_entries context items)
  = match dict_get k items with
    | Some v => Spec.from_context context v
    | None => None
    end.
Proof.
  induction items as [ | [k0 v0] items IH]; simpl; [reflexivity | ].
  intros Hu. apply andb_prop in Hu. destruct Hu as [Hk Hu].
  apply negb_true_iff in Hk. specialize (IH Hu).
  destruct (String.eqb_spec k0 k) as [-> | Hne].
  - rewrite (dict_get_not_mem _ _ Hk) in IH.
    destruct (Spec.from_context context v0); simpl.
    + rewrite String.eqb_refl. reflexivity.
    + exact IH.
  - destruct (Spec.from_context context v0); simpl; [ | exact IH].
    apply String.eqb_neq in Hne. rewrite Hne. exact IH.
Qed.

Lemma merge_spec (context resolved answer : dict) :
  forall items final : dict,
    unique_keys items = true ->
    (forall k, dict_mem k items = true -> dict_mem k final = false) ->
    (forall k v, In (k, v) items ->
                 dict_get k resolved = Spec.from_context context v) ->
    Main.merge items resolved (VDict answer) final
    = Ok (final ++ map (fun kv => (fst kv, Spec.resolved_value context answer kv))
                       items)%list.
Proof.
  induction items as [ | [k v] items IH]; intros final Hu Hfresh Hres.
  - simpl. rewrite app_nil_r. reflexivity.
  - unique_head Hu.
    pose proof (Hfresh k (dict_mem_head k v items)) as Hf.
    assert (Hnext : forall x k', dict_mem k' items = true ->
               dict_mem k' (final ++ [(k, x)])%list = false)
      by eauto with dict.
    assert (Hres' : forall k' v', In (k', v') items ->
                dict_get k' resolved = Spec.from_context context v')
      by (intros k' v' Hin; apply Hres; right; exact Hin).
    simpl. unfold Spec.resolved_value at 1. simpl.
    rewrite (Hres k v (or_introl eq_refl)).
    destruct (Spec.from_context context v) as [x | ].
    + rewrite (dict_set_fresh _ _ _ Hf), IH by auto.
      rewrite <- app_assoc. reflexivity.
    + unfold Spec.answer_for, dict_mem.
      destruct (dict_get k answer) as [y | ]; simpl;
        [destruct y; simpl | ];
        rewrite (dict_set_fresh _ _ _ Hf), IH by auto;
        rewrite <- app_assoc; reflexivity.
Qed.

(** Two dicts with the same keys in the same order and the same value under
    each key are the same dict. *)
Lemma dict_ext (d1 d2 : dict) :
  unique_keys d1 = true ->
  dict_keys d1 = dict_keys d2 ->
  (forall k, dict_get k d1 = dict_get k d2) ->
  d1 = d2.
Proof.
  revert d2. induction d1 as [ | [k1 v1] d1 IH]; intros [ | [k2 v2] d2];
    simpl; try discriminate; [reflexivity | ].
  intros Hu Hkeys Hget. injection Hkeys as <- Hkeys.
  apply andb_prop in Hu. destruct Hu as [Hk Hu]. apply negb_true_iff in Hk.
  pose proof (Hget k1) as Hhead. rewrite String.eqb_refl in Hhead.
  injection Hhead as <-. f_equal. apply IH; [exact Hu | exact Hkeys | ].
  intros k. specialize (Hget k).
  destruct (String.eqb_spec k1 k) as [Heq | Hne]; [ | exact Hget].
  subst k. rewrite (dict_get_not_mem _ _ Hk). symmetry. apply dict_get_not_mem.
  destruct (dict_mem k1 d2) eqn:Hm; [ | reflexivity].
  apply dict_mem_in_keys in Hm. rewrite <- Hkeys in Hm.
  apply dict_mem_in_keys in Hm. congruence.
Qed.

Lemma dict_keys_set_mem (k : string) (v : value) (d : dict) :
  dict_mem k d = true -> dict_keys (dict_set k v d) = dict_keys d.
Proof.
  unfold dict_mem. induction d as [ | [k0 v0] d IH]; simpl; [discriminate | ].
  destruct (String.eqb k0 k); simpl; [reflexivity | ].
  intros H. rewrite (IH H). reflexivity.
Qed.

Lemma dict_keys_update (d d2 : dict) :
  (forall k, dict_mem k d2 = true -> dict_mem k d = true) ->
  dict_keys (dict_update d d2) = dict_keys d.
Proof.
  unfold dict_update. revert d.
  induction d2 as [ | [k2 v2] d2 IH]; simpl; intros d H; [reflexivity | ].
  assert (Hk2 : dict_mem k2 d = true).
  { apply H. unfold dict_mem. simpl. rewrite String.eqb_refl. reflexivity. }
  rewrite IH.
  - apply dict_keys_set_mem. exact Hk2.
  - intros k Hin. apply dict_mem_set. apply H. unfold dict_mem in *. simpl.
    destruct (String.eqb k2 k); [reflexivity | exact Hin].
Qed.

Lemma dict_get_update (k : string) (d d2 : dict) :
  unique_keys d2 = true ->
  dict_get k (dict_update d d2)
  = match dict_get k d2 with Some x => Some x | None => dict_get k d end.
Proof.
  unfold dict_update. revert d.
  induction d2 as [ | [k2 v2] d2 IH]; simpl; intros d Hu; [reflexivity | ].
  apply andb_prop in Hu. destruct Hu as [Hk Hu]. apply negb_true_iff in Hk.
  rewrite (IH _ Hu).
  destruct (String.eqb_spec k2 k) as [<- | Hne].
  - rewrite (dict_get_not_mem _ _ Hk). apply dict_get_set_same.
  - rewrite (dict_get_set_other k k2 v2 d); [reflexivity | congruence].
Qed.

Lemma context_entries_mem (context : dict) (k : string) (items : dict) :
  dict_mem k (Spec.context_entries context items) = true ->
  dict_mem k items = true.
Proof.
  unfold dict_mem. induction items as [ | [k0 v0] items IH]; simpl; [tauto | ].
  destruct (Spec.from_context context v0); simpl;
    destruct (String.eqb k0 k); auto.
Qed.

Lemma context_entries_unique (context items : dict) :
  unique_keys items = true ->
  unique_keys (Spec.context_entries context items) = true.
Proof.
  induction items as [ | [k0 v0] items IH]; simpl; [reflexivity | ].
  intros Hu. apply andb_prop in Hu. destruct Hu as [Hk Hu].
  destruct (Spec.from_context context v0); simpl; [ | apply IH; exact Hu].
  rewrite (IH Hu), andb_true_r. apply negb_true_iff.
  destruct (dict_mem k0 (Spec.context_entries context items)) eqn:Hm;
    [ | reflexivity].
  apply context_entries_mem in Hm. rewrite Hm in Hk. discriminate.
Qed.

Lemma dict_get_map_values (h : string * value -> value) (k : string) (d : dict) :
  dict_get k (map (fun kv => (fst kv, h kv)) d)
  = match dict_get k d with Some v => Some (h (k, v)) | None => None end.
Proof.
  induction d as [ | [k0 v0] d IH]; simpl; [reflexivity | ].
  destruct (String.eqb_spec k0 k) as [-> | ]; [reflexivity | exact IH].
Qed.

Lemma dict_keys_map_values (h : string * value -> value) (d : dict) :
  dict_keys (map (fun kv => (fst kv, h kv)) d) = dict_keys d.
Proof. unfold dict_keys. rewrite map_map. reflexivity. Qed.

Lemma unique_keys_map_values (h : string * value -> value) (d : dict) :
  unique_keys d = true ->
  unique_keys (map (fun kv => (fst kv, h kv)) d) = true.
Proof.
  induction d as [ | [k0 v0] d IH]; simpl; [reflexivity | ].
  intros Hu. apply andb_prop in Hu. destruct Hu as [Hk Hu].
  rewrite (IH Hu), andb_true_r.
  unfold dict_mem in *. rewrite (dict_get_map_values h k0 d).
  destruct (dict_get k0 d); [discriminate | reflexivity].
Qed.

(** The early return: the parameters updated with what the context
    resolved. *)
Lemma update_with_context_entries (context params : dict) :
  unique_keys params = true ->
  dict_update params (Spec.context_entries context params)
  = map (fun kv => (fst kv, Spec.resolved_value context [] kv)) params.
Proof.
  intros Hu. symmetry. apply dict_ext.
  - apply unique_keys_map_values. exact Hu.
  - rewrite dict_keys_map_values. symmetry. apply dict_keys_update.
    intros k. apply context_entries_mem.
  - intros k. rewrite dict_get_map_values.
    rewrite (dict_get_update _ _ _ (context_entries_unique _ _ Hu)).
    rewrite (context_entries_get _ _ _ Hu).
    unfold Spec.resolved_value. simpl.
    destruct (dict_get k params) as [v | ]; [ | reflexivity].
    destruct (Spec.from_context context v); reflexivity.
Qed.

Lemma consulted_test (context params : dict) :
  negb (truthy (VDict (Spec.escalated context params)))
  || negb (truthy (VDict context))
  = negb (Spec.consulted context params).
Proof. unfold Spec.consulted. rewrite negb_andb. reflexivity. Qed.

(** What the Parameter Resolver returns when the collaborator's answer, if
    it is asked for one, is an object: for each parameter, in the order of
    the input, the value the context resolves it to, else the non-null answer
    of the collaborator, else the original literal; and the collaborator is
    sent one request, or none. *)
Lemma resolver_merges llm (params context answer : dict) (calls : nat) :
  unique_keys params = true ->
  Spec.flat params = true ->
  Spec.collaborator_answer llm context params calls = Some answer ->
  Main.resolve_params_with_llm llm params context calls
  = (Ok (map (fun kv => (fst kv, Spec.resolved_value context answer kv)) params),
     if Spec.consulted context params then S calls else calls).
Proof.
  intros Hu Hf Ha. unfold Main.resolve_params_with_llm.
  rewrite (first_pass_spec context params [] [] Hu Hf);
    [ | intros k _; split; reflexivity].
  cbn [app]. cbv beta iota. rewrite consulted_test.
  unfold Spec.collaborator_answer in Ha.
  destruct (Spec.consulted context params); simpl.
  - unfold Llm.generate_content.
    destruct (Main.llm_result_of _) as [ | | | | | | d] eqn:Hr; try discriminate.
    injection Ha as ->.
    rewrite (merge_spec context (Spec.context_entries context params) answer
                        params [] Hu); [reflexivity | reflexivity | ].
    intros k v Hin. rewrite (context_entries_get _ _ _ Hu).
    rewrite (dict_get_unique _ _ _ Hu Hin). reflexivity.
  - injection Ha as <-.
    rewrite (update_with_context_entries _ _ Hu). reflexivity.
Qed.

(** X27. When the collaborator's answer is an object, or the collaborator
    is not consulted, the keys of the mapping that the Parameter Resolver
    returns are the keys of the input, in its order. *)
Lemma resolver_keeps_keys llm (params context answer : dict) (calls : nat) :
  unique_keys params = true ->
  Spec.flat params = true ->
  Spec.collaborator_answer llm context params calls = Some answer ->
  exists final,
    fst (Main.resolve_params_with_llm llm params context calls) = Ok final
    /\ dict_keys final = dict_keys params.
Proof.
  intros Hu Hf Ha. rewrite (resolver_merges _ _ _ _ _ Hu Hf Ha). simpl.
  eexists. split; [reflexivity | apply dict_keys_map_values].
Qed.

Lemma resolve_loop_spec (context : dict) :
  forall items resolved : dict,
    unique_keys items = true ->
    Spec.flat items = true ->
    (forall k, dict_mem k items = true -> dict_mem k resolved = false) ->
    Main.resolve_loop context items resolved
    = Ok (resolved ++ map (fun kv => (fst kv, Spec.resolved_value context [] kv))
                          items)%list.
Proof.
  induction items as [ | [k v] items IH]; intros resolved Hu Hf Hfresh.
  - simpl. rewrite app_nil_r. reflexivity.
  - unique_head Hu.
    simpl in Hf. apply andb_prop in Hf. destruct Hf as [Hv Hf].
    pose proof (Hfresh k (dict_mem_head k v items)) as Hr.
    assert (Hnext : forall x k', dict_mem k' items = true ->
               dict_mem k' (resolved ++ [(k, x)])%list = false)
      by eauto with dict.
    unfold Spec.resolved_value. simpl.
    destruct v; simpl;
      try (rewrite (dict_set_fresh _ _ _ Hr), IH by auto;
           rewrite <- app_assoc; reflexivity).
    + destruct (dict_get s context) as [x | ];
        rewrite (dict_set_fresh _ _ _ Hr), IH by auto;
        rewrite <- app_assoc; reflexivity.
    + rewrite (resolve_list_flat _ _ Hv). simpl.
      rewrite (dict_set_fresh _ _ _ Hr), IH by auto.
      rewrite <- app_assoc. reflexivity.
Qed.

Lemma lookup_or_keep_concrete (context : dict) (l : list value) :
  forallb (fun x => negb (Spec.placeholder context x)) l = true ->
  map (Spec.lookup_or_keep context) l = l.
Proof.
  induction l as [ | x l IH]; simpl; [reflexivity | ].
  intros H. apply andb_prop in H. destruct H as [Hx Hl].
  rewrite (IH Hl). f_equal.
  destruct x; simpl in *; try reflexivity.
  apply negb_true_iff in Hx. rewrite (dict_get_not_mem _ _ Hx). reflexivity.
Qed.

Lemma concrete_value_kept (context answer : dict) (k : string) (v : value) :
  Spec.concrete context v = true ->
  Spec.answer_for answer k = None ->
  Spec.resolved_value context answer (k, v) = v.
Proof.
  intros Hc Ha. unfold Spec.resolved_value. simpl. rewrite Ha.
  destruct v; simpl in *; try reflexivity.
  - apply negb_true_iff in Hc. rewrite (dict_get_not_mem _ _ Hc). reflexivity.
  - rewrite (lookup_or_keep_concrete _ _ Hc). reflexivity.
Qed.

Lemma fully_resolved_kept (context answer params : dict) :
  Spec.fully_resolved context params = true ->
  (forall k, dict_mem k params = true -> Spec.answer_for answer k = None) ->
  map (fun kv => (fst kv, Spec.resolved_value context answer kv)) params = params.
Proof.
  induction params as [ | [k v] params IH]; simpl; [reflexivity | ].
  intros Hc Ha. apply andb_prop in Hc. destruct Hc as [Hv Hc].
  rewrite concrete_value_kept.
  - rewrite IH; [reflexivity | exact Hc | ].
    intros k' Hin. apply Ha. unfold dict_mem in *. simpl.
    destruct (String.eqb k k'); [reflexivity | exact Hin].
  - exact Hv.
  - apply Ha. unfold dict_mem. simpl. rewrite String.eqb_refl. reflexivity.
Qed.

(** On an answer that can be looked up for every parameter left to it, the
    merge does what it does on the answer's entries. *)
Lemma merge_usable (resolved : dict) (answer : value) :
  forall items final : dict,
    (forall k v, In (k, v) items -> dict_get k resolved = None ->
                 Spec.usable answer k = true) ->
    Main.merge items resolved answer final
    = Main.merge items resolved (VDict (Spec.entries answer)) final.
Proof.
  destruct answer as [ | b | z | f | s | l | d]; try reflexivity;
    cbn [Spec.entries];
    (induction items as [ | [k v] items IH]; intros final H; [reflexivity | ]);
    cbn [Main.merge];
    pose proof (H k v (or_introl eq_refl)) as Hk;
    (assert (Hrest : forall k' v', In (k', v') items ->
                                   dict_get k' resolved = None ->
                                   Spec.usable _ k' = true)
       by (intros k' v' Hin; apply (H k' v'); right; exact Hin));
    (destruct (dict_get k resolved) as [x | ]; [apply IH; exact Hrest | ]);
    specialize (Hk eq_refl); try discriminate Hk.
  - cbn [Spec.usable] in Hk. apply negb_true_iff in Hk.
    cbn [str_in bind]. rewrite Hk. cbn [bind dict_mem dict_get].
    apply IH. exact Hrest.
  - cbn [Spec.usable] in Hk. apply negb_true_iff in Hk.
    cbn [str_in bind]. unfold Action.eq_str in Hk. rewrite Hk.
    cbn [bind dict_mem dict_get]. apply IH. exact Hrest.
Qed.

(** What the Parameter Resolver returns on such an answer. *)
Lemma resolver_merges_usable llm (params context : dict) (calls : nat) :
  unique_keys params = true ->
  Spec.flat params = true ->
  (forall k v, In (k, v) (Spec.escalated context params) ->
               Spec.usable (Spec.decoded_answer llm context params calls) k
               = true) ->
  fst (Main.resolve_params_with_llm llm params context calls)
  = Ok (map (fun kv =>
               (fst kv,
                Spec.resolved_value
                  context
                  (Spec.entries (Spec.decoded_answer llm context params calls))
                  kv)) params).
Proof.
  intros Hu Hf Husable. unfold Main.resolve_params_with_llm.
  rewrite (first_pass_spec context params [] [] Hu Hf);
    [ | intros k _; split; reflexivity].
  cbn [app]. cbv beta iota. rewrite consulted_test.
  unfold Spec.decoded_answer in *.
  destruct (Spec.consulted context params); cbn [negb fst].
  - unfold Llm.generate_content. cbn [fst].
    assert (Hget : forall k v, In (k, v) params ->
                     dict_get k (Spec.context_entries context params)
                     = Spec.from_context context v).
    { intros k v Hin. rewrite (context_entries_get _ _ _ Hu).
      rewrite (dict_get_unique _ _ _ Hu Hin). reflexivity. }
    rewrite merge_usable.
    + apply (merge_spec context (Spec.context_entries context params) _
                        params [] Hu); [reflexivity | exact Hget].
    + intros k v Hin Hnone. apply (Husable k v).
      apply filter_In. split; [exact Hin | ].
      unfold Spec.unresolved_by. cbn [snd].
      rewrite <- (Hget k v Hin), Hnone. reflexivity.
  - rewrite (update_with_context_entries _ _ Hu). reflexivity.
Qed.

Lemma concrete_from_context (context : dict) (v x : value) :
  Spec.concrete context v = true ->
  Spec.from_context context v = Some x -> x = v.
Proof.
  intros Hc. destruct v as [ | b | z | f | s | l | d]; cbn; try discriminate.
  - cbn in Hc. apply negb_true_iff in Hc.
    rewrite (dict_get_not_mem _ _ Hc). discriminate.
  - cbn in Hc. rewrite (lookup_or_keep_concrete _ _ Hc).
    intros H. injection H as <-. reflexivity.
Qed.

(** A fully resolved mapping comes back as it was exactly when the answer
    gives every parameter left to it no value, or the value it has. *)
Lemma fully_resolved_kept_iff (context answer params : dict) :
  Spec.fully_resolved context params = true ->
  map (fun kv => (fst kv, Spec.resolved_value context answer kv)) params = params
  <-> (forall k v, In (k, v) (Spec.escalated context params) ->
                   Spec.answer_for answer k = None
                   \/ Spec.answer_for answer k = Some v).
Proof.
  induction params as [ | [k v] params IH]; intros Hc.
  - split; [intros _ k v [] | reflexivity].
  - cbn [Spec.fully_resolved forallb snd] in Hc.
    apply andb_prop in Hc. destruct Hc as [Hv Hc].
    specialize (IH Hc).
    cbn [map fst Spec.escalated filter].
    unfold Spec.unresolved_by at 1, Spec.resolved_value at 1. cbn [fst snd].
    fold (Spec.escalated context params).
    destruct (Spec.from_context context v) as [x | ] eqn:Hx.
    + rewrite (concrete_from_context _ _ _ Hv Hx). split.
      * intros H. injection H as H. apply IH. exact H.
      * intros H. f_equal. apply IH. exact H.
    + split.
      * intros H. injection H as Hhead Hrest.
        intros k' v' [Heq | Hin].
        -- injection Heq as <- <-.
           destruct (Spec.answer_for answer k) as [y | ];
             [right; congruence | left; reflexivity].
        -- apply (proj1 IH Hrest). exact Hin.
      * intros H. f_equal.
        -- f_equal.
           destruct (H k v (or_introl eq_refl)) as [-> | ->]; reflexivity.
        -- apply IH. intros k' v' Hin. apply H. right. exact Hin.
Qed.

(** C2, as amended. For a parameter mapping that is already fully resolved,
    whose sequence values hold scalars only, and any context:
    [resolve_params] returns the mapping unchanged; and, when the
    collaborator's decoded answer can be looked up for the parameters left to
    it, [resolve_params_with_llm] returns the mapping unchanged exactly when
    that answer gives each of these parameters no value, null, or the value
    it already has. *)
Theorem resolved_mapping_unchanged llm (params context : dict) (calls : nat) :
  unique_keys params = true ->
  Spec.flat params = true ->
  Spec.fully_resolved context params = true ->
  (forall k v, In (k, v) (Spec.escalated context params) ->
               Spec.usable (Spec.decoded_answer llm context params calls) k
               = true) ->
  Main.resolve_params params context = Ok params
  /\ (fst (Main.resolve_params_with_llm llm params context calls) = Ok params
      <-> forall k v,
            In (k, v) (Spec.escalated context params) ->
            Spec.proposal (Spec.decoded_answer llm context params calls) k = None
            \/ Spec.proposal (Spec.decoded_answer llm context params calls) k
               = Some v).
Proof.
  intros Hu Hf Hc Husable. split.
  - unfold Main.resolve_params.
    rewrite (resolve_loop_spec context params [] Hu Hf); [ | reflexivity].
    simpl. rewrite fully_resolved_kept; [reflexivity | exact Hc | reflexivity].
  - rewrite (resolver_merges_usable llm params context calls Hu Hf Husable).
    unfold Spec.proposal.
    rewrite <- (fully_resolved_kept_iff context _ params Hc).
    split; [intros H; injection H as H; exact H | intros ->; reflexivity].
Qed.

Lemma resolved_mapping_unchanged_witness :
  Main.resolve_params Scenario.resolved_params Scenario.seeded_context
  = Ok Scenario.resolved_params
  /\ fst (Main.resolve_params_with_llm
            (Scenario.always Scenario.echo_rate_answer)
            Scenario.resolved_params Scenario.seeded_context 0)
     = Ok Scenario.resolved_params.
Proof.
  destruct (resolved_mapping_unchanged
              (Scenario.always Scenario.echo_rate_answer)
              Scenario.resolved_params Scenario.seeded_context 0)
    as [Hpure Hllm]; try reflexivity.
  split; [exact Hpure | ].
  apply Hllm. intros k v Hin. vm_compute in Hin.
  destruct Hin as [Hin | []]. injection Hin as <- <-.
  right. vm_compute. reflexivity.
Defined.

(** C2 as stated fails: the number 0.031 names no context key, yet it is
    escalated to the collaborator, whose non-null answer replaces it. *)
Lemma collaborator_replaces_resolved_value :
  Spec.fully_resolved Scenario.seeded_context [("rate", VFloat 0.031)] = true
  /\ fst (Main.resolve_params_with_llm
            (Scenario.always Scenario.rate_answer)
            [("rate", VFloat 0.031)] Scenario.seeded_context 0)
     = Ok [("rate", VFloat 0.05)].
Proof. split; vm_compute; reflexivity. Qed.

(** C3, at the failing input: the collaborator answers [null]; the merge
    loop, outside the [try] block, tests [k in llm_result] on [None] and the
    resolver raises instead of keeping the original literal. *)
Theorem resolver_raises_on_null_answer :
  Main.resolve_params_with_llm (Scenario.always "null")
                               [("symbol", VStr "AAPL")]
                               Scenario.seeded_context 0
  = (Raise (Exn TypeError "argument of type 'NoneType' is not iterable"), 1%nat).
Proof. vm_compute. reflexivity. Qed.

(** The same for a sequence parameter with a nested sequence: the context
    lookup hashes every element. *)
Lemma resolver_raises_on_nested_sequence :
  Main.resolve_params_with_llm (Scenario.always "{}")
                               [("values", VList [VList [VInt 1; VInt 2]])]
                               Scenario.seeded_context 0
  = (Raise (Exn TypeError "unhashable type: 'list'"), 0%nat).
Proof. vm_compute. reflexivity. Qed.

(* ================================================================== *)
(** * Properties of the loop driver                                     *)
(* ================================================================== *)

Lemma flatten_update_keeps_keys (k : string) (result context : dict) :
  dict_mem k context = true ->
  dict_mem k (Main.update_context result context) = true.
Proof.
  unfold Main.update_context. revert context.
  induction result as [ | [name val] result IH]; simpl; intros context H.
  - exact H.
  - apply IH. destruct val; try (apply dict_mem_set; exact H).
    apply dict_mem_update. exact H.
Qed.

Lemma context_after_keeps_keys (k : string) ao (context : dict) :
  dict_mem k context = true ->
  dict_mem k (Main.context_after ao context) = true.
Proof.
  intros H. unfold Main.context_after.
  destruct (Action.success ao && truthy (VDict (Action.result ao))).
  - apply flatten_update_keeps_keys. exact H.
  - exact H.
Qed.

(** One complete pass: the planned step is appended once, with the one result
    of executing it, and the context loses no key. *)
Lemma one_pass llm di (s s' : Main.run_state) :
  Main.loop_body llm di s = Main.Continue s' ->
  exists step ao,
    Main.executed_steps s' = (Main.executed_steps s ++ [step])%list
    /\ Main.results s' = (Main.results s ++ [ao])%list
    /\ Main.step_count s' = S (Main.step_count s)
    /\ Main.context s' = Main.context_after ao (Main.context s)
    /\ Main.file s' = Memory.save_context (Main.file s) (Main.context s').
Proof.
  unfold Main.loop_body.
  destruct (Decision.decide_next_step _ _ _ _ _) as [d_plan calls1].
  destruct (Decision.done d_plan); [discriminate | ].
  destruct (Decision.next_step d_plan) as [step | ]; [ | discriminate].
  simpl.
  destruct (Main.resolve_params_with_llm _ _ _ _) as [[resolved | e] calls2];
    [ | discriminate].
  intros H. injection H as <-. simpl.
  eexists. eexists. repeat split.
Qed.

(** A pass that ends the loop, by the [break] or by an exception raised
    before the tool is executed, leaves the executed steps, the results and
    the context as they were (a failure of the memory write is outside the
    model). *)
Lemma last_pass llm di (s : Main.run_state) :
  match Main.loop_body llm di s with
  | Main.Continue _ => True
  | o =>
      Main.executed_steps (Main.state_of o) = Main.executed_steps s
      /\ Main.results (Main.state_of o) = Main.results s
      /\ Main.context (Main.state_of o) = Main.context s
  end.
Proof.
  unfold Main.loop_body.
  destruct (Decision.decide_next_step _ _ _ _ _) as [d_plan calls1].
  destruct (Decision.done d_plan); [simpl; auto | ].
  destruct (Decision.next_step d_plan) as [step | ]; [ | simpl; auto].
  simpl.
  destruct (Main.resolve_params_with_llm _ _ _ _) as [[resolved | e] calls2];
    simpl; auto.
Qed.

(** X24. When the Planner answers DONE the loop ends at once, after that one
    request: the Planner is not asked again. *)
Lemma loop_breaks_when_done llm di (s : Main.run_state) :
  Decision.done
    (fst (Decision.decide_next_step llm di (Main.context s)
                                    (Main.executed_steps s) (Main.calls s)))
  = true ->
  exists s' d_plan,
    Main.loop_body llm di s = Main.Finished s' d_plan
    /\ Main.calls s' = S (Main.calls s).
Proof.
  unfold Main.loop_body.
  pose proof (decide_next_step_one_request
                llm di (Main.context s) (Main.executed_steps s) (Main.calls s))
    as Hone.
  destruct (Decision.decide_next_step _ _ _ _ _) as [d_plan calls1].
  simpl in *. intros ->. eexists. eexists. split; [reflexivity | exact Hone].
Qed.

(** X23. The memory write set aside (the model takes it to succeed), a run
    that ends went through some number of complete passes and one last pass,
    the break or an exception raised before the tool is executed, which
    changed neither the executed steps, nor the results, nor the context. *)
Lemma run_ends llm di (fuel : nat) (s : Main.run_state) (o : Main.outcome) :
  Main.run llm di fuel s = Some o ->
  exists n s',
    Main.passes llm di n s s'
    /\ Main.loop_body llm di s' = o
    /\ Main.executed_steps (Main.state_of o) = Main.executed_steps s'
    /\ Main.results (Main.state_of o) = Main.results s'
    /\ Main.context (Main.state_of o) = Main.context s'.
Proof.
  revert s. induction fuel as [ | fuel IH]; simpl; intros s; [discriminate | ].
  pose proof (last_pass llm di s) as Hlast.
  destruct (Main.loop_body llm di s) as [s1 | s1 d | e s1] eqn:Hbody.
  - intros Hrun. destruct (IH _ Hrun) as [n [s' [Hp H]]].
    exists (S n), s'. split; [ | exact H].
    apply (Main.passes_S _ _ _ _ _ _ Hbody Hp).
  - intros Ho. injection Ho as <-. exists 0%nat, s.
    split; [apply Main.passes_O | ]. split; [exact Hbody | exact Hlast].
  - intros Ho. injection Ho as <-. exists 0%nat, s.
    split; [apply Main.passes_O | ]. split; [exact Hbody | exact Hlast].
Qed.

(** C8. Across any number of passes of the loop the executed steps and the
    results only grow at their end, by exactly one entry per pass (a step is
    appended once, and nothing appended before is changed or removed), and
    every key of the context stays a key. *)
Theorem loop_state_grows llm di (n : nat) (s s' : Main.run_state) :
  Main.passes llm di n s s' -> Spec.grown n s s'.
Proof.
  induction 1 as [s | n s s1 s2 Hbody _ IH].
  - unfold Spec.grown. repeat split.
    + exists []. split; [reflexivity | ]. rewrite app_nil_r. reflexivity.
    + exists []. split; [reflexivity | ]. rewrite app_nil_r. reflexivity.
    + rewrite Nat.add_0_r. reflexivity.
    + tauto.
  - destruct (one_pass _ _ _ _ Hbody)
      as [step [ao [Hsteps [Hres [Hcount [Hctx _]]]]]].
    destruct IH as [[steps [Hlen Hs]] [[outs [Hlen' Ho]] [Hc Hk]]].
    unfold Spec.grown. repeat split.
    + exists (step :: steps). split; [simpl; congruence | ].
      rewrite Hs, Hsteps, <- app_assoc. reflexivity.
    + exists (ao :: outs). split; [simpl; congruence | ].
      rewrite Ho, Hres, <- app_assoc. reflexivity.
    + rewrite Hc, Hcount. lia.
    + intros k Hin. apply Hk. rewrite Hctx.
      apply context_after_keeps_keys. exact Hin.
Qed.

Lemma loop_state_grows_witness :
  Spec.grown 1 (Main.initial_state None) Scenario.after_fetch.
Proof.
  apply (loop_state_grows Scenario.fetch_then_stop Scenario.no_preferences).
  apply (Main.passes_S _ _ 0 _ Scenario.after_fetch).
  - vm_compute. reflexivity.
  - apply Main.passes_O.
Defined.

(* ================================================================== *)
(** * Strings: prefixes, search, slices                                 *)
(* ================================================================== *)

Lemma str_append_assoc (a b c : string) : ((a ++ b) ++ c = a ++ (b ++ c))%string.
Proof. induction a as [ | x a IH]; simpl; [reflexivity | rewrite IH; reflexivity]. Qed.

Lemma str_append_nil_r (a : string) : (a ++ "")%string = a.
Proof. induction a as [ | x a IH]; simpl; [reflexivity | rewrite IH; reflexivity]. Qed.

Lemma str_append_inj (p a b : string) : (p ++ a = p ++ b)%string -> a = b.
Proof.
  induction p as [ | x p IH]; simpl; [auto | ].
  intros H. injection H as H. auto.
Qed.

Lemma str_append_length (a b : string) :
  String.length (a ++ b) = (String.length a + String.length b)%nat.
Proof. induction a as [ | x a IH]; simpl; [reflexivity | rewrite IH; reflexivity]. Qed.

Lemma starts_with_iff (p s : string) :
  starts_with p s = true <-> exists r, s = (p ++ r)%string.
Proof.
  revert s. induction p as [ | a p IH]; intros s; simpl.
  - split; [intros _; exists s; reflexivity | reflexivity].
  - destruct s as [ | b s].
    + split; [discriminate | intros [r H]; discriminate].
    + rewrite andb_true_iff, IH. split.
      * intros [Hab [r ->]]. apply Ascii.eqb_eq in Hab. subst b.
        exists r. reflexivity.
      * intros [r H]. injection H as -> ->. split.
        -- apply Ascii.eqb_refl.
        -- exists r. reflexivity.
Qed.

Lemma starts_with_append (p r : string) : starts_with p (p ++ r) = true.
Proof. apply starts_with_iff. exists r. reflexivity. Qed.

Lemma starts_with_refl (s : string) : starts_with s s = true.
Proof.
  induction s as [ | a s IH]; simpl; [reflexivity | ].
  rewrite Ascii.eqb_refl. exact IH.
Qed.

(** A string that starts with [p ++ q] starts with [p]. *)
Lemma starts_with_shorter (p q s : string) :
  starts_with (p ++ q) s = true -> starts_with p s = true.
Proof.
  rewrite !starts_with_iff. intros [r ->]. exists (q ++ r)%string.
  apply str_append_assoc.
Qed.

Lemma starts_with_first (c a : ascii) (sub s : string) :
  Ascii.eqb a c = false -> starts_with (String c sub) (String a s) = false.
Proof.
  intros H. simpl. rewrite Ascii.eqb_sym, H. reflexivity.
Qed.

(** The first occurrence of a text that starts with [c], after a text
    without [c]. *)
Lemma str_find_after (c : ascii) (sub pre rest : string) :
  Cover.without_char c pre = true ->
  str_find (String c sub) (pre ++ String c sub ++ rest)
  = Some (String.length pre).
Proof.
  induction pre as [ | a pre IH]; intros H.
  - pose proof (starts_with_append (String c sub) rest) as E.
    cbn [append String.length] in *.
    unfold str_find; fold str_find. rewrite E. reflexivity.
  - simpl in H. apply andb_prop in H. destruct H as [Ha H].
    apply negb_true_iff in Ha.
    change ((String a pre ++ String c sub ++ rest)%string)
      with (String a (pre ++ String c sub ++ rest)).
    unfold str_find; fold str_find.
    rewrite (starts_with_first _ _ _ _ Ha), (IH H). reflexivity.
Qed.

(** There is no occurrence of a text that starts with [c] in a text without
    [c]. *)
Lemma str_find_without (c : ascii) (sub s : string) :
  Cover.without_char c s = true -> str_find (String c sub) s = None.
Proof.
  induction s as [ | a s IH]; intros H.
  - reflexivity.
  - simpl in H. apply andb_prop in H. destruct H as [Ha H].
    apply negb_true_iff in Ha.
    unfold str_find; fold str_find.
    rewrite (starts_with_first _ _ _ _ Ha), (IH H). reflexivity.
Qed.

Lemma substring_prefix (pre rest : string) :
  substring 0 (String.length pre) (pre ++ rest) = pre.
Proof.
  induction pre as [ | a pre IH]; simpl.
  - destruct rest; reflexivity.
  - rewrite IH. reflexivity.
Qed.

Lemma str_drop_prefix (pre rest : string) (n : nat) :
  str_drop (String.length pre + n) (pre ++ rest) = str_drop n rest.
Proof. induction pre as [ | a pre IH]; simpl; [reflexivity | exact IH]. Qed.

Lemma str_drop_all (s rest : string) :
  str_drop (String.length s) (s ++ rest) = rest.
Proof.
  rewrite <- (Nat.add_0_r (String.length s)), str_drop_prefix. reflexivity.
Qed.

(* ================================================================== *)
(** * The tools on every input of a kind                                *)
(* ================================================================== *)

Lemma year_of_cases (period : value) (year : string) :
  Action.year_of period = Some year ->
  period = VStr year /\ (year = "2023" \/ year = "2024").
Proof.
  destruct period as [ | b | z | f | p | l | d]; simpl; try discriminate.
  destruct (String.eqb_spec p "2023") as [-> | ].
  - simpl. intros H. injection H as <-. auto.
  - destruct (String.eqb_spec p "2024") as [-> | ]; simpl; [ | discriminate].
    intros H. injection H as <-. auto.
Qed.

(** A printable scalar is hashed and printed. *)
Lemma printable_key (v : value) :
  Cover.printable_scalar v = true ->
  exists k text, py_hash v = Ok k /\ key_str k = Ok text.
Proof.
  destruct v as [ | b | z | f | s | l | d]; cbn [Cover.printable_scalar];
    try discriminate; intros H; eexists; eexists;
    (split; [reflexivity | ]); cbn [key_str]; try reflexivity.
  unfold int_str. rewrite H. reflexivity.
Qed.

(** X1. Called with a symbol and a period that are no list and no dict (and
    no integer too long to print), [get_financial_data] never raises, and
    what it returns is a mapping that is not empty: the data, or the error
    value. *)
Theorem get_financial_data_returns_mapping (symbol period : value) :
  Cover.printable_scalar symbol = true ->
  Cover.printable_scalar period = true ->
  exists d : dict,
    Action.get_financial_data symbol period = Ok (VDict d)
    /\ truthy (VDict d) = true.
Proof.
  intros Hs Hp. unfold Action.get_financial_data.
  destruct (printable_key _ Hs) as [ks [text [Hks Htext]]].
  rewrite Hks. cbn [bind].
  destruct ks as [ | b | z | f | s];
    try (rewrite Htext; eexists; split; reflexivity).
  destruct (dict_mem s Action.DUMMY_DATA) eqn:Hin; cbn [negb];
    [ | eexists; split; reflexivity].
  destruct (truthy period) eqn:Ht; cbn [negb].
  - destruct (Action.year_of period) as [year | ] eqn:Hy.
    + destruct (year_of_cases _ _ Hy) as [_ Hyear].
      destruct (known_symbol_cases _ Hin) as [-> | [-> | ->]];
        destruct Hyear as [-> | ->]; eexists; split; reflexivity.
    + destruct (printable_key _ Hp) as [kp [ptext [Hkp Hptext]]].
      rewrite Hkp. cbn [bind].
      destruct kp as [ | b | z | f | q];
        try (rewrite Hptext; eexists; split; reflexivity).
      destruct (dict_get q (Action.periods_of s)) as [data | ];
        eexists; split; reflexivity.
  - destruct (known_symbol_cases _ Hin) as [-> | [-> | ->]];
      eexists; split; reflexivity.
Qed.

Lemma get_financial_data_returns_mapping_witness :
  exists d : dict,
    Action.get_financial_data (VStr "AMZN") (VInt 2023) = Ok (VDict d)
    /\ truthy (VDict d) = true.
Proof.
  apply (get_financial_data_returns_mapping (VStr "AMZN") (VInt 2023));
    vm_compute; reflexivity.
Defined.

(** ROI of a pair of floats. *)
Lemma roi_pair_floats (r i : float) :
  Action.roi_pair (VFloat r) (VFloat i)
  = Ok (if float_gt0 i then VFloat ((r - i) / i * 100)%float else VInt 0).
Proof.
  unfold Action.roi_pair. cbn [py_gt0 as_num bind].
  destruct (float_gt0 i) eqn:Hi; [ | reflexivity].
  apply (roi_formula_floats r i). apply float_gt0_not_zero. exact Hi.
Qed.

(** X2. On two sequences of floats of the same length [calculate_roi] never
    raises: it returns the sequence of the ROIs pair by pair, the float
    [(r - i) / i * 100] where the investment is above zero and the integer
    [0] elsewhere (a NaN investment included). *)
Theorem calculate_roi_float_sequences (revenues investments : list float) :
  List.length revenues = List.length investments ->
  Action.calculate_roi (VList (map VFloat revenues))
                       (VList (map VFloat investments))
  = Ok (VList (map (fun ri =>
                      if float_gt0 (snd ri)
                      then VFloat ((fst ri - snd ri) / snd ri * 100)%float
                      else VInt 0)
                   (combine revenues investments))).
Proof.
  intros Hlen. unfold Action.calculate_roi.
  rewrite !length_map, Hlen, Nat.eqb_refl. cbn [negb].
  clear Hlen.
  assert (H : mapM (fun ri => Action.roi_pair (fst ri) (snd ri))
                   (combine (map VFloat revenues) (map VFloat investments))
              = Ok (map (fun ri =>
                           if float_gt0 (snd ri)
                           then VFloat ((fst ri - snd ri) / snd ri * 100)%float
                           else VInt 0)
                        (combine revenues investments))).
  { revert investments.
    induction revenues as [ | r revenues IH]; intros [ | i investments];
      try reflexivity.
    cbn [map combine mapM fst snd]. rewrite roi_pair_floats, IH. reflexivity. }
  rewrite H. reflexivity.
Qed.

Lemma calculate_roi_float_sequences_witness :
  Action.calculate_roi (VList (map VFloat [90.8; 85.3; 1]%float))
                       (VList (map VFloat [24.6; 0; nan]%float))
  = Ok (VList (map (fun ri =>
                      if float_gt0 (snd ri)
                      then VFloat ((fst ri - snd ri) / snd ri * 100)%float
                      else VInt 0)
                   (combine [90.8; 85.3; 1]%float [24.6; 0; nan]%float))).
Proof.
  apply (calculate_roi_float_sequences [90.8; 85.3; 1]%float [24.6; 0; nan]%float).
  reflexivity.
Defined.

Lemma float_of_one : float_of_Z 1 = Ok 1%float.
Proof. reflexivity. Qed.

(** [value / (1 + rate)] on floats. *)
Lemma adjust_floats (rate v : float) :
  Action.adjust (VFloat rate) (VFloat v)
  = if float_is_zero (1 + rate)%float
    then Raise (Exn ZeroDivisionError "float division by zero")
    else Ok (VFloat (v / (1 + rate))%float).
Proof.
  unfold Action.adjust, py_add. cbn [as_num to_float]. rewrite float_of_one.
  cbn [bind]. unfold py_truediv. cbn [as_num to_float bind]. reflexivity.
Qed.

(** X3. On a sequence of floats and a float rate
    [apply_inflation_adjustment] divides every value by [1 + rate]; it raises
    [ZeroDivisionError] when [1 + rate] is zero and the sequence is not
    empty, and in no other case. *)
Theorem inflation_adjustment_of_floats (values : list float) (rate : float) :
  Action.apply_inflation_adjustment (VList (map VFloat values)) (VFloat rate)
  = match values with
    | [] => Ok (VList [])
    | _ :: _ =>
        if float_is_zero (1 + rate)%float
        then Raise (Exn ZeroDivisionError "float division by zero")
        else Ok (VList (map (fun v => VFloat (v / (1 + rate))%float) values))
    end.
Proof.
  unfold Action.apply_inflation_adjustment.
  destruct values as [ | v values]; [reflexivity | ].
  destruct (float_is_zero (1 + rate)%float) eqn:Hz.
  - cbn [map mapM]. rewrite adjust_floats, Hz. reflexivity.
  - assert (H : forall l,
               mapM (Action.adjust (VFloat rate)) (map VFloat l)
               = Ok (map (fun v => VFloat (v / (1 + rate))%float) l)).
    { induction l as [ | x l IH]; [reflexivity | ].
      cbn [map mapM]. rewrite adjust_floats, Hz, IH. reflexivity. }
    rewrite H. reflexivity.
Qed.

(** ** Keyword arguments *)

Lemma filter_nil {A} (f : A -> bool) (l : list A) :
  filter f l = [] -> forall x, In x l -> f x = false.
Proof.
  induction l as [ | a l IH]; simpl; [tauto | ].
  destruct (f a) eqn:Ha; [discriminate | ].
  intros H x [<- | Hx]; [exact Ha | exact (IH H x Hx)].
Qed.

(** A call binds when every keyword is a parameter of the signature and every
    required parameter is given. *)
Lemma bind_kwargs_ok (f : string) (required optional : list string)
      (kwargs : dict) :
  Action.bind_kwargs f required optional kwargs = Ok tt ->
  (forall k, dict_mem k kwargs = true -> In k (required ++ optional)%list)
  /\ (forall r, In r required -> dict_mem r kwargs = true).
Proof.
  unfold Action.bind_kwargs.
  destruct (find _ (dict_keys kwargs)) as [k | ] eqn:Hfind; [discriminate | ].
  destruct (filter _ required) as [ | a [ | b l]] eqn:Hfilter;
    try discriminate.
  intros _. split.
  - intros k Hk. apply dict_mem_in_keys in Hk.
    pose proof (find_none _ _ Hfind k Hk) as H. cbv beta in H.
    apply negb_false_iff, existsb_exists in H. destruct H as [x [Hx Hkx]].
    apply String.eqb_eq in Hkx. subst x. exact Hx.
  - intros r Hr. pose proof (filter_nil _ _ Hfilter r Hr) as H. cbv beta in H.
    apply negb_false_iff in H. exact H.
Qed.

(** X4. When [execute_action] reports success, the function is one of the
    three tools that are defined, every key of the parameters is a parameter
    name of that tool, and every required parameter of the tool is among the
    keys. *)
Theorem execute_action_success_binds_signature (ai : Action.ActionInput) :
  Action.success (Action.execute_action ai) = true ->
  In (Action.function_name ai) Cover.defined_tools
  /\ (forall k, dict_mem k (Action.parameters ai) = true ->
                In k (fst (Cover.signature (Action.function_name ai))
                      ++ snd (Cover.signature (Action.function_name ai)))%list)
  /\ (forall r, In r (fst (Cover.signature (Action.function_name ai))) ->
                dict_mem r (Action.parameters ai) = true).
Proof.
  unfold Action.execute_action, Action.dispatch, Cover.signature,
    Cover.defined_tools.
  destruct (String.eqb_spec (Action.function_name ai) "get_financial_data")
    as [-> | H1].
  { unfold Action.call_get_financial_data.
    destruct (Action.bind_kwargs _ _ _ _) as [[] | e] eqn:Hb;
      [ | discriminate].
    intros _. split; [simpl; tauto | exact (bind_kwargs_ok _ _ _ _ Hb)]. }
  destruct (String.eqb_spec (Action.function_name ai) "calculate_roi")
    as [-> | H2].
  { unfold Action.call_calculate_roi.
    destruct (Action.bind_kwargs _ _ _ _) as [[] | e] eqn:Hb;
      [ | discriminate].
    intros _. split; [simpl; tauto | exact (bind_kwargs_ok _ _ _ _ Hb)]. }
  destruct (String.eqb_spec (Action.function_name ai)
                            "apply_inflation_adjustment") as [-> | H3].
  { unfold Action.call_apply_inflation_adjustment.
    destruct (Action.bind_kwargs _ _ _ _) as [[] | e] eqn:Hb;
      [ | discriminate].
    intros _. split; [simpl; tauto | exact (bind_kwargs_ok _ _ _ _ Hb)]. }
  destruct (String.eqb (Action.function_name ai) "generate_chart");
    discriminate.
Qed.

Lemma execute_action_success_binds_signature_witness :
  In "calculate_roi" Cover.defined_tools
  /\ (forall k,
         dict_mem k [("revenue", VFloat 90.8); ("investment", VFloat 24.6)] = true ->
         In k (fst (Cover.signature "calculate_roi")
               ++ snd (Cover.signature "calculate_roi"))%list)
  /\ (forall r, In r (fst (Cover.signature "calculate_roi")) ->
                dict_mem r [("revenue", VFloat 90.8); ("investment", VFloat 24.6)]
                = true).
Proof.
  apply (execute_action_success_binds_signature
           {| Action.function_name := "calculate_roi";
              Action.parameters :=
                [("revenue", VFloat 90.8); ("investment", VFloat 24.6)] |}).
  reflexivity.
Defined.

(* ================================================================== *)
(** * Flattening a result into the context                              *)
(* ================================================================== *)

(** [flatten_dict] as the loop it is. *)
Lemma flatten_value_fold (prefix : string) (d : dict) :
  Main.flatten_value prefix (VDict d)
  = fold_left (Cover.flatten_step prefix) d [].
Proof.
  simpl. generalize (@nil (string * value)).
  induction d as [ | [k x] d IH]; intros out; [reflexivity | ].
  simpl. rewrite IH. unfold Cover.flatten_step at 2. simpl.
  destruct x; reflexivity.
Qed.

Lemma Forall_dict_set (P : string * value -> Prop) (k : string) (v : value)
      (d : dict) :
  P (k, v) -> Forall P d -> Forall P (dict_set k v d).
Proof.
  intros Hkv. induction 1 as [ | [k0 v0] d H0 Hd IH]; simpl.
  - constructor; [exact Hkv | constructor].
  - destruct (String.eqb_spec k0 k) as [-> | ].
    + constructor; assumption.
    + constructor; assumption.
Qed.

Lemma Forall_dict_update (P : string * value -> Prop) (d d2 : dict) :
  Forall P d -> Forall P d2 -> Forall P (dict_update d d2).
Proof.
  unfold dict_update. intros Hd H2. revert d Hd.
  induction H2 as [ | [k v] d2 Hkv H2 IH]; simpl; intros d Hd; [exact Hd | ].
  apply IH. apply Forall_dict_set; assumption.
Qed.

(** The entries of a flattened dict: the keys start with the prefix and an
    underscore, no value is a dict. *)
Lemma flatten_value_entries (v : value) :
  forall prefix : string,
    Forall (fun kv => starts_with (prefix ++ "_") (fst kv) = true
                      /\ Cover.is_dict (snd kv) = false)
           (Main.flatten_value prefix v).
Proof.
  induction v as [ | b | z | f | s | l _ | d IH] using Cover.value_nested_ind;
    intros prefix; try constructor.
  rewrite flatten_value_fold.
  assert (H : forall out,
             Forall (fun kv => starts_with (prefix ++ "_") (fst kv) = true
                               /\ Cover.is_dict (snd kv) = false) out ->
             Forall (fun kv => starts_with (prefix ++ "_") (fst kv) = true
                               /\ Cover.is_dict (snd kv) = false)
                    (fold_left (Cover.flatten_step prefix) d out)).
  { induction IH as [ | [k x] d Hx _ IHd]; simpl; intros out Hout;
      [exact Hout | ].
    apply IHd. unfold Cover.flatten_step. cbn [fst snd].
    assert (Hk : starts_with (prefix ++ "_") (prefix ++ "_" ++ k) = true).
    { rewrite <- str_append_assoc. apply starts_with_append. }
    destruct x as [ | b | z | f | s | l | d'];
      try (apply Forall_dict_set; [split; [exact Hk | reflexivity] | exact Hout]).
    apply Forall_dict_update; [exact Hout | ].
    cbn [snd] in Hx. specialize (Hx (prefix ++ "_" ++ k)%string).
    eapply Forall_impl; [ | exact Hx].
    intros [k1 v1] [H1 H2]. cbn [fst snd] in *. split; [ | exact H2].
    apply starts_with_shorter in H1.
    rewrite <- str_append_assoc in H1.
    apply starts_with_shorter in H1. exact H1. }
  apply H. constructor.
Qed.

(** X5. [flatten_dict] yields a flat mapping under the prefix: every key of
    its result starts with the prefix followed by an underscore, and no value
    of its result is a dict, however deep the dict it is given is nested. *)
Theorem flatten_dict_is_flat (prefix : string) (d : dict) (k : string)
        (v : value) :
  In (k, v) (Main.flatten_dict prefix d) ->
  starts_with (prefix ++ "_") k = true /\ Cover.is_dict v = false.
Proof.
  intros H. unfold Main.flatten_dict in H.
  pose proof (flatten_value_entries (VDict d) prefix) as Hall.
  rewrite Forall_forall in Hall. exact (Hall (k, v) H).
Qed.

Lemma flatten_dict_is_flat_witness :
  starts_with ("get_financial_data" ++ "_") "get_financial_data_Q1_2024_revenue"
  = true
  /\ Cover.is_dict (VFloat 90.8) = false.
Proof.
  apply (flatten_dict_is_flat
           "get_financial_data"
           [("Q1_2024", VDict [("revenue", VFloat 90.8)])]
           "get_financial_data_Q1_2024_revenue" (VFloat 90.8)).
  simpl. left. reflexivity.
Defined.

(** ** Keys under a prefix *)

Lemma eqb_prefixed (p a b : string) :
  String.eqb (p ++ a) (p ++ b) = String.eqb a b.
Proof.
  destruct (String.eqb_spec a b) as [-> | Hne].
  - apply String.eqb_refl.
  - apply String.eqb_neq. intros H. apply Hne. exact (str_append_inj _ _ _ H).
Qed.

Lemma dict_get_prefixed (p k : string) (d : dict) :
  dict_get (p ++ k) (map (fun kv => ((p ++ fst kv)%string, snd kv)) d)
  = dict_get k d.
Proof.
  induction d as [ | [k0 v0] d IH]; simpl; [reflexivity | ].
  rewrite eqb_prefixed, IH. reflexivity.
Qed.

Lemma unique_keys_prefixed (p : string) (d : dict) :
  unique_keys (map (fun kv => ((p ++ fst kv)%string, snd kv)) d) = unique_keys d.
Proof.
  induction d as [ | [k0 v0] d IH]; simpl; [reflexivity | ].
  unfold dict_mem. rewrite dict_get_prefixed, IH. reflexivity.
Qed.

(** [update] of a dict by one without its keys appends. *)
Lemma dict_update_fresh (d2 : dict) :
  forall d : dict,
    unique_keys d2 = true ->
    (forall k, dict_mem k d2 = true -> dict_mem k d = false) ->
    dict_update d d2 = (d ++ d2)%list.
Proof.
  unfold dict_update.
  induction d2 as [ | [k v] d2 IH]; intros d Hu Hfresh; simpl.
  - rewrite app_nil_r. reflexivity.
  - unique_head Hu.
    rewrite (dict_set_fresh _ _ _ (Hfresh k (dict_mem_head k v d2))).
    rewrite IH; [rewrite <- app_assoc; reflexivity | exact Hu | ].
    intros k' Hk'.
    apply (fresh_after_append k k' v d2 d Hk Hk').
    apply Hfresh. apply dict_mem_tail. exact Hk'.
Qed.

(** The loop of [flatten_dict] on a dict that holds no dict. *)
Lemma flatten_fold_flat (prefix : string) :
  forall d out : dict,
    unique_keys d = true ->
    forallb (fun kv => negb (Cover.is_dict (snd kv))) d = true ->
    (forall k, dict_mem k d = true ->
               dict_mem (prefix ++ "_" ++ k) out = false) ->
    fold_left (Cover.flatten_step prefix) d out
    = (out ++ map (fun kv => ((prefix ++ "_" ++ fst kv)%string, snd kv)) d)%list.
Proof.
  induction d as [ | [k x] d IH]; intros out Hu Hflat Hfresh; simpl.
  - rewrite app_nil_r. reflexivity.
  - unique_head Hu.
    apply andb_prop in Hflat. destruct Hflat as [Hx Hflat]. cbn [snd] in Hx.
    pose proof (Hfresh k (dict_mem_head k x d)) as Hout.
    assert (Hstep : Cover.flatten_step prefix out (k, x)
                    = (out ++ [((prefix ++ "_" ++ k)%string, x)])%list).
    { unfold Cover.flatten_step. cbn [fst snd].
      destruct x; try discriminate Hx; apply dict_set_fresh; exact Hout. }
    rewrite Hstep, IH; [rewrite <- app_assoc; reflexivity | exact Hu
                        | exact Hflat | ].
    intros k' Hk'.
    rewrite dict_mem_app, dict_mem_single.
    rewrite (Hfresh k' (dict_mem_tail k' k x d Hk')). cbn [orb].
    rewrite !eqb_prefixed. apply String.eqb_neq. intros ->. congruence.
Qed.

(** X6. On a dict with no dict among its values [flatten_dict] keeps every
    entry, in order, under the key made of the prefix, an underscore and the
    entry's key. *)
Theorem flatten_dict_of_flat_mapping (prefix : string) (d : dict) :
  unique_keys d = true ->
  forallb (fun kv => negb (Cover.is_dict (snd kv))) d = true ->
  Main.flatten_dict prefix d
  = map (fun kv => ((prefix ++ "_" ++ fst kv)%string, snd kv)) d.
Proof.
  intros Hu Hflat. unfold Main.flatten_dict.
  rewrite flatten_value_fold.
  apply (flatten_fold_flat prefix d [] Hu Hflat).
  intros k _. reflexivity.
Qed.

Lemma flatten_dict_of_flat_mapping_witness :
  Main.flatten_dict "Q1_2024" [("revenue", VFloat 90.8); ("investment", VFloat 24.6)]
  = map (fun kv => (("Q1_2024" ++ "_" ++ fst kv)%string, snd kv))
        [("revenue", VFloat 90.8); ("investment", VFloat 24.6)].
Proof.
  apply (flatten_dict_of_flat_mapping
           "Q1_2024" [("revenue", VFloat 90.8); ("investment", VFloat 24.6)]);
    reflexivity.
Defined.

(** ** What an action writes into the context *)

(** X7. A tool result that is no dict (the list or the number that
    [calculate_roi] and [apply_inflation_adjustment] return) is stored in the
    context under the bare function name, whatever was stored there before,
    and no other entry of the context changes. *)
Theorem tool_result_stored_under_name (ai : Action.ActionInput) (v : value)
        (context : dict) (k : string) :
  Action.dispatch ai = Some (Ok v) ->
  Cover.is_dict v = false ->
  dict_get k (Main.context_after (Action.execute_action ai) context)
  = if String.eqb (Action.function_name ai) k then Some v
    else dict_get k context.
Proof.
  intros Hd Hv. unfold Action.execute_action. rewrite Hd.
  unfold Main.context_after, Main.update_context. cbn.
  destruct (String.eqb_spec (Action.function_name ai) k) as [<- | Hne].
  - destruct v; try discriminate Hv; apply dict_get_set_same.
  - destruct v; try discriminate Hv; apply dict_get_set_other; congruence.
Qed.

Lemma tool_result_stored_under_name_witness :
  dict_get "calculate_roi"
           (Main.context_after
              (Action.execute_action
                 {| Action.function_name := "calculate_roi";
                    Action.parameters :=
                      [("revenue", VInt 3); ("investment", VInt 0)] |})
              [("calculate_roi", VFloat 269.10569105691053)])
  = if String.eqb "calculate_roi" "calculate_roi" then Some (VInt 0)
    else dict_get "calculate_roi" [("calculate_roi", VFloat 269.10569105691053)].
Proof.
  apply (tool_result_stored_under_name
           {| Action.function_name := "calculate_roi";
              Action.parameters :=
                [("revenue", VInt 3); ("investment", VInt 0)] |}
           (VInt 0) [("calculate_roi", VFloat 269.10569105691053)]
           "calculate_roi");
    reflexivity.
Defined.

Lemma fetch_one_quarter (symbol quarter : string) (data : value) :
  dict_get quarter (Action.periods_of symbol) = Some data ->
  Action.get_financial_data (VStr symbol) (VStr quarter)
  = Ok (VDict [(quarter, data)]).
Proof.
  intros Hq. destruct (known_quarter_cases _ _ _ Hq) as [Hs Hin].
  destruct (known_symbol_cases _ Hs) as [-> | [-> | ->]];
    simpl in Hin;
    repeat (destruct Hin as [<- | Hin];
            [vm_compute in Hq; injection Hq as <-; reflexivity | ]);
    destruct Hin.
Qed.

(** The data of a quarter: the four metrics, no dict among them. *)
Lemma quarter_entries_flat (symbol quarter : string) (data : dict) :
  dict_get quarter (Action.periods_of symbol) = Some (VDict data) ->
  unique_keys data = true
  /\ forallb (fun kv => negb (Cover.is_dict (snd kv))) data = true.
Proof.
  intros Hq. destruct (known_quarter_cases _ _ _ Hq) as [Hs Hin].
  destruct (known_symbol_cases _ Hs) as [-> | [-> | ->]];
    simpl in Hin;
    repeat (destruct Hin as [<- | Hin];
            [vm_compute in Hq; injection Hq as <-; split; reflexivity | ]);
    destruct Hin.
Qed.

(** X8. After a fetch of one quarter of a symbol, every metric of that
    quarter is in the context under the key
    [get_financial_data_<quarter>_<metric>], whatever the context held before:
    the symbol is no part of the key. *)
Theorem fetched_metrics_enter_context (symbol quarter metric : string)
        (data : dict) (x : value) (context : dict) :
  dict_get quarter (Action.periods_of symbol) = Some (VDict data) ->
  dict_get metric data = Some x ->
  dict_get ("get_financial_data_" ++ quarter ++ "_" ++ metric)
           (Main.context_after
              (Action.execute_action
                 {| Action.function_name := "get_financial_data";
                    Action.parameters :=
                      [("symbol", VStr symbol); ("period", VStr quarter)] |})
              context)
  = Some x.
Proof.
  intros Hq Hm.
  destruct (quarter_entries_flat _ _ _ Hq) as [Hu Hflat].
  unfold Action.execute_action.
  change (Action.dispatch _)
    with (Some (Action.get_financial_data (VStr symbol) (VStr quarter))).
  rewrite (fetch_one_quarter _ _ _ Hq).
  unfold Main.context_after, Main.update_context, Main.flatten_dict.
  cbn [Action.success Action.result andb truthy fold_left fst snd].
  rewrite flatten_value_fold.
  cbn [fold_left]. unfold Cover.flatten_step at 1. cbn [fst snd].
  rewrite flatten_value_fold.
  rewrite (flatten_fold_flat _ data [] Hu Hflat) by (intros k _; reflexivity).
  cbn [app Action.function_name].
  replace (map (fun kv => ((("get_financial_data" ++ "_" ++ quarter) ++ "_"
                              ++ fst kv)%string, snd kv)) data)
    with (map (fun kv => (((("get_financial_data" ++ "_" ++ quarter) ++ "_")
                              ++ fst kv)%string, snd kv)) data)
    by (apply map_ext; intros kv; rewrite str_append_assoc; reflexivity).
  rewrite (dict_update_fresh _ []);
    [ | rewrite unique_keys_prefixed; exact Hu | intros k _; reflexivity].
  cbn [app]. rewrite dict_get_update by (rewrite unique_keys_prefixed; exact Hu).
  replace ("get_financial_data_" ++ quarter ++ "_" ++ metric)%string
    with ((("get_financial_data" ++ "_" ++ quarter) ++ "_") ++ metric)%string
    by (rewrite !str_append_assoc; reflexivity).
  rewrite dict_get_prefixed, Hm. reflexivity.
Qed.

Lemma fetched_metrics_enter_context_witness :
  dict_get ("get_financial_data_" ++ "Q1_2024" ++ "_" ++ "revenue")
           (Main.context_after
              (Action.execute_action
                 {| Action.function_name := "get_financial_data";
                    Action.parameters :=
                      [("symbol", VStr "MSFT"); ("period", VStr "Q1_2024")] |})
              [("get_financial_data_Q1_2024_revenue", VFloat 90.8)])
  = Some (VFloat 61.9).
Proof.
  apply (fetched_metrics_enter_context
           "MSFT" "Q1_2024" "revenue"
           [("revenue", VFloat 61.9); ("investment", VFloat 17.2);
            ("profit", VFloat 21.8); ("expenses", VFloat 40.1)]);
    reflexivity.
Defined.

(** ** The entries an action leaves alone *)

Lemma dict_get_in (k : string) (v : value) (d : dict) :
  dict_get k d = Some v -> In (k, v) d.
Proof.
  induction d as [ | [k0 v0] d IH]; simpl; [discriminate | ].
  destruct (String.eqb_spec k0 k) as [-> | ].
  - intros H. injection H as ->. left. reflexivity.
  - intros H. right. exact (IH H).
Qed.

Lemma dict_get_update_foreign (k : string) (d2 : dict) :
  forall d : dict,
    dict_mem k d2 = false -> dict_get k (dict_update d d2) = dict_get k d.
Proof.
  unfold dict_update, dict_mem.
  induction d2 as [ | [k2 v2] d2 IH]; simpl; intros d H; [reflexivity | ].
  destruct (String.eqb_spec k2 k) as [-> | Hne]; [discriminate | ].
  rewrite (IH _ H). apply dict_get_set_other. congruence.
Qed.

Lemma flatten_keys_foreign (prefix : string) (d : dict) (k : string) :
  starts_with prefix k = false -> dict_mem k (Main.flatten_dict prefix d) = false.
Proof.
  intros Hk. unfold dict_mem.
  destruct (dict_get k (Main.flatten_dict prefix d)) as [v | ] eqn:Hget;
    [ | reflexivity].
  apply dict_get_in in Hget.
  pose proof (flatten_value_entries (VDict d) prefix) as Hall.
  rewrite Forall_forall in Hall. destruct (Hall _ Hget) as [Hstart _].
  cbn [fst] in Hstart. apply starts_with_shorter in Hstart. congruence.
Qed.

(** The update of the context by a result changes no key that does not start
    with a key of the result. *)
Lemma update_context_foreign (k : string) (result : dict) :
  forall context : dict,
    (forall name v, In (name, v) result -> starts_with name k = false) ->
    dict_get k (Main.update_context result context) = dict_get k context.
Proof.
  unfold Main.update_context.
  induction result as [ | [name v] result IH]; intros context H; simpl;
    [reflexivity | ].
  rewrite IH by (intros n x Hin; apply (H n x); right; exact Hin).
  pose proof (H name v (or_introl eq_refl)) as Hname.
  assert (Hne : k <> name).
  { intros ->. rewrite starts_with_refl in Hname. discriminate. }
  destruct v; try (apply dict_get_set_other; exact Hne).
  apply dict_get_update_foreign. apply flatten_keys_foreign. exact Hname.
Qed.

(** What [execute_action] returns: no result and no success, or the one
    result of one of the three tools that are defined. *)
Lemma execute_action_result (ai : Action.ActionInput) :
  (Action.success (Action.execute_action ai) = false
   /\ Action.result (Action.execute_action ai) = [])
  \/ (exists v,
         Action.success (Action.execute_action ai) = true
         /\ Action.result (Action.execute_action ai)
            = [(Action.function_name ai, v)]
         /\ In (Action.function_name ai) Cover.defined_tools).
Proof.
  unfold Action.execute_action, Action.dispatch, Cover.defined_tools.
  destruct (String.eqb_spec (Action.function_name ai) "get_financial_data")
    as [-> | H1].
  { destruct (Action.call_get_financial_data _) as [v | e];
      [right; exists v; simpl; tauto | left; split; reflexivity]. }
  destruct (String.eqb_spec (Action.function_name ai) "calculate_roi")
    as [-> | H2].
  { destruct (Action.call_calculate_roi _) as [v | e];
      [right; exists v; simpl; tauto | left; split; reflexivity]. }
  destruct (String.eqb_spec (Action.function_name ai)
                            "apply_inflation_adjustment") as [-> | H3].
  { destruct (Action.call_apply_inflation_adjustment _) as [v | e];
      [right; exists v; simpl; tauto | left; split; reflexivity]. }
  left. destruct (String.eqb (Action.function_name ai) "generate_chart");
    split; reflexivity.
Qed.

Lemma context_after_foreign (ai : Action.ActionInput) (context : dict)
      (k : string) :
  Cover.tool_key k = false ->
  dict_get k (Main.context_after (Action.execute_action ai) context)
  = dict_get k context.
Proof.
  intros Hk. unfold Main.context_after.
  destruct (execute_action_result ai) as [[Hs Hr] | [v [Hs [Hr Hin]]]].
  - rewrite Hs. reflexivity.
  - rewrite Hs, Hr. cbn [andb truthy].
    apply update_context_foreign. intros name x [Heq | []].
    injection Heq as <- <-.
    unfold Cover.tool_key in Hk.
    destruct (starts_with (Action.function_name ai) k) eqn:Hstart;
      [ | reflexivity].
    assert (Hex : existsb (fun name => starts_with name k) Cover.defined_tools
                  = true)
      by (apply existsb_exists; exists (Action.function_name ai); auto).
    congruence.
Qed.

(* ================================================================== *)
(** * The Planner on a reply that decodes                               *)
(* ================================================================== *)

Lemma allowed_name_some (fn : value) (s : string) :
  Decision.allowed_name fn = Some s <-> fn = VStr s /\ In s Decision.AllowedFn.
Proof.
  unfold Decision.allowed_name. split.
  - destruct fn as [ | b | z | f | t | l | d]; try discriminate.
    destruct (existsb (String.eqb t) Decision.AllowedFn) eqn:Hex;
      [ | discriminate].
    intros H. injection H as <-. split; [reflexivity | ].
    apply existsb_exists in Hex. destruct Hex as [x [Hx Htx]].
    apply String.eqb_eq in Htx. subst x. exact Hx.
  - intros [-> Hin].
    assert (Hex : existsb (String.eqb s) Decision.AllowedFn = true)
      by (apply existsb_exists; exists s; split;
          [exact Hin | apply String.eqb_refl]).
    rewrite Hex. reflexivity.
Qed.

(** The parameters [data.get("parameters", {})] when they are a dict. *)
Lemma planned_parameters_get (d ps : dict) :
  Cover.planned_parameters d = Some ps <->
  match dict_get "parameters" d with Some v => v | None => VDict [] end
  = VDict ps.
Proof.
  unfold Cover.planned_parameters.
  destruct (dict_get "parameters" d) as [[ | b | z | f | s | l | p] | ];
    split; intros H; try discriminate H; injection H as <-; reflexivity.
Qed.

(** X9. When the collaborator's reply decodes to an object whose
    [function_name] is one of the four allowed names and whose [parameters]
    are absent or an object, the Planner answers with that step (the empty
    parameters when they are absent), [done] false and the rationale
    "Next actionable step", after one request. *)
Theorem planner_plans_valid_step llm di context executed calls
        (d : dict) (fn : string) (ps : dict) :
  Decision.decode_reply
    (llm calls (Llm.PlanRequest context (map Decision.function_name executed)
                                (Decision.perception di)
                                (Decision.preferences di)))
  = Ok (VDict d) ->
  dict_get "function_name" d = Some (VStr fn) ->
  In fn Decision.AllowedFn ->
  Cover.planned_parameters d = Some ps ->
  Decision.decide_next_step llm di context executed calls
  = ({| Decision.next_step :=
          Some {| Decision.function_name := fn; Decision.parameters := ps |};
        Decision.done := false;
        Decision.rationale := Some "Next actionable step" |}, S calls).
Proof.
  intros Hdec Hfn Hin Hps.
  unfold Decision.decide_next_step, Llm.generate_content, Decision.plan_from.
  rewrite Hdec. cbn [bind].
  assert (Hnostep : Decision.no_step_in (VDict d) = Ok false).
  { unfold Decision.no_step_in, str_in, dict_mem. rewrite Hfn.
    destruct d; [discriminate Hfn | reflexivity]. }
  rewrite Hnostep. cbn [bind getitem_str Decision.py_get]. rewrite Hfn.
  apply planned_parameters_get in Hps. rewrite Hps.
  unfold Decision.make_Step. cbn [bind].
  rewrite (proj2 (allowed_name_some (VStr fn) fn) (conj eq_refl Hin)).
  reflexivity.
Qed.

Lemma planner_plans_valid_step_witness :
  Decision.decide_next_step (Scenario.always Scenario.fetch_plan)
                            Scenario.no_preferences [] [] 0
  = ({| Decision.next_step :=
          Some {| Decision.function_name := "get_financial_data";
                  Decision.parameters :=
                    [("symbol", VStr "AAPL"); ("period", VStr "Q1_2024")] |};
        Decision.done := false;
        Decision.rationale := Some "Next actionable step" |}, 1%nat).
Proof.
  apply (planner_plans_valid_step
           (Scenario.always Scenario.fetch_plan) Scenario.no_preferences [] [] 0
           [("function_name", VStr "get_financial_data");
            ("parameters",
             VDict [("symbol", VStr "AAPL"); ("period", VStr "Q1_2024")])]).
  - vm_compute. reflexivity.
  - reflexivity.
  - simpl. tauto.
  - reflexivity.
Defined.

(** X10. Whenever the Planner answers [done] false, the collaborator's
    reply decoded to an object with one of the four allowed names as
    [function_name] and with [parameters] absent or an object, and the step
    of the answer is made of these.  Any other reply, a null or unknown
    function name and parameters that are no object among them, ends the
    planning. *)
Theorem planner_goes_on_only_with_valid_step llm di context executed calls :
  Decision.done (fst (Decision.decide_next_step llm di context executed calls))
  = false ->
  exists (d : dict) (fn : string) (ps : dict),
    Decision.decode_reply
      (llm calls (Llm.PlanRequest context (map Decision.function_name executed)
                                  (Decision.perception di)
                                  (Decision.preferences di)))
    = Ok (VDict d)
    /\ dict_get "function_name" d = Some (VStr fn)
    /\ In fn Decision.AllowedFn
    /\ Cover.planned_parameters d = Some ps
    /\ Decision.next_step
         (fst (Decision.decide_next_step llm di context executed calls))
       = Some {| Decision.function_name := fn; Decision.parameters := ps |}.
Proof.
  unfold Decision.decide_next_step, Llm.generate_content, Decision.plan_from.
  destruct (Decision.decode_reply _) as [data | e]; [ | discriminate].
  cbn [bind]. unfold Decision.no_step_in.
  destruct (truthy data) eqn:Ht; [ | discriminate]. cbn [negb].
  destruct data as [ | b | z | f | s | l | d]; try discriminate.
  - cbn [str_in bind negb]. destruct (str_contains "function_name" s);
      discriminate.
  - cbn [str_in bind negb]. destruct (existsb _ l); discriminate.
  - cbn [str_in bind]. unfold dict_mem.
    destruct (dict_get "function_name" d) as [fnv | ] eqn:Hfn;
      [ | discriminate].
    cbn [negb getitem_str Decision.py_get bind]. rewrite Hfn. cbn [bind].
    unfold Decision.make_Step.
    destruct (Decision.allowed_name fnv) as [fn | ] eqn:Hallowed.
    + apply allowed_name_some in Hallowed. destruct Hallowed as [-> Hin].
      destruct (match dict_get "parameters" d with
                | Some v => v
                | None => VDict []
                end) as [ | b | z | f | s | l | ps] eqn:Hps;
        try discriminate.
      intros _. exists d, fn, ps.
      apply planned_parameters_get in Hps. cbn [fst Decision.next_step].
      auto.
    + destruct (match dict_get "parameters" d with
                | Some v => v
                | None => VDict []
                end); discriminate.
Qed.

Lemma planner_goes_on_only_with_valid_step_witness :
  exists (d : dict) (fn : string) (ps : dict),
    Decision.decode_reply
      (Scenario.always Scenario.fetch_plan 0%nat
         (Llm.PlanRequest [] (map Decision.function_name [])
                          (Decision.perception Scenario.no_preferences)
                          (Decision.preferences Scenario.no_preferences)))
    = Ok (VDict d)
    /\ dict_get "function_name" d = Some (VStr fn)
    /\ In fn Decision.AllowedFn
    /\ Cover.planned_parameters d = Some ps
    /\ Decision.next_step
         (fst (Decision.decide_next_step (Scenario.always Scenario.fetch_plan)
                                         Scenario.no_preferences [] [] 0))
       = Some {| Decision.function_name := fn; Decision.parameters := ps |}.
Proof.
  apply (planner_goes_on_only_with_valid_step
           (Scenario.always Scenario.fetch_plan) Scenario.no_preferences [] [] 0).
  vm_compute. reflexivity.
Defined.

(** ** Code fences *)

(** X11. When the reply has a [```json] fence after a text without
    backticks, what is decoded is the stripped text between that fence and the
    next [```], if the text between holds no backtick; what stands before the
    fence and after the closing one is dropped.  Without a closing fence it is
    the stripped text after the fence. *)
Theorem fenced_reply_is_unfenced (pre body post : string) :
  Cover.without_char Cover.backtick pre = true ->
  Cover.without_char Cover.backtick body = true ->
  Decision.unfence (pre ++ "```json" ++ body ++ "```" ++ post) = Ok (strip body)
  /\ Llm.fenced_json (pre ++ "```json" ++ body ++ "```" ++ post)
     = Ok (strip body)
  /\ Decision.unfence (pre ++ "```json" ++ body) = Ok (strip body)
  /\ Llm.fenced_json (pre ++ "```json" ++ body) = Ok (strip body).
Proof.
  intros Hpre Hbody.
  assert (Hfind : forall rest,
             str_find "```json" (pre ++ "```json" ++ rest)
             = Some (String.length pre))
    by (intros rest; exact (str_find_after Cover.backtick "``json" pre rest Hpre)).
  assert (Hclosed : Llm.fenced_json (pre ++ "```json" ++ body ++ "```" ++ post)
                    = Ok (strip body)).
  { unfold Llm.fenced_json, split1. rewrite Hfind.
    cbn [list_item nth_error bind].
    rewrite str_drop_prefix.
    change (str_drop (String.length "```json")
                     ("```json" ++ body ++ "```" ++ post))
      with (body ++ "```" ++ post)%string.
    assert (Hnext : str_find "```" (body ++ "```" ++ post)
                    = Some (String.length body))
      by exact (str_find_after Cover.backtick "``" body post Hbody).
    rewrite Hnext.
    cbn [list_item nth_error bind]. rewrite substring_prefix. reflexivity. }
  assert (Hfind' : str_find "```json" (pre ++ "```json" ++ body)
                   = Some (String.length pre))
    by (rewrite <- (str_append_nil_r body) at 1; apply Hfind).
  assert (Hopen : Llm.fenced_json (pre ++ "```json" ++ body) = Ok (strip body)).
  { unfold Llm.fenced_json, split1. rewrite Hfind'.
    cbn [list_item nth_error bind].
    rewrite str_drop_prefix.
    change (str_drop (String.length "```json") ("```json" ++ body)) with body.
    assert (Hnone : str_find "```" body = None)
      by exact (str_find_without Cover.backtick "``" body Hbody).
    rewrite Hnone. reflexivity. }
  unfold Decision.unfence, str_contains.
  rewrite Hfind, Hfind'.
  auto.
Qed.

Lemma fenced_reply_is_unfenced_witness :
  Decision.unfence ("Here is the plan:" ++ "```json" ++ " {} " ++ "```" ++ " Done.")
  = Ok (strip " {} ")
  /\ Llm.fenced_json
       ("Here is the plan:" ++ "```json" ++ " {} " ++ "```" ++ " Done.")
     = Ok (strip " {} ")
  /\ Decision.unfence ("Here is the plan:" ++ "```json" ++ " {} ")
     = Ok (strip " {} ")
  /\ Llm.fenced_json ("Here is the plan:" ++ "```json" ++ " {} ")
     = Ok (strip " {} ").
Proof.
  apply (fenced_reply_is_unfenced "Here is the plan:" " {} " " Done.");
    reflexivity.
Defined.

(** ** A bare fence: [strip("`")] *)

Lemma tick_test (c : ascii) :
  Nat.eqb 96 (nat_of_ascii c) = Ascii.eqb c Cover.backtick.
Proof.
  destruct c as [[ | ] [ | ] [ | ] [ | ] [ | ] [ | ] [ | ] [ | ]]; reflexivity.
Qed.

Lemma lead_len_tick (l : list ascii) :
  lead_len [[96%nat]] l
  = match l with
    | c :: _ => if Ascii.eqb c Cover.backtick then 1%nat else 0%nat
    | [] => 0%nat
    end.
Proof.
  destruct l as [ | c l]; [reflexivity | ].
  unfold lead_len. cbn [find bytes_prefix]. rewrite tick_test.
  destruct (Ascii.eqb c Cover.backtick); reflexivity.
Qed.

(** Stripping backticks at the left of a text that starts with [n] of them,
    followed by none. *)
Lemma lstrip_ticks (n : nat) :
  forall (fuel : nat) (l : list ascii),
    (n <= fuel)%nat ->
    match l with
    | c :: _ => Ascii.eqb c Cover.backtick = false
    | [] => True
    end ->
    lstrip_table [[96%nat]] fuel (repeat Cover.backtick n ++ l)%list = l.
Proof.
  induction n as [ | n IH]; intros fuel l Hfuel Hl.
  - cbn [repeat app]. destruct fuel as [ | fuel]; [reflexivity | ].
    cbn [lstrip_table]. rewrite lead_len_tick.
    destruct l as [ | c l]; [reflexivity | ]. rewrite Hl. reflexivity.
  - destruct fuel as [ | fuel]; [lia | ].
    cbn [repeat app lstrip_table]. rewrite lead_len_tick.
    change (Ascii.eqb Cover.backtick Cover.backtick) with true.
    cbn [skipn]. apply IH; [lia | exact Hl].
Qed.

Lemma without_char_list (c : ascii) (s : string) :
  Cover.without_char c s = true ->
  Forall (fun a => Ascii.eqb a c = false) (list_ascii_of_string s).
Proof.
  induction s as [ | a s IH]; simpl; [constructor | ].
  intros H. apply andb_prop in H. destruct H as [Ha H].
  apply negb_true_iff in Ha. constructor; auto.
Qed.

Lemma list_ascii_of_append (a b : string) :
  list_ascii_of_string (a ++ b)
  = (list_ascii_of_string a ++ list_ascii_of_string b)%list.
Proof. induction a as [ | x a IH]; simpl; [reflexivity | rewrite IH; reflexivity]. Qed.

(** [strip("`")] of a text without backticks between two fences. *)
Lemma strip_ticks_fenced (body : string) :
  Cover.without_char Cover.backtick body = true ->
  strip_chars "`" ("```" ++ body ++ "```") = body.
Proof.
  intros Hbody. apply without_char_list in Hbody.
  unfold strip_chars, strip_table.
  change (map (fun c => [nat_of_ascii c]) (list_ascii_of_string "`"))
    with [[96%nat]].
  change (map (@rev nat) [[96%nat]]) with [[96%nat]].
  rewrite !list_ascii_of_append.
  change (list_ascii_of_string "```") with (repeat Cover.backtick 3).
  transitivity (string_of_list_ascii (list_ascii_of_string body));
    [ | apply string_of_list_ascii_of_string].
  f_equal. revert Hbody. generalize (list_ascii_of_string body) as lb.
  intros lb Hbody.
  destruct Hbody as [ | a lb Ha Hlb]; [reflexivity | ].
  rewrite lstrip_ticks;
    [ | rewrite !length_app; cbn [repeat List.length]; lia | exact Ha].
  rewrite rev_app_distr.
  change (rev (repeat Cover.backtick 3)) with (repeat Cover.backtick 3).
  assert (Hrev : Forall (fun c => Ascii.eqb c Cover.backtick = false)
                        (rev (a :: lb)))
    by (apply Forall_rev; constructor; assumption).
  rewrite lstrip_ticks.
  - apply rev_involutive.
  - rewrite length_app. cbn [repeat List.length]. lia.
  - destruct Hrev as [ | c l Hc _]; [exact I | exact Hc].
Qed.

(** X12. A reply that starts with a bare fence and holds no [```json]:
    what is decoded is the text between the opening and the closing fence,
    whole (a language tag after the opening fence included), when that text
    holds no backtick. *)
Theorem bare_fence_is_stripped (body : string) :
  Cover.without_char Cover.backtick body = true ->
  str_contains "```json" ("```" ++ body ++ "```") = false ->
  Decision.unfence ("```" ++ body ++ "```") = Ok body.
Proof.
  intros Hbody Hjson. unfold Decision.unfence. rewrite Hjson.
  change (starts_with "```" ("```" ++ body ++ "```")) with true.
  cbv iota. rewrite (strip_ticks_fenced body Hbody). reflexivity.
Qed.

Lemma bare_fence_is_stripped_witness :
  Decision.unfence ("```" ++ "python {}" ++ "```") = Ok "python {}".
Proof.
  apply (bare_fence_is_stripped "python {}"); reflexivity.
Defined.

(* ================================================================== *)
(** * The Parameter Resolver on every mapping                           *)
(* ================================================================== *)

Lemma resolved_value_no_answer (context : dict) (kv : string * value) :
  Spec.resolved_value context [] kv
  = match Spec.from_context context (snd kv) with
    | Some x => x
    | None => snd kv
    end.
Proof. unfold Spec.resolved_value. destruct (Spec.from_context _ _); reflexivity. Qed.

(** X13. [resolve_params] on a mapping whose sequences hold scalars only:
    every key is kept, in order; a string that is a key of the context is
    replaced by the stored value, a sequence by the sequence of its elements
    with those that are keys of the context replaced, any other value stays. *)
Theorem resolve_params_substitutes (params context : dict) :
  unique_keys params = true ->
  Spec.flat params = true ->
  Main.resolve_params params context
  = Ok (map (fun kv => (fst kv,
                        match Spec.from_context context (snd kv) with
                        | Some x => x
                        | None => snd kv
                        end)) params).
Proof.
  intros Hu Hf. unfold Main.resolve_params.
  rewrite (resolve_loop_spec context params [] Hu Hf) by reflexivity.
  reflexivity.
Qed.

Lemma resolve_params_substitutes_witness :
  Main.resolve_params
    [("revenue", VStr "get_financial_data_Q1_2024_revenue");
     ("rate", VStr "inflation_rates"); ("values", VList [VStr "x"; VInt 1])]
    [("x", VFloat 3); ("get_financial_data_Q1_2024_revenue", VFloat 90.8)]
  = Ok (map (fun kv => (fst kv,
                        match Spec.from_context
                                [("x", VFloat 3);
                                 ("get_financial_data_Q1_2024_revenue", VFloat 90.8)]
                                (snd kv) with
                        | Some x => x
                        | None => snd kv
                        end))
            [("revenue", VStr "get_financial_data_Q1_2024_revenue");
             ("rate", VStr "inflation_rates");
             ("values", VList [VStr "x"; VInt 1])]).
Proof.
  apply (resolve_params_substitutes
           [("revenue", VStr "get_financial_data_Q1_2024_revenue");
            ("rate", VStr "inflation_rates");
            ("values", VList [VStr "x"; VInt 1])]
           [("x", VFloat 3); ("get_financial_data_Q1_2024_revenue", VFloat 90.8)]);
    reflexivity.
Defined.

(** ** Sequences that hold a list or a dict *)

Lemma dict_get_default_hashable (x : value) (context : dict) :
  Spec.hashable x = true ->
  exists y, dict_get_default x context x = Ok y.
Proof.
  unfold dict_get_default.
  destruct x as [ | b | z | f | s | l | d]; try discriminate; intros _;
    cbn [py_hash bind]; try (eexists; reflexivity).
  destruct (dict_get s context); eexists; reflexivity.
Qed.

Lemma resolve_list_nested (context : dict) (l : list value) :
  forallb Spec.hashable l = false ->
  exists e, exn_cls e = TypeError /\ Main.resolve_list context l = Raise e.
Proof.
  unfold Main.resolve_list.
  induction l as [ | x l IH]; [discriminate | ].
  cbn [forallb mapM]. destruct (Spec.hashable x) eqn:Hx.
  - intros Hl. destruct (IH Hl) as [e [He Hr]].
    destruct (dict_get_default_hashable x context Hx) as [y Hy].
    exists e. rewrite Hy, Hr. split; [exact He | reflexivity].
  - intros _.
    exists (Exn TypeError ("unhashable type: " ++ quoted (type_name x))).
    split; [reflexivity | ].
    destruct x as [ | b | z | f | s | l' | d]; try discriminate Hx;
      reflexivity.
Qed.

(** Both loops over the parameters stop at the first sequence that holds a
    list or a dict, with the same exception. *)
Lemma loops_raise_on_nested (context : dict) (items : dict) :
  Spec.flat items = false ->
  exists e,
    exn_cls e = TypeError
    /\ (forall resolved, Main.resolve_loop context items resolved = Raise e)
    /\ (forall resolved unresolved,
           Main.first_pass context items resolved unresolved = Raise e).
Proof.
  induction items as [ | [k v] items IH]; [discriminate | ].
  unfold Spec.flat. cbn [forallb snd]. fold (Spec.flat items).
  destruct v as [ | b | z | f | s | l | d]; cbn [andb];
    try solve [intros H; destruct (IH H) as [e [He [H1 H2]]]; exists e;
               split; [exact He | ];
               split; intros; cbn [Main.resolve_loop Main.first_pass]; auto].
  - intros H; destruct (IH H) as [e [He [H1 H2]]]. exists e.
    split; [exact He | ].
    split; intros; cbn [Main.resolve_loop Main.first_pass];
      destruct (dict_get s context); auto.
  - destruct (forallb Spec.hashable l) eqn:Hl; cbn [andb].
    + intros H; destruct (IH H) as [e [He [H1 H2]]]. exists e.
      split; [exact He | ].
      split; intros; cbn [Main.resolve_loop Main.first_pass];
        rewrite (resolve_list_flat _ _ Hl); cbn [bind]; auto.
    + intros _. destruct (resolve_list_nested context l Hl) as [e [He Hr]].
      exists e. split; [exact He | ].
      split; intros; cbn [Main.resolve_loop Main.first_pass];
        rewrite Hr; reflexivity.
Qed.

(** X14. When a sequence among the parameter values holds a list or a dict,
    both resolvers raise a [TypeError] (the element is used as a key of the
    context), the same one, and the collaborator is sent no request. *)
Theorem resolvers_raise_on_nested_sequence llm (params context : dict)
        (calls : nat) :
  Spec.flat params = false ->
  exists e,
    exn_cls e = TypeError
    /\ Main.resolve_params params context = Raise e
    /\ Main.resolve_params_with_llm llm params context calls = (Raise e, calls).
Proof.
  intros H. destruct (loops_raise_on_nested context params H) as [e [He [H1 H2]]].
  exists e. split; [exact He | ]. split; [apply H1 | ].
  unfold Main.resolve_params_with_llm. rewrite H2. reflexivity.
Qed.

Lemma resolvers_raise_on_nested_sequence_witness :
  exists e,
    exn_cls e = TypeError
    /\ Main.resolve_params [("values", VList [VDict []])] [] = Raise e
    /\ Main.resolve_params_with_llm (Scenario.always "{}")
                                    [("values", VList [VDict []])] [] 0
       = (Raise e, 0%nat).
Proof.
  apply (resolvers_raise_on_nested_sequence
           (Scenario.always "{}") [("values", VList [VDict []])] [] 0).
  reflexivity.
Defined.

(** ** The merge with the collaborator's answer *)

(** X15. A value that the context resolves is what the Parameter Resolver
    returns for its parameter, whatever the collaborator answered for that
    parameter. *)
Theorem context_value_wins llm (params context answer : dict) (calls : nat)
        (k : string) (v x : value) :
  unique_keys params = true ->
  Spec.flat params = true ->
  Spec.collaborator_answer llm context params calls = Some answer ->
  dict_get k params = Some v ->
  Spec.from_context context v = Some x ->
  exists final,
    fst (Main.resolve_params_with_llm llm params context calls) = Ok final
    /\ dict_get k final = Some x.
Proof.
  intros Hu Hf Hanswer Hk Hx.
  rewrite (resolver_merges llm params context answer calls Hu Hf Hanswer).
  eexists. split; [reflexivity | ].
  rewrite dict_get_map_values, Hk. unfold Spec.resolved_value. cbn [snd].
  rewrite Hx. reflexivity.
Qed.

Lemma context_value_wins_witness :
  exists final,
    fst (Main.resolve_params_with_llm
           (Scenario.always Scenario.rate_answer)
           [("rate", VStr "r"); ("symbol", VStr "AAPL")]
           [("r", VFloat 0.031)] 0) = Ok final
    /\ dict_get "rate" final = Some (VFloat 0.031).
Proof.
  apply (context_value_wins
           (Scenario.always Scenario.rate_answer)
           [("rate", VStr "r"); ("symbol", VStr "AAPL")]
           [("r", VFloat 0.031)] [("rate", VFloat 0.05)] 0
           "rate" (VStr "r") (VFloat 0.031));
    reflexivity.
Defined.

(** X16. A parameter that the context does not resolve gets the
    collaborator's answer for it when there is one that is not null, and
    keeps its value when the answer has no entry for it or a null one. *)
Theorem unresolved_value_from_answer llm (params context answer : dict)
        (calls : nat) (k : string) (v : value) :
  unique_keys params = true ->
  Spec.flat params = true ->
  Spec.collaborator_answer llm context params calls = Some answer ->
  dict_get k params = Some v ->
  Spec.from_context context v = None ->
  exists final,
    fst (Main.resolve_params_with_llm llm params context calls) = Ok final
    /\ dict_get k final
       = Some (match dict_get k answer with
               | Some VNone | None => v
               | Some y => y
               end).
Proof.
  intros Hu Hf Hanswer Hk Hx.
  rewrite (resolver_merges llm params context answer calls Hu Hf Hanswer).
  eexists. split; [reflexivity | ].
  rewrite dict_get_map_values, Hk.
  unfold Spec.resolved_value, Spec.answer_for. cbn [fst snd]. rewrite Hx.
  destruct (dict_get k answer) as [[ | b | z | f | s | l | d] | ]; reflexivity.
Qed.

Lemma unresolved_value_from_answer_witness :
  exists final,
    fst (Main.resolve_params_with_llm
           (Scenario.always Scenario.null_rate_answer)
           [("rate", VStr "current")] [("r", VFloat 0.031)] 0) = Ok final
    /\ dict_get "rate" final
       = Some (match dict_get "rate" [("rate", VNone)] with
               | Some VNone | None => VStr "current"
               | Some y => y
               end).
Proof.
  apply (unresolved_value_from_answer
           (Scenario.always Scenario.null_rate_answer)
           [("rate", VStr "current")] [("r", VFloat 0.031)]
           [("rate", VNone)] 0 "rate" (VStr "current"));
    reflexivity.
Defined.

Lemma resolver_keeps_keys_witness :
  exists final,
    fst (Main.resolve_params_with_llm
           (Scenario.always Scenario.rate_answer)
           [("rate", VStr "r"); ("symbol", VStr "AAPL")]
           [("r", VFloat 0.031)] 0) = Ok final
    /\ dict_keys final = dict_keys [("rate", VStr "r"); ("symbol", VStr "AAPL")].
Proof.
  apply (resolver_keeps_keys
           (Scenario.always Scenario.rate_answer)
           [("rate", VStr "r"); ("symbol", VStr "AAPL")]
           [("r", VFloat 0.031)] [("rate", VFloat 0.05)] 0);
    reflexivity.
Defined.

(** X17. When the call of the collaborator raises, or its answer does not
    decode, [resolve_params_with_llm] returns what [resolve_params] returns:
    the values resolved from the context, and the original values elsewhere. *)
Theorem failed_collaborator_falls_back llm (params context : dict)
        (calls : nat) (e : exn) :
  unique_keys params = true ->
  Spec.flat params = true ->
  Main.llm_answer
    (llm calls (Llm.ResolveRequest context (Spec.escalated context params)))
  = Raise e ->
  fst (Main.resolve_params_with_llm llm params context calls)
  = Main.resolve_params params context.
Proof.
  intros Hu Hf Hfail.
  assert (Hanswer : Spec.collaborator_answer llm context params calls = Some []).
  { unfold Spec.collaborator_answer, Main.llm_result_of. rewrite Hfail.
    destruct (Spec.consulted context params); reflexivity. }
  rewrite (resolver_merges llm params context [] calls Hu Hf Hanswer).
  unfold Main.resolve_params.
  rewrite (resolve_loop_spec context params [] Hu Hf) by reflexivity.
  reflexivity.
Qed.

Lemma failed_collaborator_falls_back_witness :
  fst (Main.resolve_params_with_llm
         (Scenario.scripted []) [("symbol", VStr "AAPL")]
         Scenario.seeded_context 0)
  = Main.resolve_params [("symbol", VStr "AAPL")] Scenario.seeded_context.
Proof.
  apply (failed_collaborator_falls_back
           (Scenario.scripted []) [("symbol", VStr "AAPL")]
           Scenario.seeded_context 0
           (Exn CollaboratorError "503 UNAVAILABLE"));
    reflexivity.
Defined.

(** The first pass gives the entries the context resolves and the
    parameters it leaves. *)
Lemma first_pass_entries (params context : dict) :
  unique_keys params = true ->
  Spec.flat params = true ->
  Main.first_pass context params [] []
  = Ok (Spec.context_entries context params, Spec.escalated context params).
Proof.
  intros Hu Hf.
  rewrite (first_pass_spec context params [] [] Hu Hf);
    [reflexivity | intros k _; split; reflexivity].
Qed.

(** X18. One resolution sends the collaborator at most one request: one
    when no sequence among the parameters holds a list or a dict, a parameter
    is left unresolved by the context and the context is not empty, whatever
    comes back; none in every other case (a sequence that holds a list or a
    dict raises before any request). *)
Theorem resolver_sends_one_request_if_needed llm (params context : dict)
        (calls : nat) :
  unique_keys params = true ->
  snd (Main.resolve_params_with_llm llm params context calls)
  = if Spec.flat params && Spec.consulted context params then S calls
    else calls.
Proof.
  intros Hu. unfold Main.resolve_params_with_llm.
  destruct (Spec.flat params) eqn:Hf; cbn [andb].
  - rewrite (first_pass_entries params context Hu Hf).
    rewrite consulted_test.
    destruct (Spec.consulted context params); reflexivity.
  - destruct (loops_raise_on_nested context params Hf) as [e [_ [_ Hraise]]].
    rewrite Hraise. reflexivity.
Qed.

Lemma resolver_sends_one_request_if_needed_witness :
  snd (Main.resolve_params_with_llm
         (Scenario.always "null")
         [("symbol", VStr "AAPL"); ("values", VList [VList [VInt 1]])]
         Scenario.seeded_context 0)
  = if Spec.flat [("symbol", VStr "AAPL"); ("values", VList [VList [VInt 1]])]
       && Spec.consulted
            Scenario.seeded_context
            [("symbol", VStr "AAPL"); ("values", VList [VList [VInt 1]])]
    then 1%nat else 0%nat.
Proof.
  apply (resolver_sends_one_request_if_needed
           (Scenario.always "null")
           [("symbol", VStr "AAPL"); ("values", VList [VList [VInt 1]])]
           Scenario.seeded_context 0);
    reflexivity.
Defined.

(** X19. With an empty context the Parameter Resolver sends no request; it
    returns the parameters as they are when no sequence among them holds a
    list or a dict, and raises [TypeError] when one does. *)
Theorem empty_context_resolves_nothing llm (params : dict) (calls : nat) :
  unique_keys params = true ->
  snd (Main.resolve_params_with_llm llm params [] calls) = calls
  /\ (Spec.flat params = true ->
      fst (Main.resolve_params_with_llm llm params [] calls) = Ok params)
  /\ (Spec.flat params = false ->
      exists e,
        exn_cls e = TypeError
        /\ fst (Main.resolve_params_with_llm llm params [] calls) = Raise e).
Proof.
  intros Hu. split; [ | split].
  - unfold Main.resolve_params_with_llm.
    destruct (Main.first_pass [] params [] []) as [[resolved unresolved] | e];
      [ | reflexivity].
    cbn [truthy negb]. rewrite orb_true_r. reflexivity.
  - intros Hf.
    assert (Hconsulted : Spec.consulted [] params = false)
      by (unfold Spec.consulted; apply andb_false_r).
    assert (Hanswer : Spec.collaborator_answer llm [] params calls = Some [])
      by (unfold Spec.collaborator_answer; rewrite Hconsulted; reflexivity).
    rewrite (resolver_merges llm params [] [] calls Hu Hf Hanswer). cbn [fst].
    f_equal.
    rewrite <- (map_id params) at 2. apply map_ext. intros [k v].
    rewrite resolved_value_no_answer. cbn [fst snd]. f_equal.
    destruct v as [ | b | z | f | s | l | d]; try reflexivity.
    cbn [Spec.from_context]. f_equal.
    rewrite <- (map_id l) at 2. apply map_ext. intros x.
    destruct x; reflexivity.
  - intros Hf.
    destruct (loops_raise_on_nested [] params Hf) as [e [He [_ Hraise]]].
    exists e. split; [exact He | ].
    unfold Main.resolve_params_with_llm. rewrite Hraise. reflexivity.
Qed.

Lemma empty_context_resolves_nothing_witness :
  snd (Main.resolve_params_with_llm
         (Scenario.always Scenario.rate_answer)
         [("rate", VStr "inflation_rates"); ("values", VList [VStr "x"])] [] 0)
  = 0%nat
  /\ (Spec.flat [("rate", VStr "inflation_rates"); ("values", VList [VStr "x"])]
      = true ->
      fst (Main.resolve_params_with_llm
             (Scenario.always Scenario.rate_answer)
             [("rate", VStr "inflation_rates"); ("values", VList [VStr "x"])]
             [] 0)
      = Ok [("rate", VStr "inflation_rates"); ("values", VList [VStr "x"])])
  /\ (Spec.flat [("rate", VStr "inflation_rates"); ("values", VList [VStr "x"])]
      = false ->
      exists e,
        exn_cls e = TypeError
        /\ fst (Main.resolve_params_with_llm
                  (Scenario.always Scenario.rate_answer)
                  [("rate", VStr "inflation_rates");
                   ("values", VList [VStr "x"])] [] 0)
           = Raise e).
Proof.
  apply (empty_context_resolves_nothing
           (Scenario.always Scenario.rate_answer)
           [("rate", VStr "inflation_rates"); ("values", VList [VStr "x"])] 0).
  reflexivity.
Defined.

(* ================================================================== *)
(** * The loop driver over many passes                                  *)
(* ================================================================== *)

Lemma resolver_request_count llm (params context : dict) (calls : nat) :
  snd (Main.resolve_params_with_llm llm params context calls) = calls
  \/ snd (Main.resolve_params_with_llm llm params context calls) = S calls.
Proof.
  unfold Main.resolve_params_with_llm.
  destruct (Main.first_pass context params [] []) as [[resolved unresolved] | e];
    [ | left; reflexivity].
  destruct (negb _ || negb _); [left | right]; reflexivity.
Qed.

(** One complete pass: the action that was executed, what it did to the
    context, and the requests the pass sent. *)
Lemma one_pass_action llm di (s s' : Main.run_state) :
  Main.loop_body llm di s = Main.Continue s' ->
  exists ai,
    Main.context s'
    = Main.context_after (Action.execute_action ai) (Main.context s)
    /\ Main.results s' = (Main.results s ++ [Action.execute_action ai])%list
    /\ (Main.calls s' = S (Main.calls s) \/ Main.calls s' = S (S (Main.calls s))).
Proof.
  unfold Main.loop_body.
  pose proof (decide_next_step_one_request
                llm di (Main.context s) (Main.executed_steps s) (Main.calls s))
    as Hone.
  destruct (Decision.decide_next_step _ _ _ _ _) as [d_plan calls1].
  cbn [snd] in Hone. subst calls1.
  destruct (Decision.done d_plan); [discriminate | ].
  destruct (Decision.next_step d_plan) as [step | ]; [ | discriminate].
  cbn [Main.with_calls Main.with_step_count Main.context Main.calls
       Main.results Main.executed_steps Main.step_count Main.file].
  pose proof (resolver_request_count llm (Decision.parameters step)
                                     (Main.context s) (S (Main.calls s)))
    as Hcount.
  destruct (Main.resolve_params_with_llm _ _ _ _) as [[resolved | e] calls2];
    [ | discriminate].
  cbn [snd] in Hcount.
  intros H. injection H as <-.
  cbn [Main.context Main.calls Main.results].
  eexists. split; [reflexivity | ]. split; [reflexivity | ].
  destruct Hcount as [-> | ->]; auto.
Qed.

(** X20. Across any number of passes of the loop, an entry of the context
    whose key does not start with the name of one of the three defined tools
    is left as it was: the loop writes under the names of the tools only. *)
Theorem loop_keeps_foreign_entries llm di (n : nat) (s s' : Main.run_state)
        (k : string) :
  Main.passes llm di n s s' ->
  Cover.tool_key k = false ->
  dict_get k (Main.context s') = dict_get k (Main.context s).
Proof.
  intros Hpasses Hk.
  induction Hpasses as [s | n s s1 s2 Hbody _ IH]; [reflexivity | ].
  rewrite IH. destruct (one_pass_action _ _ _ _ Hbody) as [ai [Hctx _]].
  rewrite Hctx. apply context_after_foreign. exact Hk.
Qed.

Lemma loop_keeps_foreign_entries_witness :
  dict_get "inflation_rates" (Main.context Scenario.after_fetch)
  = dict_get "inflation_rates" (Main.context (Main.initial_state None)).
Proof.
  apply (loop_keeps_foreign_entries
           Scenario.fetch_then_stop Scenario.no_preferences 1
           (Main.initial_state None) Scenario.after_fetch "inflation_rates").
  - apply (Main.passes_S _ _ 0 _ Scenario.after_fetch).
    + vm_compute. reflexivity.
    + apply Main.passes_O.
  - reflexivity.
Defined.

(** X21. The inflation rates of the context are, at every pass of a run,
    those of the persisted context when it has the key [inflation_rates], and
    the three seeded rates when it has not: the seed does not replace a
    persisted entry, and the loop never writes it. *)
Theorem inflation_rates_stay llm di (n : nat) (f : Memory.mem_file)
        (s' : Main.run_state) :
  Main.passes llm di n (Main.initial_state f) s' ->
  dict_get "inflation_rates" (Main.context s')
  = Some match dict_get "inflation_rates" (Memory.load_context f) with
         | Some rates => rates
         | None => VDict [("2023", VFloat 0.045); ("2024", VFloat 0.031);
                          ("2025", VFloat 0.028)]
         end.
Proof.
  intros Hpasses.
  assert (Hkept : dict_get "inflation_rates" (Main.context s')
                  = dict_get "inflation_rates"
                             (Main.context (Main.initial_state f))).
  { induction Hpasses as [s | n s s1 s2 Hbody _ IH]; [reflexivity | ].
    rewrite IH. destruct (one_pass_action _ _ _ _ Hbody) as [ai [Hctx _]].
    rewrite Hctx. apply context_after_foreign. reflexivity. }
  rewrite Hkept. unfold Main.initial_state. cbn [Main.context].
  unfold dict_mem.
  destruct (dict_get "inflation_rates" (Memory.load_context f)) as [rates | ]
    eqn:Hget.
  - exact Hget.
  - apply dict_get_set_same.
Qed.

Lemma inflation_rates_stay_witness :
  dict_get "inflation_rates" (Main.context Scenario.after_fetch)
  = Some match dict_get "inflation_rates" (Memory.load_context None) with
         | Some rates => rates
         | None => VDict [("2023", VFloat 0.045); ("2024", VFloat 0.031);
                          ("2025", VFloat 0.028)]
         end.
Proof.
  apply (inflation_rates_stay
           Scenario.fetch_then_stop Scenario.no_preferences 1 None
           Scenario.after_fetch).
  apply (Main.passes_S _ _ 0 _ Scenario.after_fetch).
  - vm_compute. reflexivity.
  - apply Main.passes_O.
Defined.

(** X22. Every complete pass of the loop sends the collaborator one request
    or two, the Planner's and at most one of the Parameter Resolver: after
    [n] passes between [n] and [2 n] requests were sent. *)
Theorem loop_sends_one_or_two_requests_per_pass llm di (n : nat)
        (s s' : Main.run_state) :
  Main.passes llm di n s s' ->
  (Main.calls s + n <= Main.calls s')%nat
  /\ (Main.calls s' <= Main.calls s + 2 * n)%nat.
Proof.
  induction 1 as [s | n s s1 s2 Hbody _ IH]; [lia | ].
  destruct (one_pass_action _ _ _ _ Hbody) as [ai [_ [_ Hcalls]]].
  destruct Hcalls as [Hc | Hc]; rewrite Hc in IH; lia.
Qed.

Lemma loop_sends_one_or_two_requests_per_pass_witness :
  (Main.calls (Main.initial_state None) + 1 <= Main.calls Scenario.after_fetch)%nat
  /\ (Main.calls Scenario.after_fetch
      <= Main.calls (Main.initial_state None) + 2 * 1)%nat.
Proof.
  apply (loop_sends_one_or_two_requests_per_pass
           Scenario.fetch_then_stop Scenario.no_preferences 1).
  apply (Main.passes_S _ _ 0 _ Scenario.after_fetch).
  - vm_compute. reflexivity.
  - apply Main.passes_O.
Defined.

Lemma run_ends_witness :
  exists n s',
    Main.passes Scenario.fetch_then_stop Scenario.no_preferences n
                (Main.initial_state None) s'
    /\ Main.loop_body Scenario.fetch_then_stop Scenario.no_preferences s'
       = Main.loop_body Scenario.fetch_then_stop Scenario.no_preferences
                        Scenario.after_fetch
    /\ Main.executed_steps
         (Main.state_of
            (Main.loop_body Scenario.fetch_then_stop Scenario.no_preferences
                            Scenario.after_fetch))
       = Main.executed_steps s'
    /\ Main.results
         (Main.state_of
            (Main.loop_body Scenario.fetch_then_stop Scenario.no_preferences
                            Scenario.after_fetch))
       = Main.results s'
    /\ Main.context
         (Main.state_of
            (Main.loop_body Scenario.fetch_then_stop Scenario.no_preferences
                            Scenario.after_fetch))
       = Main.context s'.
Proof.
  apply (run_ends Scenario.fetch_then_stop Scenario.no_preferences 5
                  (Main.initial_state None)).
  vm_compute. reflexivity.
Defined.

Lemma loop_breaks_when_done_witness :
  exists s' d_plan,
    Main.loop_body Scenario.fetch_then_stop Scenario.no_preferences
                   Scenario.after_fetch
    = Main.Finished s' d_plan
    /\ Main.calls s' = S (Main.calls Scenario.after_fetch).
Proof.
  apply (loop_breaks_when_done Scenario.fetch_then_stop Scenario.no_preferences
                               Scenario.after_fetch).
  vm_compute. reflexivity.
Defined.

(** ** A run that does not end *)

(** One pass against the collaborator that answers every request with the
    plan of the same fetch. *)
Lemma fetch_again (s : Main.run_state) :
  Main.context s = Scenario.seeded_context
  \/ Main.context s = Cover.fetched_context ->
  exists s',
    Main.loop_body (Scenario.always Scenario.fetch_plan)
                   Scenario.no_preferences s
    = Main.Continue s'
    /\ Main.context s' = Cover.fetched_context.
Proof.
  intros Hctx. unfold Main.loop_body, Decision.decide_next_step,
    Llm.generate_content, Scenario.always.
  assert (Hplan :
           Decision.plan_from (Llm.Response (Some Scenario.fetch_plan))
           = Ok {| Decision.next_step :=
                     Some {| Decision.function_name := "get_financial_data";
                             Decision.parameters :=
                               [("symbol", VStr "AAPL");
                                ("period", VStr "Q1_2024")] |};
                   Decision.done := false;
                   Decision.rationale := Some "Next actionable step" |})
    by (vm_compute; reflexivity).
  rewrite Hplan.
  cbn [Decision.done Decision.next_step Decision.parameters
       Decision.function_name Main.with_calls Main.with_step_count
       Main.context Main.calls Main.results Main.executed_steps
       Main.step_count Main.file].
  assert (Hresolve :
           forall calls,
             Main.resolve_params_with_llm
               (fun _ _ => Llm.Response (Some Scenario.fetch_plan))
               [("symbol", VStr "AAPL"); ("period", VStr "Q1_2024")]
               (Main.context s) calls
             = (Ok [("symbol", VStr "AAPL"); ("period", VStr "Q1_2024")],
                S calls))
    by (intros calls; destruct Hctx as [-> | ->]; vm_compute; reflexivity).
  rewrite Hresolve.
  eexists. split; [reflexivity | ].
  cbn [Main.context].
  destruct Hctx as [-> | ->]; vm_compute; reflexivity.
Qed.

(** X25. The loop has no bound of its own: against a collaborator that
    answers every request with the plan of the same fetch, the run from the
    empty memory is still going after any number of passes. *)
Theorem loop_has_no_bound (fuel : nat) :
  Main.run (Scenario.always Scenario.fetch_plan) Scenario.no_preferences fuel
           (Main.initial_state None)
  = None.
Proof.
  assert (H : forall s,
             Main.context s = Scenario.seeded_context
             \/ Main.context s = Cover.fetched_context ->
             Main.run (Scenario.always Scenario.fetch_plan)
                      Scenario.no_preferences fuel s = None).
  { induction fuel as [ | fuel IH]; intros s Hs; [reflexivity | ].
    destruct (fetch_again s Hs) as [s' [Hbody Hs']].
    cbn [Main.run]. rewrite Hbody. apply IH. right. exact Hs'. }
  apply H. left. reflexivity.
Qed.

(** ** Crashes *)

Lemma resolve_list_raises (context : dict) (l : list value) (e : exn) :
  Main.resolve_list context l = Raise e -> exn_cls e = TypeError.
Proof.
  unfold Main.resolve_list. revert e.
  induction l as [ | x l IH]; intros e; [discriminate | ].
  cbn [mapM]. unfold dict_get_default at 1.
  destruct x as [ | b | z | f | s | l' | d]; cbn [py_hash bind];
    try (destruct (mapM _ l) as [ys | e'];
         [discriminate | intros H; injection H as <-; apply IH; reflexivity]);
    try (intros H; injection H as <-; reflexivity).
  destruct (dict_get s context); cbn [bind];
    (destruct (mapM _ l) as [ys | e'];
     [discriminate | intros H; injection H as <-; apply IH; reflexivity]).
Qed.

Lemma first_pass_raises (context : dict) (items : dict) :
  forall (resolved unresolved : dict) (e : exn),
    Main.first_pass context items resolved unresolved = Raise e ->
    exn_cls e = TypeError.
Proof.
  induction items as [ | [k v] items IH]; intros resolved unresolved e;
    [discriminate | ].
  cbn [Main.first_pass].
  destruct v as [ | b | z | f | s | l | d]; try apply IH.
  - destruct (dict_get s context); apply IH.
  - destruct (Main.resolve_list context l) as [l' | e'] eqn:Hl; cbn [bind].
    + apply IH.
    + intros H. injection H as <-. exact (resolve_list_raises _ _ _ Hl).
Qed.

Lemma merge_raises (resolved : dict) (llm_result : value) (items : dict) :
  forall (final : dict) (e : exn),
    Main.merge items resolved llm_result final = Raise e ->
    exn_cls e = TypeError.
Proof.
  induction items as [ | [k v] items IH]; intros final e; [discriminate | ].
  cbn [Main.merge].
  destruct (dict_get k resolved) as [x | ]; [apply IH | ].
  destruct llm_result as [ | b | z | f | s | l | d]; cbn [str_in bind];
    try (intros H; injection H as <-; reflexivity).
  - destruct (str_contains k s); cbn [getitem_str bind];
      [intros H; injection H as <-; reflexivity | apply IH].
  - destruct (existsb _ l); cbn [getitem_str bind];
      [intros H; injection H as <-; reflexivity | apply IH].
  - unfold dict_mem. destruct (dict_get k d) as [y | ] eqn:Hy;
      cbn [getitem_str bind]; [ | apply IH].
    rewrite Hy. cbn [bind].
    destruct (negb (Main.is_none y)); apply IH.
Qed.

Lemma resolver_raises_type_error llm (params context : dict) (calls : nat)
      (e : exn) :
  fst (Main.resolve_params_with_llm llm params context calls) = Raise e ->
  exn_cls e = TypeError.
Proof.
  unfold Main.resolve_params_with_llm.
  destruct (Main.first_pass context params [] []) as [[resolved unresolved] | e']
    eqn:Hfirst.
  - destruct (negb _ || negb _); [discriminate | ].
    cbn [Llm.generate_content fst]. apply merge_raises.
  - cbn [fst]. intros H. injection H as <-.
    exact (first_pass_raises _ _ _ _ _ Hfirst).
Qed.

(** X26. Of the computations of a pass (the user interface, the client's
    construction and the memory file set aside), the only exception that
    escapes the loop is a [TypeError] raised while the parameters are
    resolved: by a sequence that holds a list or a dict, or by an answer of
    the collaborator that is no object.  It leaves the context, the executed
    steps and the results as they were. *)
Theorem loop_crashes_with_type_error_only llm di (s s' : Main.run_state)
        (e : exn) :
  Main.loop_body llm di s = Main.Crashed e s' ->
  exn_cls e = TypeError
  /\ Main.context s' = Main.context s
  /\ Main.executed_steps s' = Main.executed_steps s
  /\ Main.results s' = Main.results s.
Proof.
  unfold Main.loop_body.
  pose proof (planner_goes_on_with_a_step
                llm di (Main.context s) (Main.executed_steps s) (Main.calls s))
    as Hstep.
  destruct (Decision.decide_next_step _ _ _ _ _) as [d_plan calls1].
  cbn [fst] in Hstep.
  destruct (Decision.done d_plan); [discriminate | ].
  destruct (Hstep eq_refl) as [step [Hnext _]]. rewrite Hnext.
  cbn [Main.with_calls Main.with_step_count Main.context Main.calls
       Main.results Main.executed_steps Main.step_count Main.file].
  pose proof (resolver_raises_type_error
                llm (Decision.parameters step) (Main.context s) calls1)
    as Hraise.
  destruct (Main.resolve_params_with_llm _ _ _ _) as [[resolved | e'] calls2];
    [discriminate | ].
  intros H. injection H as <- <-. split; [apply Hraise; reflexivity | ].
  repeat split.
Qed.

Lemma loop_crashes_with_type_error_only_witness :
  exn_cls (Exn TypeError "unhashable type: 'list'") = TypeError
  /\ Main.context
       (Main.state_of
          (Main.loop_body (Scenario.always Cover.nested_plan)
                          Scenario.no_preferences (Main.initial_state None)))
     = Main.context (Main.initial_state None)
  /\ Main.executed_steps
       (Main.state_of
          (Main.loop_body (Scenario.always Cover.nested_plan)
                          Scenario.no_preferences (Main.initial_state None)))
     = Main.executed_steps (Main.initial_state None)
  /\ Main.results
       (Main.state_of
          (Main.loop_body (Scenario.always Cover.nested_plan)
                          Scenario.no_preferences (Main.initial_state None)))
     = Main.results (Main.initial_state None).
Proof.
  apply (loop_crashes_with_type_error_only
           (Scenario.always Cover.nested_plan) Scenario.no_preferences
           (Main.initial_state None)).
  vm_compute. reflexivity.
Defined.
